(** * Fee computation of the permit application wizard

    A shallow embedding of [src/components/public/steps/ApplicationFeeStep.tsx]:
    the composite-fee rule, the fee handler with its validation guard and its
    try/catch around the asynchronous lookup, and the two React effects that
    drive it.  JavaScript numbers are the finite doubles, read as the
    rationals ([Q]) they denote; the sums of the fee step are written with
    the exact sum, and where a result depends on the rounding of binary64
    (the printing of large amounts, the charts of the report) the operations
    round with [F64.round].  Strings are byte strings; in the fee step the
    ASCII letters are the only ones affected by [toLowerCase].  Further
    sections embed the code around the fee step: the review step that reads
    the breakdown, the document picker, the map of outstanding fees and the
    charts of the report. *)

From Stdlib Require Import ZArith QArith Qround Qabs Qpower Lqa String Ascii DecimalString
  DecimalN DecimalPos List Bool Lia.
Import ListNotations.

Open Scope string_scope.

(** ** JavaScript primitives used by the component *)

Module JS.

(** [String.prototype.toLowerCase], on the ASCII range. *)
Definition lower_ascii (c : ascii) : ascii :=
  let n := nat_of_ascii c in
  if ((65 <=? n) && (n <=? 90))%nat then ascii_of_nat (n + 32) else c.

Fixpoint toLowerCase (s : string) : string :=
  match s with
  | EmptyString => EmptyString
  | String c r => String (lower_ascii c) (toLowerCase r)
  end.

(** Truthiness of a possibly missing string: [undefined] and [''] are falsy. *)
Definition truthy_string (v : option string) : bool :=
  match v with
  | Some s => negb (s =? "")
  | None => false
  end.

(** [v || d] where [v] is a possibly missing string and [d] a string. *)
Definition or_string (v : option string) (d : string) : string :=
  match v with
  | Some s => if s =? "" then d else s
  | None => d
  end.

(** [a || d] on two strings. *)
Definition or_default (a d : string) : string :=
  if a =? "" then d else a.

(** [x || d] on numbers: [0] is falsy. *)
Definition or_number (x d : Q) : Q :=
  if Qeq_bool x 0 then d else x.

(** Truthiness of an object reference or [null]/[undefined]. *)
Definition truthy_object {A : Type} (v : option A) : bool :=
  match v with
  | Some _ => true
  | None => false
  end.

(** [v?.toLowerCase() === lit]: a missing receiver gives [undefined],
    which is never strictly equal to a string. *)
Definition lowered_equals (v : option string) (lit : string) : bool :=
  match v with
  | Some s => toLowerCase s =? lit
  | None => false
  end.

(** [v === lit] for a possibly missing string. *)
Definition strict_equals (v : option string) (lit : string) : bool :=
  match v with
  | Some s => s =? lit
  | None => false
  end.

End JS.

(** ** Data exchanged with the fee hook *)

(** Where a schedule came from. *)
Inductive FeeSource : Type :=
| Database
| Default.

(** [FeeCalculationParams], as built in [handleCalculateFees]. *)
Record FeeCalculationParams : Type := mkParams {
  activityType : string;
  activitySubCategory : string;
  permitType : string;
  activityLevel : string;
  prescribedActivityId : string
}.

(** The object returned by [calculateFeesWithSupabase], and, once the
    component has spread it and added [compositeFee], the breakdown it stores
    and hands on.  [compositeFee] is absent in an object that never went
    through the component. *)
Record FeeResult : Type := mkFees {
  administrationFee : Q;
  technicalFee : Q;
  totalFee : Q;
  processingDays : Z;
  administrationForm : string;
  technicalForm : string;
  source : FeeSource;
  compositeFee : option Q
}.

(** [{ ...fees, compositeFee: c, totalFee: t }] *)
Definition spread_with (fees : FeeResult) (c t : Q) : FeeResult :=
  {| administrationFee := administrationFee fees;
     technicalFee := technicalFee fees;
     totalFee := t;
     processingDays := processingDays fees;
     administrationForm := administrationForm fees;
     technicalForm := technicalForm fees;
     source := source fees;
     compositeFee := Some c |}.

(** Result of [validateParameters]. *)
Record Validation : Type := mkValidation {
  isValid : bool;
  errors : list string
}.

(** What a rejected promise carries: an [Error] with its message, or any
    other value. *)
Inductive Thrown : Type :=
| ErrorObject (message : string)
| OtherValue.

(** How the awaited lookup settles: fulfilled with a result or with a falsy
    value, or rejected. *)
Inductive LookupOutcome : Type :=
| Fulfilled (fees : option FeeResult)
| Rejected (error : Thrown).

(** The object returned by [useFeeCalculation()]. *)
Record FeeCalculationHook : Type := mkHook {
  calculateFeesWithSupabase : FeeCalculationParams -> LookupOutcome;
  loading : bool;
  validateParameters : FeeCalculationParams -> Validation
}.

(** The [data] prop: the fields of the application draft the step reads. *)
Module FormData.
Record t : Type := mk {
  permit_type : option string;
  permit_type_id : option string;
  activity_level : option string;
  activity_category : option string;
  activity_subcategory : option string;
  prescribed_activity_id : option string;
  calculatedFees : option FeeResult
}.
End FormData.

(** The argument of [onChange]: a partial object, a missing key is [None]. *)
Module Change.
Record t : Type := mk {
  administration_fee : option Q;
  composite_fee : option Q;
  technical_fee : option Q;
  total_fee : option Q;
  fee_amount : option Q;
  processing_days : option Z;
  administration_form : option string;
  technical_form : option string;
  fee_source : option FeeSource;
  calculatedFees : option FeeResult;
  fee_breakdown : option FeeResult
}.
End Change.

(** ** Component state and effects *)

(** The [useState] cells and the [useRef] flag of the component. *)
Record ComponentState : Type := mkState {
  calculatedFees : option FeeResult;
  calculationError : string;
  validationErrors : list string;
  hasCalculatedOnce : bool
}.

(** The component state together with what the component did to its
    collaborators: the lookups it started and the [onChange] calls it made,
    oldest first. *)
Record World : Type := mkWorld {
  ui : ComponentState;
  lookups : list FeeCalculationParams;
  changes : list Change.t
}.

(** Computations that update the world and either finish or throw. *)
Inductive Completion (A : Type) : Type :=
| Normal (a : A)
| Throw (e : Thrown).
Arguments Normal {A} a.
Arguments Throw {A} e.

Definition M (A : Type) : Type := World -> Completion A * World.

Definition ret {A : Type} (a : A) : M A := fun w => (Normal a, w).

Definition bind {A B : Type} (c : M A) (k : A -> M B) : M B :=
  fun w =>
    match c w with
    | (Normal a, w') => k a w'
    | (Throw e, w') => (Throw e, w')
    end.

(** [try { c } catch (error) { h error }] *)
Definition try_catch {A : Type} (c : M A) (h : Thrown -> M A) : M A :=
  fun w =>
    match c w with
    | (Normal a, w') => (Normal a, w')
    | (Throw e, w') => h e w'
    end.

Declare Scope fee_scope.
Delimit Scope fee_scope with fee.
Notation "x <- c ;; k" := (bind c (fun x => k))
  (at level 61, c at next level, right associativity) : fee_scope.
Notation "c ;;; k" := (bind c (fun _ => k))
  (at level 61, right associativity) : fee_scope.
Open Scope fee_scope.

Definition update_ui (f : ComponentState -> ComponentState) : M unit :=
  fun w => (Normal tt, {| ui := f (ui w); lookups := lookups w; changes := changes w |}).

Definition setCalculationError (msg : string) : M unit :=
  update_ui (fun s =>
    {| calculatedFees := calculatedFees s; calculationError := msg;
       validationErrors := validationErrors s; hasCalculatedOnce := hasCalculatedOnce s |}).

Definition setValidationErrors (errs : list string) : M unit :=
  update_ui (fun s =>
    {| calculatedFees := calculatedFees s; calculationError := calculationError s;
       validationErrors := errs; hasCalculatedOnce := hasCalculatedOnce s |}).

Definition setCalculatedFees (fees : FeeResult) : M unit :=
  update_ui (fun s =>
    {| calculatedFees := Some fees; calculationError := calculationError s;
       validationErrors := validationErrors s; hasCalculatedOnce := hasCalculatedOnce s |}).

(** [hasCalculatedOnce.current = true] *)
Definition markCalculatedOnce : M unit :=
  update_ui (fun s =>
    {| calculatedFees := calculatedFees s; calculationError := calculationError s;
       validationErrors := validationErrors s; hasCalculatedOnce := true |}).

Definition onChange (c : Change.t) : M unit :=
  fun w => (Normal tt, {| ui := ui w; lookups := lookups w; changes := changes w ++ [c] |}).

(** [await calculateFeesWithSupabase(params)]: the call is recorded, and a
    rejected promise throws at the [await]. *)
Definition await_lookup (hook : FeeCalculationHook) (params : FeeCalculationParams)
  : M (option FeeResult) :=
  fun w =>
    let w' := {| ui := ui w; lookups := lookups w ++ [params]; changes := changes w |} in
    match calculateFeesWithSupabase hook params with
    | Fulfilled fees => (Normal fees, w')
    | Rejected e => (Throw e, w')
    end.

Definition read_ui : M ComponentState := fun w => (Normal (ui w), w).

(** ** The component *)

Definition ENVIRONMENTAL_NAME : string := "environmental".
Definition ENVIRONMENTAL_ID : string := "1655df4b-bfcf-47de-85fa-c4567c749362".

Definition isEnvironmentalPermit (data : FormData.t) : bool :=
  JS.lowered_equals (FormData.permit_type data) ENVIRONMENTAL_NAME
  || JS.strict_equals (FormData.permit_type_id data) ENVIRONMENTAL_ID.

Definition COMPOSITE_FEE : Q := 2000.

Definition compositeFeeAmount (data : FormData.t) : Q :=
  if isEnvironmentalPermit data then COMPOSITE_FEE else 0.

(** The [params] object of [handleCalculateFees]. *)
Definition build_params (data : FormData.t) : FeeCalculationParams :=
  let activityLevel := JS.or_string (FormData.activity_level data) "" in
  let activityCategory := JS.or_string (FormData.activity_category data) "" in
  let activitySubcategory := JS.or_string (FormData.activity_subcategory data) "" in
  let prescribedActivityId := JS.or_string (FormData.prescribed_activity_id data) "" in
  {| activityType := JS.or_default activityCategory "new";
     activitySubCategory := JS.or_default activitySubcategory "general";
     permitType := activityLevel;
     activityLevel := activityLevel;
     prescribedActivityId := prescribedActivityId |}.

(** The message shown for a thrown value. *)
Definition error_message (error : Thrown) : string :=
  match error with
  | ErrorObject message => message
  | OtherValue => "Unknown error occurred"
  end.

(** The object passed to [onChange] after a successful lookup. *)
Definition full_change (fees : FeeResult) (compositeFeeAmount totalWithComposite : Q)
    (updatedFees : FeeResult) : Change.t :=
  {| Change.administration_fee := Some (totalFee fees);
     Change.composite_fee := Some compositeFeeAmount;
     Change.technical_fee := Some 0;
     Change.total_fee := Some totalWithComposite;
     Change.fee_amount := Some totalWithComposite;
     Change.processing_days := Some (processingDays fees);
     Change.administration_form := Some (administrationForm fees);
     Change.technical_form := Some (technicalForm fees);
     Change.fee_source := Some (source fees);
     Change.calculatedFees := Some updatedFees;
     Change.fee_breakdown := Some updatedFees |}.

(** The object passed to [onChange] by the recalculation effect. *)
Definition composite_change (compositeFeeAmount totalWithComposite : Q)
    (updatedFees : FeeResult) : Change.t :=
  {| Change.administration_fee := None;
     Change.composite_fee := Some compositeFeeAmount;
     Change.technical_fee := None;
     Change.total_fee := Some totalWithComposite;
     Change.fee_amount := Some totalWithComposite;
     Change.processing_days := None;
     Change.administration_form := None;
     Change.technical_form := None;
     Change.fee_source := None;
     Change.calculatedFees := Some updatedFees;
     Change.fee_breakdown := Some updatedFees |}.

Definition handleCalculateFees (hook : FeeCalculationHook) (data : FormData.t) : M unit :=
  setCalculationError "" ;;;
  setValidationErrors [] ;;;
  let params := build_params data in
  let validation := validateParameters hook params in
  if negb (isValid validation) then
    setValidationErrors (errors validation)
  else
    try_catch
      (fees <- await_lookup hook params ;;
       match fees with
       | Some fees =>
           let compositeFeeAmount := compositeFeeAmount data in
           let totalWithComposite := totalFee fees + compositeFeeAmount in
           let updatedFees := spread_with fees compositeFeeAmount totalWithComposite in
           setCalculatedFees updatedFees ;;;
           markCalculatedOnce ;;;
           onChange (full_change fees compositeFeeAmount totalWithComposite updatedFees)
       | None => ret tt
       end)
      (fun error => setCalculationError (error_message error)).

(** [useState(data.calculatedFees || null)] and the other initial cells. *)
Definition initial_state (data : FormData.t) : ComponentState :=
  {| calculatedFees := FormData.calculatedFees data;
     calculationError := "";
     validationErrors := [];
     hasCalculatedOnce := false |}.

Definition mount (data : FormData.t) : World :=
  {| ui := initial_state data; lookups := []; changes := [] |}.

(** The first effect: auto-calculate once on mount. *)
Definition autoCalculateOnMount (hook : FeeCalculationHook) (data : FormData.t) : M unit :=
  s <- read_ui ;;
  let hasRequiredParams :=
    JS.truthy_string (FormData.activity_level data)
    && (JS.truthy_string (FormData.activity_category data)
        || JS.truthy_string (FormData.activity_subcategory data)) in
  if hasRequiredParams && negb (hasCalculatedOnce s) && negb (loading hook)
     && negb (JS.truthy_object (FormData.calculatedFees data))
  then handleCalculateFees hook data
  else ret tt.

(** The second effect: rebuild the breakdown when [isEnvironmentalPermit]
    changes. *)
Definition recalculateOnPermitChange (data : FormData.t) : M unit :=
  s <- read_ui ;;
  match hasCalculatedOnce s, calculatedFees s with
  | true, Some calculatedFees =>
      let compositeFeeAmount := compositeFeeAmount data in
      let baseFee := JS.or_number (administrationFee calculatedFees) 0 in
      let totalWithComposite := baseFee + compositeFeeAmount in
      let updatedFees := spread_with calculatedFees compositeFeeAmount totalWithComposite in
      setCalculatedFees updatedFees ;;;
      onChange (composite_change compositeFeeAmount totalWithComposite updatedFees)
  | _, _ => ret tt
  end.

(** Running a computation for its final world. *)
Definition exec {A : Type} (c : M A) (w : World) : World := snd (c w).

(** ** Rounding to binary64

    The value a number literal or the exact result of an operation takes
    as a double: the nearest double, the one with the even significand when
    two are equally near.  Doubles below [2^-1022] are subnormal, with the
    spacing [2^-1074]; a result of [2^1024] or more stands for an infinity,
    which the numbers of this development do not include. *)

Module F64.

Local Open Scope Q_scope.

Definition pow2 (k : Z) : Q := 2 ^ k.

(** The exponent of the binade of a positive number: [2^k <= x < 2^(k+1)]. *)
Definition binade (x : Q) : Z :=
  let k := (Z.log2 (Qnum x) - Z.log2 (Z.pos (Qden x)))%Z in
  if Qle_bool (pow2 k) x then k else (k - 1)%Z.

(** The exponent of the spacing of the doubles around a positive number. *)
Definition ulp_exponent (x : Q) : Z := (Z.max (binade x) (-1022) - 52)%Z.

(** The nearest integer, the even one on a tie. *)
Definition nearest_even (y : Q) : Z :=
  let f := Qfloor y in
  match Qcompare (y - inject_Z f) (1 # 2) with
  | Lt => f
  | Gt => (f + 1)%Z
  | Eq => if Z.even f then f else (f + 1)%Z
  end.

Definition round_positive (x : Q) : Q :=
  let u := pow2 (ulp_exponent x) in
  inject_Z (nearest_even (x / u)) * u.

Definition round (x : Q) : Q :=
  match Qnum x with
  | Z0 => 0
  | Zpos _ => round_positive x
  | Zneg _ => - round_positive (- x)
  end.

(** The arithmetic of JavaScript on two doubles. *)
Definition add (a b : Q) : Q := round (a + b).
Definition mul (a b : Q) : Q := round (a * b).
Definition div (a b : Q) : Q := round (a / b).

(** A number that is a double. *)
Definition representable (x : Q) : Prop := round x == x.

End F64.

(** ** Display of amounts *)

Definition is_digit (c : ascii) : bool :=
  let n := nat_of_ascii c in ((48 <=? n) && (n <=? 57))%nat.

(** A word character of a regular expression: a letter, a digit or [_]. *)
Definition is_word (c : ascii) : bool :=
  let n := nat_of_ascii c in
  (is_digit c || ((65 <=? n) && (n <=? 90)) || ((97 <=? n) && (n <=? 122)) || (n =? 95))%nat.

(** Length of the run of digits a string starts with. *)
Fixpoint digit_run (s : string) : nat :=
  match s with
  | EmptyString => O
  | String c r => if is_digit c then S (digit_run r) else O
  end.

(** [s.replace(/\B(?=(\d{3})+(?!\d))/g, ',')]: a comma goes in front of every
    position that is not a word boundary and from which the digits up to the
    next non-digit form whole groups of three. *)
Fixpoint group_thousands (prev_is_word : bool) (s : string) : string :=
  match s with
  | EmptyString => EmptyString
  | String c r =>
      let run := digit_run s in
      let rest := String c (group_thousands (is_word c) r) in
      if (prev_is_word && (0 <? run) && (run mod 3 =? 0))%nat
      then String "," rest else rest
  end.

Definition decimal_of_Z (n : Z) : string :=
  NilZero.string_of_uint (N.to_uint (Z.to_N n)).

(** The number of hundredths [toFixed(2)] prints for a non-negative amount:
    the integer nearest to [100 * a], the larger one on a tie. *)
Definition hundredths (a : Q) : Z := Qfloor (a * 100 + (1 # 2))%Q.

(** A string of digits without the zeros it ends with. *)
Fixpoint strip_trailing_zeros (s : string) : string :=
  match s with
  | EmptyString => EmptyString
  | String c r =>
      match strip_trailing_zeros r with
      | EmptyString => if Ascii.eqb c "0" then EmptyString else String c EmptyString
      | r' => String c r'
      end
  end.

(** Whether the integer [c], read as a decimal literal, is the double [x]. *)
Definition reads_back (c x : Z) : bool :=
  Qeq_bool (F64.round (inject_Z c)) (inject_Z x).

(** The integer with the fewest significant digits that reads back as the
    [n]-digit double [x]; of two with the same number of digits the one
    nearer to [x], and the one with the even last digit when they are
    equally near.  [k] is the number of significant digits tried first;
    seventeen digits always suffice for a double. *)
Fixpoint shortest (fuel : nat) (k n x : Z) : Z :=
  match fuel with
  | O => x
  | S fuel' =>
      let p := (10 ^ (n - k))%Z in
      let lo := (x / p * p)%Z in
      let hi := (lo + p)%Z in
      match reads_back lo x, reads_back hi x with
      | true, true =>
          match (x - lo ?= hi - x)%Z with
          | Lt => lo
          | Gt => hi
          | Eq => if Z.even (lo / p) then lo else hi
          end
      | true, false => lo
      | false, true => hi
      | false, false => shortest fuel' (k + 1)%Z n x
      end
  end.

(** [Number.prototype.toString] for a number of [10^21] or more: the
    shortest digits that read back as the double, in exponent notation. *)
Definition exponent_notation (a : Q) : string :=
  let d := F64.round a in
  if Qle_bool (F64.pow2 1024) d then "Infinity"
  else
    let x := Qfloor d in
    let n := Z.of_nat (String.length (decimal_of_Z x)) in
    let c := shortest 17 1 n x in
    let e := (Z.of_nat (String.length (decimal_of_Z c)) - 1)%Z in
    match strip_trailing_zeros (decimal_of_Z c) with
    | String first EmptyString => String first ("e+" ++ decimal_of_Z e)
    | String first rest => String first ("." ++ rest ++ "e+" ++ decimal_of_Z e)
    | EmptyString => EmptyString
    end.

(** From [10^21] on [toFixed] prints like [toString]. *)
Definition TO_FIXED_LIMIT : Q := inject_Z (10 ^ 21).

(** [x.toFixed(2)]: the sign, then exponent notation for an absolute value
    of [10^21] or more and otherwise the digits with two decimals. *)
Definition toFixed2 (x : Q) : string :=
  let sign := if Qle_bool 0 x then "" else "-" in
  if Qle_bool TO_FIXED_LIMIT (Qabs x) then sign ++ exponent_notation (Qabs x)
  else
    let n := hundredths (Qabs x) in
    let frac := (n mod 100)%Z in
    sign ++ decimal_of_Z (n / 100) ++ "."
         ++ (if (frac <? 10)%Z then "0" else "") ++ decimal_of_Z frac.

Definition formatCurrency (amount : Q) : string :=
  "PGK " ++ JS.or_default (group_thousands false (toFixed2 amount)) "0.00".

(** ** The fee engine behind the hook

    [useFeeCalculation] is not part of the sources at hand; the definitions
    of this module follow the written specification of the engine. *)

Module Engine.

(** The resolved statutory basis of a fee. *)
Record FeeSchedule : Type := mkSchedule {
  annualRecurrentFee : Q;
  scheduleDays : Z;
  scheduleSource : FeeSource
}.

(** The system of record as the resolver sees it, with the built-in
    defaults of the engine. *)
Record SystemOfRecord : Type := mkRecord {
  byPrescribedActivity : string -> option Q;
  byClassification : string -> string -> string -> option Q;
  defaultAnnualRecurrentFee : Q;
  defaultProcessingDays : positive;
  administrationFormId : string;
  technicalFormId : string
}.

(** Modelled from the spec: the parameter validator of the hook
    ([validateParameters]) is missing.  The activity level must be
    non-empty, with the message the specification gives; a request whose
    activity type and sub-category are both empty is an error, whose
    wording the specification leaves open. *)
Definition validate (request : FeeCalculationParams) : Validation :=
  let errs :=
    ((if activityLevel request =? "" then ["Activity level is required"] else [])
     ++ (if (activityType request =? "") && (activitySubCategory request =? "")
         then ["Activity type or sub-category is required"] else []))%list in
  {| isValid := match errs with [] => true | _ :: _ => false end;
     errors := errs |}.

(** Modelled from the spec: the statutory table of processing days is
    missing from the sources.  Level 2.1 gives 30 days, levels 2.2, 2.3
    and 2.4 give 60, level 3 gives 90, any other level the documented
    default. *)
Definition processingDaysFor (default : positive) (level : string) : Z :=
  if level =? "2.1" then 30%Z
  else if (level =? "2.2") || (level =? "2.3") || (level =? "2.4") then 60%Z
  else if level =? "3" then 90%Z
  else Z.pos default.

(** Rounding to two decimal places, half up. *)
Definition round_half_up_2dp (x : Q) : Q := Qfloor (x * 100 + (1 # 2))%Q # 100.

(** Modelled from the spec: the prorated fee formula is missing from the
    sources.  [(annualRecurrentFee / 365) * processingDays], rounded half
    up to two decimal places. *)
Definition computeAdministrationFee (schedule : FeeSchedule) : Q :=
  round_half_up_2dp
    ((annualRecurrentFee schedule / 365) * inject_Z (scheduleDays schedule)).

(** Modelled from the spec: the classification resolver is missing from
    the sources.  A present prescribed-activity identifier is looked up
    first, then the combination of level, type and sub-category; when both
    miss, the default schedule is used and marked as such.  The processing
    days come from the level alone. *)
Definition resolve (sor : SystemOfRecord) (request : FeeCalculationParams) : FeeSchedule :=
  let days := processingDaysFor (defaultProcessingDays sor) (activityLevel request) in
  let byId :=
    if prescribedActivityId request =? "" then None
    else byPrescribedActivity sor (prescribedActivityId request) in
  match byId with
  | Some fee => mkSchedule fee days Database
  | None =>
      match byClassification sor (activityLevel request) (activityType request)
              (activitySubCategory request) with
      | Some fee => mkSchedule fee days Database
      | None => mkSchedule (defaultAnnualRecurrentFee sor) days Default
      end
  end.

(** Modelled from the spec: [calculateFeesWithSupabase] is missing from
    the sources.  It resolves the schedule and applies the formula; the
    amount it reports as its total is the base administration fee, the
    only amount of the engine before the composite rule. *)
Definition calculateFees (sor : SystemOfRecord) (request : FeeCalculationParams)
  : LookupOutcome :=
  let schedule := resolve sor request in
  let fee := computeAdministrationFee schedule in
  Fulfilled (Some
    {| administrationFee := fee;
       technicalFee := 0;
       totalFee := fee;
       processingDays := scheduleDays schedule;
       administrationForm := administrationFormId sor;
       technicalForm := technicalFormId sor;
       source := scheduleSource schedule;
       compositeFee := None |}).

(** The hook assembled from the parts above. *)
Definition hook (sor : SystemOfRecord) : FeeCalculationHook :=
  {| calculateFeesWithSupabase := calculateFees sor;
     loading := false;
     validateParameters := validate |}.

End Engine.

(** ** Notions the properties are stated with *)

(** The breakdown the recalculation effect stores when it fires. *)
Definition rebuilt (data : FormData.t) (b : FeeResult) : FeeResult :=
  spread_with b (compositeFeeAmount data)
    (JS.or_number (administrationFee b) 0 + compositeFeeAmount data).

(** The total of a breakdown is its administration fee plus its composite
    fee. *)
Definition breakdown_invariant (b : FeeResult) : Prop :=
  match compositeFee b with
  | Some c => totalFee b == administrationFee b + c
  | None => False
  end.


(** Every key of the argument is present. *)
Definition complete_change (c : Change.t) : bool :=
  JS.truthy_object (Change.administration_fee c)
  && JS.truthy_object (Change.composite_fee c)
  && JS.truthy_object (Change.technical_fee c)
  && JS.truthy_object (Change.total_fee c)
  && JS.truthy_object (Change.fee_amount c)
  && JS.truthy_object (Change.processing_days c)
  && JS.truthy_object (Change.administration_form c)
  && JS.truthy_object (Change.technical_form c)
  && JS.truthy_object (Change.fee_source c)
  && JS.truthy_object (Change.calculatedFees c)
  && JS.truthy_object (Change.fee_breakdown c).

(** The permit type changes several times; the recalculation effect runs
    after each change with the draft of that moment. *)
Fixpoint toggles (drafts : list FormData.t) : M unit :=
  match drafts with
  | [] => ret tt
  | data :: rest => recalculateOnPermitChange data ;;; toggles rest
  end.

Definition is_lower_letter (c : ascii) : bool :=
  let n := nat_of_ascii c in ((97 <=? n) && (n <=? 122))%nat.

Definition upper_ascii (c : ascii) : ascii :=
  if is_lower_letter c then ascii_of_nat (nat_of_ascii c - 32) else c.

Fixpoint all_lower_letters (t : string) : bool :=
  match t with
  | EmptyString => true
  | String d r => is_lower_letter d && all_lower_letters r
  end.

(** [s] spells [t] up to the case of each letter. *)
Fixpoint casing_of (s t : string) : Prop :=
  match s, t with
  | EmptyString, EmptyString => True
  | String c s', String d t' => (c = d \/ c = upper_ascii d) /\ casing_of s' t'
  | _, _ => False
  end.

(** A draft with the given permit type name and identifier and nothing
    else. *)
Definition permit_only (name id : option string) : FormData.t :=
  FormData.mk name id None None None None None.

(** ** Sample drafts and hooks *)

(** A hook result whose total carries a technical fee besides the
    administration fee. *)
Definition sample_fees : FeeResult :=
  mkFees 100 50 150 30 "Form 1" "Form 2" Database None.

Definition accept_all (_ : FeeCalculationParams) : Validation := mkValidation true [].

Definition sample_hook : FeeCalculationHook :=
  mkHook (fun _ => Fulfilled (Some sample_fees)) false accept_all.

Definition failing_hook : FeeCalculationHook :=
  mkHook (fun _ => Rejected (ErrorObject "Failed to fetch")) false accept_all.

Definition rejecting_hook : FeeCalculationHook :=
  mkHook (fun _ => Fulfilled (Some sample_fees)) false
         (fun _ => mkValidation false ["Activity level is required"]).

Definition sample_draft : FormData.t :=
  FormData.mk (Some "Mining") None (Some "2.1") (Some "Manufacturing") None None None.

Definition environmental_draft : FormData.t :=
  FormData.mk (Some "Environmental") None (Some "2.1") (Some "Manufacturing") None None None.

(** The breakdown stored for [sample_draft] from [sample_fees]. *)
Definition sample_breakdown : FeeResult :=
  mkFees 100 50 150 30 "Form 1" "Form 2" Database (Some 0).

(** A world in which the component has calculated once and stores [b]. *)
Definition calculated_world (b : FeeResult) : World :=
  mkWorld (mkState (Some b) "" [] true) [] [].

(** A draft as the wizard holds it once a breakdown was reported and
    stored under [calculatedFees]. *)
Definition cached_draft (data : FormData.t) (b : FeeResult) : FormData.t :=
  FormData.mk (FormData.permit_type data) (FormData.permit_type_id data)
    (FormData.activity_level data) (FormData.activity_category data)
    (FormData.activity_subcategory data) (FormData.prescribed_activity_id data)
    (Some b).

(** A draft with an activity level but neither a category (undefined) nor a
    sub-category (the empty string). *)
Definition uncategorised_draft : FormData.t :=
  FormData.mk (Some "Mining") None (Some "2.1") None (Some "") None None.

Definition sample_record : Engine.SystemOfRecord :=
  Engine.mkRecord (fun _ => None)
    (fun level _ _ => if level =? "2.1" then Some 36500 else None)
    10000 90 "Form 1" "Form 2".

(** ** More notions for the display of amounts *)

Fixpoint all_digits (s : string) : bool :=
  match s with
  | EmptyString => true
  | String c r => is_digit c && all_digits r
  end.

(** The string without its commas. *)
Fixpoint strip_commas (s : string) : string :=
  match s with
  | EmptyString => EmptyString
  | String c r => if Ascii.eqb c "," then strip_commas r else String c (strip_commas r)
  end.

Fixpoint has_comma (s : string) : bool :=
  match s with
  | EmptyString => false
  | String c r => Ascii.eqb c "," || has_comma r
  end.

(** A comma after every third character of a list read from its head, as
    long as more characters follow. *)
Fixpoint every_third (l : list ascii) : list ascii :=
  match l with
  | a :: l1 =>
      match l1 with
      | b :: l2 =>
          match l2 with
          | c :: l3 =>
              match l3 with
              | [] => l
              | _ :: _ => a :: b :: c :: ","%char :: every_third l3
              end
          | [] => l
          end
      | [] => l
      end
  | [] => l
  end.

(** Digits grouped in threes from the right. *)
Definition group_from_right (digits : string) : string :=
  string_of_list_ascii (rev (every_third (rev (list_ascii_of_string digits)))).

(** The number a string of decimal digits denotes. *)
Definition read_digits (s : string) : option Z :=
  option_map (fun u => Z.of_N (N.of_uint u)) (NilZero.uint_of_string s).

(** The sign [toFixed] prints. *)
Definition sign_of (x : Q) : string := if Qle_bool 0 x then "" else "-".

(** ** What the fee step shows *)

(** The rows of the breakdown panel: the application fee, the composite
    fee when the draft is of the Environmental category, the total and the
    processing days (or [N/A]). *)
Record FeePanel : Type := mkPanel {
  application_fee_row : string;
  composite_fee_row : option string;
  total_fee_row : string;
  processing_days_row : Z + string
}.

(** The panel is rendered only when a breakdown is stored. *)
Definition render_panel (data : FormData.t) (s : ComponentState) : option FeePanel :=
  match calculatedFees s with
  | Some fees =>
      Some {| application_fee_row := formatCurrency (JS.or_number (administrationFee fees) 0);
              composite_fee_row :=
                if isEnvironmentalPermit data then Some (formatCurrency COMPOSITE_FEE) else None;
              total_fee_row := formatCurrency (JS.or_number (totalFee fees) 0);
              processing_days_row :=
                if (processingDays fees =? 0)%Z then inr "N/A" else inl (processingDays fees) |}
  | None => None
  end.

(** The hundredths a row printed by [formatCurrency] for [amount] shows. *)
Definition shown_hundredths (amount : Q) : Z := hundredths (Qabs amount).

(** The part of a string before its first point and the part after it. *)
Fixpoint split_at_point (s : string) : option (string * string) :=
  match s with
  | EmptyString => None
  | String c r =>
      if Ascii.eqb c "." then Some (EmptyString, r)
      else match split_at_point r with
           | Some (a, b) => Some (String c a, b)
           | None => None
           end
  end.

(** Reading an unsigned row back: the commas are dropped, [PGK ] is
    expected in front, and the digits around the point give the
    hundredths. *)
Definition row_hundredths (row : string) : option Z :=
  match strip_commas row with
  | String "P" (String "G" (String "K" (String " " rest))) =>
      match split_at_point rest with
      | Some (whole, fraction) =>
          match read_digits whole, read_digits fraction with
          | Some i, Some f => Some (100 * i + f)%Z
          | _, _ => None
          end
      | None => None
      end
  | _ => None
  end.

(** ** The review step

    The parts of [src/components/public/steps/ReviewSubmitStep.tsx] that
    collect the attached documents and check the mandatory fields of the
    draft the fee step writes to. *)

Module Review.

(** A JavaScript value as the completeness check meets it. *)
Inductive Value : Type :=
| VString (s : string)
| VBool (b : bool)
| VUndefined
| VNull.

Definition truthy (v : Value) : bool :=
  match v with
  | VString s => negb (s =? "")
  | VBool b => b
  | VUndefined => false
  | VNull => false
  end.

(** A possibly missing string read from an object. *)
Definition of_field (v : option string) : Value :=
  match v with
  | Some s => VString s
  | None => VUndefined
  end.

(** [a || b] *)
Definition or_value (a b : Value) : Value := if truthy a then a else b.

(** [a || b] on possibly missing strings. *)
Definition or_field (a b : option string) : option string :=
  if JS.truthy_string a then a else b.

(** An uploaded file object. *)
Record File : Type := mkFile {
  file_name : option string;
  file_filename : option string;
  file_type : option string;
  file_mime_type : option string
}.

(** An entry of the list the step shows. *)
Record Document : Type := mkDocument {
  name : string;
  source : string;
  type : option string
}.

(** The fields of the draft the step reads. *)
Record Draft : Type := mkDraft {
  applicationTitle : option string;
  entity_name : option string;
  organizationName : option string;
  activity_level : option string;
  permit_type : option string;
  projectDescription : option string;
  projectStartDate : option string;
  projectLocation : option string;
  consultation_period_start : option string;
  consultation_period_end : option string;
  uploadedFiles : option (list File);
  document_uploads : option (list (string * option File));
  public_consultation_proof : option (list File);
  legal_declaration_accepted : option bool;
  compliance_commitment : option bool
}.

(** The row fetched from the [entities] table. *)
Record EntityInfo : Type := mkEntity {
  email : option string;
  phone : option string;
  contact_person_email : option string;
  contact_person_phone : option Z
}.

(** [s.replace(/_/g, ' ')] *)
Fixpoint underscores_to_spaces (s : string) : string :=
  match s with
  | EmptyString => EmptyString
  | String c r =>
      String (if Ascii.eqb c "_" then " "%char else c) (underscores_to_spaces r)
  end.

(** [s.replace(/\b\w/g, l => l.toUpperCase())]: a word character that
    follows no word character is put in upper case. *)
Fixpoint capitalize_words (prev_is_word : bool) (s : string) : string :=
  match s with
  | EmptyString => EmptyString
  | String c r =>
      String (if is_word c && negb prev_is_word then upper_ascii c else c)
             (capitalize_words (is_word c) r)
  end.

Definition docTypeName (docType : string) : string :=
  capitalize_words false (underscores_to_spaces docType).

(** [file.name || file.filename || fallback] *)
Definition display_name (file : File) (fallback : string) : string :=
  JS.or_default (JS.or_default (JS.or_string (file_name file) "")
                               (JS.or_string (file_filename file) ""))
                fallback.

Definition general_upload (file : File) : Document :=
  {| name := display_name file "Unnamed Document";
     source := "General Uploads";
     type := or_field (file_type file) (file_mime_type file) |}.

Definition required_document (entry : string * option File) : list Document :=
  match entry with
  | (docType, Some file) =>
      let docTypeName := docTypeName docType in
      [{| name := display_name file docTypeName;
          source := "Required Documents";
          type := Some docTypeName |}]
  | (_, None) => []
  end.

Definition consultation_document (file : File) : Document :=
  {| name := display_name file "Consultation Document";
     source := "Public Consultation";
     type := Some "Consultation Evidence" |}.

Definition getAllDocuments (data : Draft) : list Document :=
  (match uploadedFiles data with
   | Some files => map general_upload files
   | None => []
   end
   ++ match document_uploads data with
      | Some entries => flat_map required_document entries
      | None => []
      end
   ++ match public_consultation_proof data with
      | Some files => map consultation_document files
      | None => []
      end)%list.

(** [entityInfo?.email || entityInfo?.contact_person_email || null] *)
Definition entityEmail (entityInfo : option EntityInfo) : Value :=
  match entityInfo with
  | Some info =>
      or_value (or_value (of_field (email info)) (of_field (contact_person_email info))) VNull
  | None => VNull
  end.

(** [String(n)] for an integer. *)
Definition number_to_string (n : Z) : string :=
  if (n <? 0)%Z then "-" ++ decimal_of_Z (- n) else decimal_of_Z n.

(** [entityInfo?.phone ||
     (entityInfo?.contact_person_phone ? String(...) : null)] *)
Definition entityPhone (entityInfo : option EntityInfo) : Value :=
  match entityInfo with
  | Some info =>
      or_value (of_field (phone info))
        (match contact_person_phone info with
         | Some n => if (n =? 0)%Z then VNull else VString (number_to_string n)
         | None => VNull
         end)
  | None => VNull
  end.

Record FieldCheck : Type := mkField {
  field : string;
  label : string;
  value : Value
}.

(** [['Level 2', 'Level 3'].includes(data.activity_level)] *)
Definition needs_consultation (data : Draft) : bool :=
  match activity_level data with
  | Some l => (l =? "Level 2") || (l =? "Level 3")
  | None => false
  end.

Definition proof_attached (data : Draft) : bool :=
  match public_consultation_proof data with
  | Some files => (0 <? List.length files)%nat
  | None => false
  end.

Definition checkMandatoryFields (data : Draft) (entityInfo : option EntityInfo)
  : list (string * list FieldCheck) :=
  ([("Basic Information",
     [mkField "applicationTitle" "Application Title" (of_field (applicationTitle data));
      mkField "entity_name" "Entity"
        (or_value (of_field (entity_name data)) (of_field (organizationName data)));
      mkField "entityEmail" "Entity Email Address" (entityEmail entityInfo);
      mkField "entityPhone" "Entity Phone Number" (entityPhone entityInfo)]);
    ("Activity Classification",
     [mkField "activity_level" "Activity Level" (of_field (activity_level data));
      mkField "permit_type" "Permit Type" (of_field (permit_type data))]);
    ("Project Details",
     [mkField "projectDescription" "Project Description" (of_field (projectDescription data));
      mkField "projectStartDate" "Project Start Date" (of_field (projectStartDate data))]);
    ("Location",
     [mkField "projectLocation" "Project Location" (of_field (projectLocation data))]);
    ("Documents",
     [mkField "documents" "Required Documents"
        (VBool (0 <? List.length (getAllDocuments data))%nat)])]
   ++ (if needs_consultation data then
         [("Public Consultation",
           [mkField "consultation_period_start" "Consultation Start Date"
              (of_field (consultation_period_start data));
            mkField "consultation_period_end" "Consultation End Date"
              (of_field (consultation_period_end data));
            mkField "public_consultation_proof" "Consultation Proof Documents"
              (VBool (proof_attached data))])]
       else []))%list.

Definition sectionComplete (fields : list FieldCheck) : bool :=
  forallb (fun f => truthy (value f)) fields.

Definition completedCount (fields : list FieldCheck) : nat :=
  List.length (filter (fun f => truthy (value f)) fields).

Definition allSectionsComplete (data : Draft) (entityInfo : option EntityInfo) : bool :=
  forallb (fun section => sectionComplete (snd section))
          (checkMandatoryFields data entityInfo).

Definition truthy_flag (b : option bool) : bool :=
  match b with
  | Some true => true
  | _ => false
  end.

(** The condition under which the step shows [Ready for Submission]. *)
Definition readyForSubmission (data : Draft) (entityInfo : option EntityInfo) : bool :=
  allSectionsComplete data entityInfo
  && truthy_flag (legal_declaration_accepted data)
  && truthy_flag (compliance_commitment data).

End Review.

(** Whether a character occurs in a string. *)
Fixpoint occurs (c : ascii) (s : string) : bool :=
  match s with
  | EmptyString => false
  | String x r => Ascii.eqb x c || occurs c r
  end.

(** No word of the string starts with a lower-case letter. *)
Fixpoint words_start_upper (prev_is_word : bool) (s : string) : bool :=
  match s with
  | EmptyString => true
  | String c r =>
      (if is_word c && negb prev_is_word then negb (is_lower_letter c) else true)
      && words_start_upper (is_word c) r
  end.

(** The elements of a possibly missing array. *)
Definition array_or_empty {A : Type} (v : option (list A)) : list A :=
  match v with
  | Some l => l
  | None => []
  end.

(** The entries of [document_uploads] that hold a file. *)
Definition present_uploads (data : Review.Draft) : list (string * option Review.File) :=
  filter (fun entry => JS.truthy_object (snd entry))
         (array_or_empty (Review.document_uploads data)).

(** ** The document picker

    The selection and filtering logic of the document warehouse picker
    ([src/unnamed/part_002]). *)

Module Picker.

Record DocumentFile : Type := mkDocumentFile {
  id : string;
  filename : string;
  file_path : string;
  file_size : Z;
  mime_type : option string;
  uploaded_at : string;
  document_type : option string
}.

(** The [categories] table: identifier and name. *)
Definition categories : list (string * string) :=
  [("all", "All Documents");
   ("project_details", "Project Details");
   ("environmental_assessment", "Environmental Assessment");
   ("monitoring", "Monitoring");
   ("compliance_reports", "Compliance Reports");
   ("inspection_reports", "Inspection Reports");
   ("notices", "Notices");
   ("safety", "Safety")].

(** [categories.find(c => c.id === categoryId)], then the name or
    ['General Document']. *)
Definition getCategoryName (categoryId : string) : string :=
  match find (fun c => fst c =? categoryId) categories with
  | Some category => snd category
  | None => "General Document"
  end.

(** [haystack.includes(needle)] *)
Fixpoint includes (haystack needle : string) : bool :=
  String.prefix needle haystack
  || match haystack with
     | EmptyString => false
     | String _ rest => includes rest needle
     end.

(** [s.endsWith(suffix)] *)
Fixpoint endsWith (s suffix : string) : bool :=
  (s =? suffix)
  || match s with
     | EmptyString => false
     | String _ rest => endsWith rest suffix
     end.

(** [type.replace('*', '')]: the first star is removed. *)
Fixpoint remove_first_star (s : string) : string :=
  match s with
  | EmptyString => EmptyString
  | String c r => if Ascii.eqb c "*" then r else String c (remove_first_star r)
  end.

Definition matchesType (acceptedTypes : list string) (doc : DocumentFile) : bool :=
  (List.length acceptedTypes =? 0)%nat
  || existsb (fun type =>
                match mime_type doc with
                | Some m => includes m type
                | None => false
                end
                || endsWith (filename doc) (remove_first_star type))
             acceptedTypes.

(** [String.prototype.toLowerCase] follows the case mappings of Unicode,
    which are not spelled out here: the search takes any lower-casing that
    leaves the empty string empty. *)
Record Casing : Type := mkCasing {
  toLowerCase : string -> string;
  toLowerCase_empty : toLowerCase "" = ""
}.

Definition matches (casing : Casing) (selectedCategory searchQuery : string)
    (acceptedTypes : list string) (doc : DocumentFile) : bool :=
  let matchesCategory :=
    (selectedCategory =? "all") || JS.strict_equals (document_type doc) selectedCategory in
  let matchesSearch :=
    includes (toLowerCase casing (filename doc)) (toLowerCase casing searchQuery) in
  matchesCategory && matchesSearch && matchesType acceptedTypes doc.

Definition filteredDocuments (casing : Casing) (documents : list DocumentFile)
    (selectedCategory searchQuery : string) (acceptedTypes : list string)
  : list DocumentFile :=
  filter (matches casing selectedCategory searchQuery acceptedTypes) documents.

(** The counts shown beside the categories, in the order they are set. *)
Definition categoryCounts (documents : list DocumentFile) : list (string * nat) :=
  ("all", List.length documents)
  :: flat_map (fun cat =>
                 if negb (fst cat =? "all") then
                   [(fst cat,
                     List.length
                       (filter (fun f => JS.strict_equals (document_type f) (fst cat))
                               documents))]
                 else [])
              categories.

(** [counts[key]], the value set last for the key. *)
Definition count_of (counts : list (string * nat)) (key : string) : option nat :=
  match find (fun entry => fst entry =? key) (rev counts) with
  | Some entry => Some (snd entry)
  | None => None
  end.

Definition isSelected (selectedDocuments : list DocumentFile) (docId : string) : bool :=
  existsb (fun d => id d =? docId) selectedDocuments.

(** The new selection [handleDocumentToggle] sets. *)
Definition handleDocumentToggle (multiSelect : bool) (doc : DocumentFile)
    (prev : list DocumentFile) : list DocumentFile :=
  if multiSelect then
    if existsb (fun d => id d =? id doc) prev
    then filter (fun d => negb (id d =? id doc)) prev
    else (prev ++ [doc])%list
  else [doc].

End Picker.

(** ** The map of outstanding fees

    The classification of invoices and the marker filter of
    [src/components/revenue/RevenueFeeMap.tsx].  Dates are milliseconds
    since the epoch, an invalid date is [None]; the parsing of a date
    string, the lookup of an intent registration, the random numbers and
    the clock behind the demonstration data are inputs. *)

Module Revenue.

(** A possibly missing number; [0] and a missing number are falsy. *)
Definition truthy_number (v : option Q) : bool :=
  match v with
  | Some x => negb (Qeq_bool x 0)
  | None => false
  end.

(** [a || b] on possibly missing numbers. *)
Definition or_number (a b : option Q) : option Q := if truthy_number a then a else b.

Record Coordinates : Type := mkCoordinates {
  lat : option Q;
  coord_latitude : option Q;
  lng : option Q;
  coord_longitude : option Q
}.

Record PermitApplication : Type := mkPermitApplication {
  permit_id : option string;
  permit_title : option string;
  coordinates : option Coordinates;
  permit_intent_registration_id : option string
}.

Record IntentRegistration : Type := mkIntent {
  intent_project_title : option string;
  intent_latitude : option Q;
  intent_longitude : option Q
}.

Record Invoice : Type := mkInvoice {
  invoice_row_id : string;
  invoice_amount : Q;
  invoice_due_date : string;
  invoice_payment_status : string;
  intent_registration_id : option string;
  entity : option (option string);
  permit_applications : option PermitApplication
}.

Record PermitWithFee : Type := mkPermitWithFee {
  id : string;
  title : option string;
  project_title : option string;
  entity_name : option string;
  latitude : Q;
  longitude : Q;
  due_date : string;
  amount : Q;
  invoice_id : string;
  payment_status : string;
  is_overdue : bool;
  is_due_soon : bool
}.

(** [a < b] on dates; a comparison with an invalid date is false. *)
Definition date_lt (a : option Z) (b : Z) : bool :=
  match a with
  | Some t => (t <? b)%Z
  | None => false
  end.

Definition date_ge (a : option Z) (b : Z) : bool :=
  match a with
  | Some t => (b <=? t)%Z
  | None => false
  end.

Definition date_le (a : option Z) (b : Z) : bool :=
  match a with
  | Some t => (t <=? b)%Z
  | None => false
  end.

(** [s || null] on a possibly missing string. *)
Definition or_null (v : option string) : option string :=
  if JS.truthy_string v then v else None.

(** The first half of the body of the loop over the invoices: latitude,
    longitude and project title, from the coordinates of the permit
    application or else from the linked intent registration. *)
Definition locate (fetchIntent : string -> option IntentRegistration) (invoice : Invoice)
  : option Q * option Q * option string :=
  let permit := permit_applications invoice in
  let located :=
    match permit with
    | Some p =>
        match coordinates p with
        | Some coords =>
            (or_number (lat coords) (coord_latitude coords),
             or_number (lng coords) (coord_longitude coords),
             permit_title p)
        | None => (None, None, None)
        end
    | None => (None, None, None)
    end in
  if negb (truthy_number (fst (fst located))) || negb (truthy_number (snd (fst located)))
  then
    let intentId :=
      Review.or_field
        (match permit with Some p => permit_intent_registration_id p | None => None end)
        (intent_registration_id invoice) in
    match intentId with
    | Some i =>
        if negb (i =? "") then
          match fetchIntent i with
          | Some intent =>
              if truthy_number (intent_latitude intent)
                 && truthy_number (intent_longitude intent)
              then (intent_latitude intent, intent_longitude intent,
                    intent_project_title intent)
              else located
          | None => located
          end
        else located
    | None => located
    end
  else located.

(** The second half: the permit pushed for an invoice, if any. *)
Definition permit_of_invoice
    (parseDate : string -> option Z)
    (fetchIntent : string -> option IntentRegistration)
    (now thirtyDaysFromNow : Z) (invoice : Invoice) : option PermitWithFee :=
  let permit := permit_applications invoice in
  match locate fetchIntent invoice with
  | (Some la, Some lo, projectTitle) =>
      if negb (Qeq_bool la 0) && negb (Qeq_bool lo 0) then
        let dueDate := parseDate (invoice_due_date invoice) in
        let notPaid := negb (invoice_payment_status invoice =? "paid") in
        let isOverdue := date_lt dueDate now && notPaid in
        let isDueSoon :=
          date_ge dueDate now && date_le dueDate thirtyDaysFromNow && notPaid in
        if isOverdue || isDueSoon then
          Some {| id := match permit with
                        | Some p => JS.or_string (permit_id p) (invoice_row_id invoice)
                        | None => invoice_row_id invoice
                        end;
                  title := match permit with
                           | Some p => or_null (permit_title p)
                           | None => None
                           end;
                  project_title := projectTitle;
                  entity_name := match entity invoice with
                                 | Some e => or_null e
                                 | None => None
                                 end;
                  latitude := la;
                  longitude := lo;
                  due_date := invoice_due_date invoice;
                  amount := invoice_amount invoice;
                  invoice_id := invoice_row_id invoice;
                  payment_status := invoice_payment_status invoice;
                  is_overdue := isOverdue;
                  is_due_soon := isDueSoon |}
        else None
      else None
  | _ => None
  end.

(** The permits the loop collects from the fetched invoices
    ([invoices || []]), in their order. *)
Definition invoicePermits
    (parseDate : string -> option Z)
    (fetchIntent : string -> option IntentRegistration)
    (now thirtyDaysFromNow : Z) (invoices : option (list Invoice)) : list PermitWithFee :=
  flat_map (fun invoice =>
              match permit_of_invoice parseDate fetchIntent now thirtyDaysFromNow invoice with
              | Some p => [p]
              | None => []
              end)
           (array_or_empty invoices).

(** A site of the demonstration data. *)
Record SampleLocation : Type := mkSampleLocation {
  sample_lat : Q;
  sample_lng : Q;
  sample_title : string;
  sample_entity : string;
  sample_overdue : bool
}.

(** [sampleLocations]; a decimal literal denotes the double nearest to it. *)
Definition sampleLocations : list SampleLocation :=
  [mkSampleLocation (F64.round (- (6314993 # 1000000))) (F64.round (1471494 # 10000))
     "Lae Industrial Permit" "Pacific Industries Ltd" true;
   mkSampleLocation (F64.round (- (548765 # 100000))) (F64.round (14371905 # 100000))
     "Enga Mining Permit" "Highland Mining Co." true;
   mkSampleLocation (F64.round (- (94324 # 10000))) (F64.round (14718 # 100))
     "Port Moresby Waste Permit" "Capital Waste Management" false;
   mkSampleLocation (F64.round (- (673075 # 100000))) (F64.round (147016 # 1000))
     "Morobe Forestry Permit" "Morobe Timber Ltd" false;
   mkSampleLocation (F64.round (- (522 # 100))) (F64.round (14578 # 100))
     "Madang Fishing Permit" "Madang Fisheries" true].

(** What the demonstration data takes from its surroundings: the values
    [Math.random()] returns, numbered in the order of the calls, and the
    ISO string of the current date moved by a number of days
    ([setDate(getDate() + n)], then [toISOString()]) at the time the sample
    of the given index is built. *)
Record Demo : Type := mkDemo {
  random : nat -> Q;
  dateAfterDays : nat -> Z -> string
}.

(** [Math.floor(Math.random() * n)] for the call numbered [call]. *)
Definition randomBelow (demo : Demo) (call : nat) (n : Q) : Z :=
  Qfloor (F64.mul (random demo call) n).

(** The permit pushed for the sample location of the given index. *)
Definition samplePermit (demo : Demo) (index : nat) (loc : SampleLocation) : PermitWithFee :=
  let daysOffset :=
    if sample_overdue loc then (- (randomBelow demo (2 * index) 30 + 1))%Z
    else (randomBelow demo (2 * index) 25 + 5)%Z in
  {| id := "sample-" ++ decimal_of_Z (Z.of_nat index);
     title := Some (sample_title loc);
     project_title := Some (sample_title loc);
     entity_name := Some (sample_entity loc);
     latitude := sample_lat loc;
     longitude := sample_lng loc;
     due_date := dateAfterDays demo index daysOffset;
     amount := inject_Z (randomBelow demo (2 * index + 1) 100000 + 10000);
     invoice_id := "inv-sample-" ++ decimal_of_Z (Z.of_nat index);
     payment_status := if sample_overdue loc then "overdue" else "pending";
     is_overdue := sample_overdue loc;
     is_due_soon := negb (sample_overdue loc) |}.

Definition samplePermits (demo : Demo) : list PermitWithFee :=
  map (fun entry => samplePermit demo (fst entry) (snd entry))
      (combine (seq 0 (List.length sampleLocations)) sampleLocations).

(** The permits handed to [setPermits]: those collected from the invoices,
    or the demonstration data when the loop collected none.  (When the
    fetch of the invoices reports an error the function returns before the
    loop and hands nothing over.) *)
Definition permitsWithLocation
    (demo : Demo)
    (parseDate : string -> option Z)
    (fetchIntent : string -> option IntentRegistration)
    (now thirtyDaysFromNow : Z) (invoices : option (list Invoice)) : list PermitWithFee :=
  let collected := invoicePermits parseDate fetchIntent now thirtyDaysFromNow invoices in
  if (List.length collected =? 0)%nat then (collected ++ samplePermits demo)%list
  else collected.

(** The permits that get a marker. *)
Definition filteredPermits (showOverdue showDueSoon : bool) (permits : list PermitWithFee)
  : list PermitWithFee :=
  filter (fun permit =>
            if is_overdue permit && negb showOverdue then false
            else if is_due_soon permit && negb showDueSoon then false
            else true)
         permits.

Definition overdueCount (permits : list PermitWithFee) : nat :=
  List.length (filter is_overdue permits).

Definition dueSoonCount (permits : list PermitWithFee) : nat :=
  List.length (filter is_due_soon permits).

End Revenue.

(** ** Sample data for the review step and the picker *)

Definition sample_review_draft : Review.Draft :=
  Review.mkDraft (Some "Quarry extension") (Some "Highland Quarries") None
    (Some "Level 2") (Some "Environmental") (Some "Extension of pit 3")
    (Some "2026-01-15") (Some "Mt Hagen") (Some "2025-11-01") (Some "2025-12-01")
    None None
    (Some [Review.mkFile (Some "minutes.pdf") None None None])
    (Some true) (Some true).

Definition sample_entity : Review.EntityInfo :=
  Review.mkEntity None None (Some "contact@quarries.example") (Some 71234567%Z).

(** An overdue invoice of a permit application with coordinates. *)
Definition sample_invoice : Revenue.Invoice :=
  Revenue.mkInvoice "inv-1" 2500 "2025-01-10" "overdue" None (Some (Some "Highland Quarries"))
    (Some (Revenue.mkPermitApplication (Some "permit-1") (Some "Quarry extension")
             (Some (Revenue.mkCoordinates (Some (- (59 # 10))) None (Some (1442 # 10)) None))
             None)).

(** A reader of dates that knows the due date of [sample_invoice]. *)
Definition sample_parseDate (s : string) : option Z :=
  if s =? "2025-01-10" then Some 10%Z else None.

Definition sample_demo : Revenue.Demo :=
  Revenue.mkDemo (fun _ => 1 # 2) (fun _ _ => "2025-02-01T00:00:00.000Z").

(** The lower-casing of the ASCII letters, which is [toLowerCase] on
    strings without other letters. *)
Definition ascii_casing : Picker.Casing := Picker.mkCasing JS.toLowerCase eq_refl.

Definition sample_documents : list Picker.DocumentFile :=
  [Picker.mkDocumentFile "d1" "Site-Plan.PDF" "u/site-plan.pdf" 2048
     (Some "application/pdf") "2025-01-01" (Some "project_details");
   Picker.mkDocumentFile "d2" "notice.docx" "u/notice.docx" 1024
     None "2025-01-02" (Some "notices");
   Picker.mkDocumentFile "d3" "photo.png" "u/photo.png" 4096
     (Some "image/png") "2025-01-03" None].

(** ** The charts of the report

    The numbers behind the pie legends and the bar charts of the report
    generator ([src/unnamed/part_001]).  Sums, quotients and products are
    those of doubles. *)

Module Report.

(** [Math.round]: the nearest integer, halves going up. *)
Definition round (x : Q) : Z := Qfloor (x + (1 # 2)).

(** [items.reduce((sum, item) => sum + item.value, 0)] *)
Definition total (items : list (string * Q)) : Q :=
  fold_left (fun sum item => F64.add sum (snd item)) items 0.

(** [total > 0 ? (value / total) * 100 : 0] *)
Definition percentage (total value : Q) : Q :=
  if negb (Qle_bool total 0) then F64.mul (F64.div value total) 100 else 0.

(** The pie data: name, value and percentage of every item. *)
Definition withPercentages (items : list (string * Q)) : list (string * Q * Q) :=
  map (fun item => (fst item, snd item, percentage (total items) (snd item))) items.

(** [Math.max(...values, 1)] *)
Definition max_with_one (values : list Q) : Q :=
  fold_left (fun m v => if Qle_bool m v then v else m) values 1.

(** [maxValue || Math.max(...data.map(d => d.value), 1)]; the result is
    never 0. *)
Definition chart_max (maxValue : option Q) (values : list Q) : Q :=
  match maxValue with
  | Some m => if Qeq_bool m 0 then max_with_one values else m
  | None => max_with_one values
  end.

(** [Math.round((value / max) * 100)] *)
Definition barWidth (max value : Q) : Z := round (F64.mul (F64.div value max) 100).

(** The number of blocks drawn for a bar:
    [Math.max(1, Math.round(barWidth / 5))]. *)
Definition blocks (max value : Q) : Z :=
  Z.max 1 (round (F64.div (inject_Z (barWidth max value)) 5)).

End Report.

(** The exact sum of the percentages of the pie data. *)
Definition percentages_sum (rows : list (string * Q * Q)) : Q :=
  fold_right (fun row sum => snd row + sum) 0 rows.

Definition sample_values : list Q := [12; 40; 7].

(** ** Running the handler and the effects *)

(** The four ways [handleCalculateFees] can end, as one equation. *)
Lemma handle_run (hook : FeeCalculationHook) (data : FormData.t) (w : World) :
  exec (handleCalculateFees hook data) w =
  let params := build_params data in
  let validation := validateParameters hook params in
  let s := ui w in
  if negb (isValid validation) then
    mkWorld (mkState (calculatedFees s) "" (errors validation) (hasCalculatedOnce s))
            (lookups w) (changes w)
  else
    match calculateFeesWithSupabase hook params with
    | Fulfilled (Some fees) =>
        let c := compositeFeeAmount data in
        let t := totalFee fees + c in
        let u := spread_with fees c t in
        mkWorld (mkState (Some u) "" [] true)
                (lookups w ++ [params]) (changes w ++ [full_change fees c t u])
    | Fulfilled None =>
        mkWorld (mkState (calculatedFees s) "" [] (hasCalculatedOnce s))
                (lookups w ++ [params]) (changes w)
    | Rejected e =>
        mkWorld (mkState (calculatedFees s) (error_message e) [] (hasCalculatedOnce s))
                (lookups w ++ [params]) (changes w)
    end.
Proof.
  unfold exec, handleCalculateFees, bind, try_catch, await_lookup.
  cbn.
  destruct (isValid (validateParameters hook (build_params data))); cbn.
  - destruct (calculateFeesWithSupabase hook (build_params data)) as [[fees|]|e];
      reflexivity.
  - reflexivity.
Qed.

(** Unfolds a run of the handler into its cases. *)
Ltac handler_cases := rewrite ?handle_run; cbv zeta.

Lemma recalculate_run (data : FormData.t) (w : World) :
  exec (recalculateOnPermitChange data) w =
  match hasCalculatedOnce (ui w), calculatedFees (ui w) with
  | true, Some b =>
      let u := rebuilt data b in
      mkWorld (mkState (Some u) (calculationError (ui w)) (validationErrors (ui w)) true)
              (lookups w)
              (changes w ++ [composite_change (compositeFeeAmount data) (totalFee u) u])
  | _, _ => w
  end.
Proof.
  unfold exec, recalculateOnPermitChange, bind, read_ui. cbn.
  destruct w as [[cf ce ve hco] ls cs]. cbn.
  destruct hco; [destruct cf as [b|] |]; reflexivity.
Qed.

Lemma auto_run (hook : FeeCalculationHook) (data : FormData.t) (w : World) :
  exec (autoCalculateOnMount hook data) w =
  if JS.truthy_string (FormData.activity_level data)
     && (JS.truthy_string (FormData.activity_category data)
         || JS.truthy_string (FormData.activity_subcategory data))
     && negb (hasCalculatedOnce (ui w)) && negb (loading hook)
     && negb (JS.truthy_object (FormData.calculatedFees data))
  then exec (handleCalculateFees hook data) w
  else w.
Proof.
  unfold exec at 1. unfold autoCalculateOnMount, bind, read_ui. cbn.
  match goal with |- context [if ?c then _ else _] => destruct c end; reflexivity.
Qed.

(** ** The Environmental Permit category *)

Lemma lower_ascii_letter (c d : ascii) :
  is_lower_letter d = true ->
  JS.lower_ascii c = d <-> c = d \/ c = upper_ascii d.
Proof.
  intros Hd. unfold upper_ascii. rewrite Hd.
  unfold is_lower_letter in Hd. cbv zeta in Hd.
  apply andb_true_iff in Hd. destruct Hd as [Hlo Hhi].
  apply Nat.leb_le in Hlo. apply Nat.leb_le in Hhi.
  unfold JS.lower_ascii. cbv zeta.
  pose proof (nat_ascii_bounded c) as Hc.
  split.
  - destruct ((65 <=? nat_of_ascii c) && (nat_of_ascii c <=? 90))%nat eqn:E.
    + apply andb_true_iff in E. destruct E as [E1 E2].
      apply Nat.leb_le in E1. apply Nat.leb_le in E2.
      intros H. right.
      assert (Hn : (nat_of_ascii c + 32 = nat_of_ascii d)%nat).
      { rewrite <- H. rewrite nat_ascii_embedding by lia. reflexivity. }
      replace (nat_of_ascii d - 32)%nat with (nat_of_ascii c) by lia.
      symmetry. apply ascii_nat_embedding.
    + intros H. left. exact H.
  - intros [H | H]; subst c.
    + replace ((65 <=? nat_of_ascii d) && (nat_of_ascii d <=? 90))%nat with false.
      * reflexivity.
      * symmetry. apply andb_false_iff. right. apply Nat.leb_gt. lia.
    + rewrite nat_ascii_embedding by lia.
      replace ((65 <=? nat_of_ascii d - 32) && (nat_of_ascii d - 32 <=? 90))%nat with true.
      * replace (nat_of_ascii d - 32 + 32)%nat with (nat_of_ascii d) by lia.
        apply ascii_nat_embedding.
      * symmetry. apply andb_true_iff. split; apply Nat.leb_le; lia.
Qed.

Lemma toLowerCase_casing (t : string) :
  all_lower_letters t = true ->
  forall s, JS.toLowerCase s = t <-> casing_of s t.
Proof.
  induction t as [|d t IH]; intros Ht s.
  - destruct s as [|c s]; cbn; split; intros H; try reflexivity; try exact I;
      try discriminate; contradiction.
  - cbn in Ht. apply andb_true_iff in Ht. destruct Ht as [Hd Ht].
    destruct s as [|c s]; cbn.
    + split; [discriminate | contradiction].
    + split.
      * intros H. injection H as Hc Hs. split.
        -- apply (lower_ascii_letter c d Hd). exact Hc.
        -- apply (IH Ht). exact Hs.
      * intros [Hc Hs]. f_equal.
        -- apply (lower_ascii_letter c d Hd). exact Hc.
        -- apply (IH Ht). exact Hs.
Qed.

Lemma isEnvironmentalPermit_spec (data : FormData.t) :
  isEnvironmentalPermit data = true <->
  (exists s, FormData.permit_type data = Some s /\ JS.toLowerCase s = "environmental")
  \/ FormData.permit_type_id data = Some "1655df4b-bfcf-47de-85fa-c4567c749362".
Proof.
  unfold isEnvironmentalPermit, JS.lowered_equals, JS.strict_equals,
    ENVIRONMENTAL_NAME, ENVIRONMENTAL_ID.
  rewrite orb_true_iff. split.
  - intros [H | H].
    + destruct (FormData.permit_type data) as [s|]; [| discriminate].
      left. exists s. split; [reflexivity | apply String.eqb_eq; exact H].
    + destruct (FormData.permit_type_id data) as [i|]; [| discriminate].
      right. f_equal. apply String.eqb_eq. exact H.
  - intros [[s [Hs Hl]] | H].
    + left. rewrite Hs. apply String.eqb_eq. exact Hl.
    + right. rewrite H. apply String.eqb_eq. reflexivity.
Qed.

(** C10. The Environmental Permit category holds exactly when the lowercased
    [permit_type] equals the literal [environmental] or [permit_type_id]
    equals the fixed identifier.  The name matches in any casing, letter by
    letter, and only then: a display name with further words, such as
    [Environmental Permit], does not match by name. *)
Theorem environmental_category_match :
  (forall data : FormData.t,
     isEnvironmentalPermit data = true <->
     (exists s, FormData.permit_type data = Some s /\ JS.toLowerCase s = "environmental")
     \/ FormData.permit_type_id data = Some "1655df4b-bfcf-47de-85fa-c4567c749362")
  /\ (forall s : string, JS.toLowerCase s = "environmental" <-> casing_of s "environmental")
  /\ (forall (s : string) (id : option string),
        casing_of s "environmental" ->
        isEnvironmentalPermit (permit_only (Some s) id) = true
        /\ compositeFeeAmount (permit_only (Some s) id) = COMPOSITE_FEE)
  /\ isEnvironmentalPermit (permit_only (Some "ENVIRONMENTAL") None) = true
  /\ isEnvironmentalPermit (permit_only (Some "eNvIrOnMeNtAl") None) = true
  /\ isEnvironmentalPermit (permit_only (Some "Environmental Permit") None) = false
  /\ isEnvironmentalPermit (permit_only None None) = false
  /\ isEnvironmentalPermit
       (permit_only (Some "Environmental Permit")
          (Some "1655df4b-bfcf-47de-85fa-c4567c749362")) = true.
Proof.
  assert (Hcase : forall s, JS.toLowerCase s = "environmental" <-> casing_of s "environmental").
  { intros s. apply toLowerCase_casing. reflexivity. }
  split; [exact isEnvironmentalPermit_spec |].
  split; [exact Hcase |].
  split.
  - intros s id Hs.
    assert (He : isEnvironmentalPermit (permit_only (Some s) id) = true).
    { apply isEnvironmentalPermit_spec. left. exists s. split; [reflexivity |].
      apply Hcase. exact Hs. }
    split; [exact He |]. unfold compositeFeeAmount. rewrite He. reflexivity.
  - repeat split; reflexivity.
Qed.

(** At a mixed casing, with an identifier that does not match. *)
Lemma environmental_category_match_witness :
  casing_of "EnViRoNmEnTaL" "environmental"
  /\ isEnvironmentalPermit (permit_only (Some "EnViRoNmEnTaL") (Some "other")) = true.
Proof.
  split.
  - cbn. repeat split; (left; reflexivity) || (right; reflexivity).
  - apply (proj1 (proj2 (proj2 environmental_category_match))).
    cbn. repeat split; (left; reflexivity) || (right; reflexivity).
Defined.

(** ** The composite fee and the total *)

Lemma or_number_zero (x : Q) : JS.or_number x 0 == x.
Proof.
  unfold JS.or_number. destruct (Qeq_bool x 0) eqn:E.
  - apply Qeq_bool_eq in E. symmetry. exact E.
  - reflexivity.
Qed.

Lemma rebuilt_invariant (data : FormData.t) (b : FeeResult) :
  breakdown_invariant (rebuilt data b).
Proof.
  unfold breakdown_invariant, rebuilt. cbn.
  rewrite or_number_zero. reflexivity.
Qed.

(** C2. The composite fee is exactly 0 when the permit is not of the
    Environmental category and exactly 2000 when it is, whatever the hook
    returned (annual fee, processing days): in the breakdown stored and
    reported by a successful computation, and in the one rebuilt after a
    change of permit type. *)
Theorem composite_fee_rule :
  (forall (hook : FeeCalculationHook) (data : FormData.t) (w : World) (fees : FeeResult),
     isValid (validateParameters hook (build_params data)) = true ->
     calculateFeesWithSupabase hook (build_params data) = Fulfilled (Some fees) ->
     let w' := exec (handleCalculateFees hook data) w in
     exists b ch,
       calculatedFees (ui w') = Some b
       /\ changes w' = (changes w ++ [ch])%list
       /\ Change.fee_breakdown ch = Some b
       /\ compositeFee b = Some (if isEnvironmentalPermit data then 2000 else 0)
       /\ Change.composite_fee ch = Some (if isEnvironmentalPermit data then 2000 else 0))
  /\ (forall (data : FormData.t) (w : World) (b0 : FeeResult),
        hasCalculatedOnce (ui w) = true ->
        calculatedFees (ui w) = Some b0 ->
        let w' := exec (recalculateOnPermitChange data) w in
        exists b ch,
          calculatedFees (ui w') = Some b
          /\ changes w' = (changes w ++ [ch])%list
          /\ Change.fee_breakdown ch = Some b
          /\ compositeFee b = Some (if isEnvironmentalPermit data then 2000 else 0)
          /\ Change.composite_fee ch = Some (if isEnvironmentalPermit data then 2000 else 0)).
Proof.
  split.
  - intros hook data w fees Hv Hl w'. subst w'.
    handler_cases. rewrite Hv, Hl. cbn.
    eexists. eexists. repeat split.
  - intros data w b0 Hc Hb w'. subst w'.
    rewrite recalculate_run, Hc, Hb. cbn.
    eexists. eexists. repeat split.
Qed.

(** On the Environmental draft the composite fee is 2000, on the other 0. *)
Lemma composite_fee_rule_witness :
  (exists b ch,
     calculatedFees (ui (exec (handleCalculateFees sample_hook environmental_draft)
                              (mount environmental_draft))) = Some b
     /\ changes (exec (handleCalculateFees sample_hook environmental_draft)
                      (mount environmental_draft)) = ([] ++ [ch])%list
     /\ Change.fee_breakdown ch = Some b
     /\ compositeFee b = Some 2000
     /\ Change.composite_fee ch = Some 2000)
  /\ (exists b ch,
        calculatedFees (ui (exec (recalculateOnPermitChange sample_draft)
                                 (calculated_world sample_breakdown))) = Some b
        /\ changes (exec (recalculateOnPermitChange sample_draft)
                         (calculated_world sample_breakdown)) = ([] ++ [ch])%list
        /\ Change.fee_breakdown ch = Some b
        /\ compositeFee b = Some 0
        /\ Change.composite_fee ch = Some 0).
Proof.
  split.
  - exact (proj1 composite_fee_rule sample_hook environmental_draft
             (mount environmental_draft) sample_fees eq_refl eq_refl).
  - exact (proj2 composite_fee_rule sample_draft (calculated_world sample_breakdown)
             sample_breakdown eq_refl eq_refl).
Defined.


(** ** Repeated changes of the permit type *)

Lemma recalculate_completes (data : FormData.t) (w : World) :
  fst (recalculateOnPermitChange data w) = Normal tt.
Proof.
  unfold recalculateOnPermitChange, bind, read_ui. cbn.
  destruct (hasCalculatedOnce (ui w)); [destruct (calculatedFees (ui w)) |];
    reflexivity.
Qed.

Lemma exec_then {A B : Type} (c : M A) (k : M B) (w : World) (a : A) :
  fst (c w) = Normal a -> exec (c ;;; k) w = exec k (exec c w).
Proof.
  unfold exec, bind. destruct (c w) as [r w']. cbn. intros ->. reflexivity.
Qed.

Lemma toggles_step (data : FormData.t) (rest : list FormData.t) (w : World) :
  exec (toggles (data :: rest)) w = exec (toggles rest) (exec (recalculateOnPermitChange data) w).
Proof.
  cbn [toggles]. apply (exec_then _ _ _ tt). apply recalculate_completes.
Qed.

Lemma rebuilt_absorbs (data data' : FormData.t) (b : FeeResult) :
  rebuilt data (rebuilt data' b) = rebuilt data b.
Proof. reflexivity. Qed.

Lemma toggles_end (data : FormData.t) (drafts : list FormData.t) :
  forall (w : World) (b0 : FeeResult),
    hasCalculatedOnce (ui w) = true ->
    calculatedFees (ui w) = Some b0 ->
    let w' := exec (toggles (drafts ++ [data])) w in
    ui w' = mkState (Some (rebuilt data b0)) (calculationError (ui w))
                    (validationErrors (ui w)) true
    /\ lookups w' = lookups w
    /\ exists earlier,
         changes w' =
         (changes w ++ earlier
            ++ [composite_change (compositeFeeAmount data) (totalFee (rebuilt data b0))
                  (rebuilt data b0)])%list.
Proof.
  induction drafts as [|d drafts IH]; intros w b0 Hc Hb w'; subst w'.
  - cbn [app]. rewrite toggles_step. cbn [toggles]. unfold exec at 1. cbn [ret snd].
    rewrite recalculate_run, Hc, Hb. cbn.
    repeat split. exists []. reflexivity.
  - cbn [app]. rewrite toggles_step.
    pose proof (recalculate_run d w) as Hd. rewrite Hc, Hb in Hd. cbv zeta in Hd.
    destruct (IH (exec (recalculateOnPermitChange d) w) (rebuilt d b0))
      as [Hu [Hl [earlier He]]].
    + rewrite Hd. reflexivity.
    + rewrite Hd. reflexivity.
    + rewrite Hu, Hl, He, Hd. cbn. rewrite rebuilt_absorbs.
      repeat split.
      exists (composite_change (compositeFeeAmount d) (totalFee (rebuilt d b0))
                (rebuilt d b0) :: earlier).
      rewrite <- app_assoc. reflexivity.
Qed.

(** C5. Changing the permit type any number of times never accumulates the
    composite fee: after the last change the component state is the one a
    single change to that permit type gives, the stored breakdown is rebuilt
    from the administration fee of the original breakdown, its composite fee
    is 0 or 2000, and the breakdown reported last is that same one. *)
Theorem toggling_does_not_accumulate
    (w : World) (b0 : FeeResult) (drafts : list FormData.t) (data : FormData.t) :
  hasCalculatedOnce (ui w) = true ->
  calculatedFees (ui w) = Some b0 ->
  let once := exec (recalculateOnPermitChange data) w in
  let many := exec (toggles (drafts ++ [data])) w in
  ui many = ui once
  /\ calculatedFees (ui many) = Some (rebuilt data b0)
  /\ administrationFee (rebuilt data b0) = administrationFee b0
  /\ compositeFee (rebuilt data b0) = Some (if isEnvironmentalPermit data then 2000 else 0)
  /\ totalFee (rebuilt data b0)
      == administrationFee b0 + (if isEnvironmentalPermit data then 2000 else 0)
  /\ exists earlier ch,
       changes many = (changes w ++ earlier ++ [ch])%list
       /\ Change.fee_breakdown ch = Some (rebuilt data b0)
       /\ Change.composite_fee ch = Some (if isEnvironmentalPermit data then 2000 else 0)
       /\ Change.total_fee ch = Some (totalFee (rebuilt data b0)).
Proof.
  intros Hc Hb once many. subst once many.
  destruct (toggles_end data drafts w b0 Hc Hb) as [Hu [_ [earlier He]]].
  rewrite Hu, He. rewrite recalculate_run, Hc, Hb. cbn.
  split; [reflexivity |].
  split; [reflexivity |].
  split; [reflexivity |].
  split; [reflexivity |].
  split.
  - rewrite or_number_zero. reflexivity.
  - eexists. eexists. repeat split.
Qed.

(** After a computation for [sample_draft]: Environmental, back, and
    Environmental again, against Environmental once; the total is
    100 + 2000 both times. *)
Lemma toggling_does_not_accumulate_witness :
  ui (exec (toggles ([environmental_draft; sample_draft] ++ [environmental_draft]))
           (exec (handleCalculateFees sample_hook sample_draft) (mount sample_draft)))
  = ui (exec (recalculateOnPermitChange environmental_draft)
             (exec (handleCalculateFees sample_hook sample_draft) (mount sample_draft)))
  /\ totalFee (rebuilt environmental_draft sample_breakdown) == 2100.
Proof.
  pose proof (toggling_does_not_accumulate
                (exec (handleCalculateFees sample_hook sample_draft) (mount sample_draft))
                sample_breakdown [environmental_draft; sample_draft]
                environmental_draft eq_refl eq_refl) as H.
  cbv zeta in H. destruct H as [Hu [_ [_ [_ [Ht _]]]]].
  split.
  - exact Hu.
  - rewrite Ht. reflexivity.
Defined.

(** ** Rejected requests and failed lookups *)

Lemma truthy_or_string (v : option string) :
  JS.truthy_string v = false -> JS.or_string v "" = "".
Proof.
  destruct v as [s|]; cbn; [| reflexivity].
  destruct (s =? "") eqn:E; [reflexivity | discriminate].
Qed.

(** C6. Validation runs before any lookup.  When the validator rejects the
    request, the handler stores the validator's error list as it is, starts
    no lookup, makes no [onChange] call and leaves the stored breakdown
    alone.  With the validator of the engine this is the case of an empty
    activity level, whose error names that field. *)
Theorem validation_short_circuits :
  (forall (hook : FeeCalculationHook) (data : FormData.t) (w : World),
     isValid (validateParameters hook (build_params data)) = false ->
     let w' := exec (handleCalculateFees hook data) w in
     validationErrors (ui w') = errors (validateParameters hook (build_params data))
     /\ lookups w' = lookups w
     /\ changes w' = changes w
     /\ calculatedFees (ui w') = calculatedFees (ui w)
     /\ hasCalculatedOnce (ui w') = hasCalculatedOnce (ui w)
     /\ calculationError (ui w') = "")
  /\ (forall (sor : Engine.SystemOfRecord) (data : FormData.t) (w : World),
        JS.truthy_string (FormData.activity_level data) = false ->
        let w' := exec (handleCalculateFees (Engine.hook sor) data) w in
        validationErrors (ui w') = ["Activity level is required"]
        /\ lookups w' = lookups w
        /\ changes w' = changes w
        /\ calculatedFees (ui w') = calculatedFees (ui w)).
Proof.
  split.
  - intros hook data w Hv w'. subst w'.
    handler_cases. rewrite Hv. cbn. repeat split.
  - intros sor data w Hl w'. subst w'.
    handler_cases.
    assert (Hp : activityLevel (build_params data) = "").
    { unfold build_params. cbn. apply truthy_or_string. exact Hl. }
    assert (Ht : (activityType (build_params data) =? "") = false).
    { unfold build_params, JS.or_default. cbn.
      destruct (JS.or_string (FormData.activity_category data) "" =? "") eqn:E;
        [reflexivity | exact E]. }
    cbn [Engine.hook validateParameters]. unfold Engine.validate.
    rewrite Hp, Ht. cbn. repeat split.
Qed.

Lemma validation_short_circuits_witness :
  (validationErrors (ui (exec (handleCalculateFees rejecting_hook sample_draft)
                              (calculated_world sample_breakdown)))
   = ["Activity level is required"]
   /\ lookups (exec (handleCalculateFees rejecting_hook sample_draft)
                    (calculated_world sample_breakdown)) = [])
  /\ lookups (exec (handleCalculateFees (Engine.hook
                      (Engine.mkRecord (fun _ => None) (fun _ _ _ => None) 1000 90 "" ""))
                      (permit_only None None))
                   (mount (permit_only None None))) = [].
Proof.
  split.
  - pose proof (proj1 validation_short_circuits rejecting_hook sample_draft
                  (calculated_world sample_breakdown) eq_refl) as H.
    cbv zeta in H. destruct H as [He [Hl _]]. split; [exact He | exact Hl].
  - pose proof (proj2 validation_short_circuits
                  (Engine.mkRecord (fun _ => None) (fun _ _ _ => None) 1000 90 "" "")
                  (permit_only None None) (mount (permit_only None None)) eq_refl) as H.
    cbv zeta in H. destruct H as [_ [Hl _]]. exact Hl.
Defined.

(** C9. When the awaited lookup throws, no fee field is written: no
    [onChange] call is made, the stored breakdown and the flag stay as they
    were, and the message of the error (or [Unknown error occurred] for a
    value that is not an [Error]) is set.  Whatever the lookup does, the
    handler makes no [onChange] call at all or one call whose argument has
    every key and carries the breakdown that was stored. *)
Theorem lookup_failure_leaves_no_partial_state :
  (forall (hook : FeeCalculationHook) (data : FormData.t) (w : World) (e : Thrown),
     isValid (validateParameters hook (build_params data)) = true ->
     calculateFeesWithSupabase hook (build_params data) = Rejected e ->
     let w' := exec (handleCalculateFees hook data) w in
     changes w' = changes w
     /\ calculatedFees (ui w') = calculatedFees (ui w)
     /\ hasCalculatedOnce (ui w') = hasCalculatedOnce (ui w)
     /\ calculationError (ui w') = error_message e
     /\ validationErrors (ui w') = [])
  /\ (forall m : string, error_message (ErrorObject m) = m)
  /\ error_message OtherValue = "Unknown error occurred"
  /\ (forall (hook : FeeCalculationHook) (data : FormData.t) (w : World),
        let w' := exec (handleCalculateFees hook data) w in
        (changes w' = changes w /\ calculatedFees (ui w') = calculatedFees (ui w))
        \/ exists ch b,
             changes w' = (changes w ++ [ch])%list
             /\ complete_change ch = true
             /\ Change.fee_breakdown ch = Some b
             /\ Change.calculatedFees ch = Some b
             /\ calculatedFees (ui w') = Some b
             /\ calculationError (ui w') = "").
Proof.
  split; [| split; [| split]].
  - intros hook data w e Hv Hl w'. subst w'.
    handler_cases. rewrite Hv, Hl. cbn. repeat split.
  - reflexivity.
  - reflexivity.
  - intros hook data w w'. subst w'.
    handler_cases.
    destruct (isValid (validateParameters hook (build_params data))); cbn.
    + destruct (calculateFeesWithSupabase hook (build_params data)) as [[fees|]|e]; cbn.
      * right. eexists. eexists. repeat split.
      * left. split; reflexivity.
      * left. split; reflexivity.
    + left. split; reflexivity.
Qed.

Lemma lookup_failure_leaves_no_partial_state_witness :
  changes (exec (handleCalculateFees failing_hook sample_draft)
                (calculated_world sample_breakdown)) = []
  /\ calculatedFees (ui (exec (handleCalculateFees failing_hook sample_draft)
                              (calculated_world sample_breakdown)))
     = Some sample_breakdown
  /\ calculationError (ui (exec (handleCalculateFees failing_hook sample_draft)
                                (calculated_world sample_breakdown)))
     = "Failed to fetch".
Proof.
  pose proof (proj1 lookup_failure_leaves_no_partial_state failing_hook sample_draft
                (calculated_world sample_breakdown) (ErrorObject "Failed to fetch")
                eq_refl eq_refl) as H.
  cbv zeta in H. destruct H as [Hc [Hb [_ [He _]]]].
  split; [exact Hc | split; [exact Hb | exact He]].
Defined.

(** ** Missing category and sub-category *)

Lemma or_default_nonempty (a d : string) : d <> "" -> JS.or_default a d <> "".
Proof.
  intros Hd. unfold JS.or_default. destruct (a =? "") eqn:E.
  - exact Hd.
  - apply String.eqb_neq. exact E.
Qed.

Lemma validate_built (data : FormData.t) :
  isValid (Engine.validate (build_params data))
  = JS.truthy_string (FormData.activity_level data).
Proof.
  unfold Engine.validate.
  assert (Ht : (activityType (build_params data) =? "") = false).
  { apply String.eqb_neq. unfold build_params. cbn.
    apply or_default_nonempty. discriminate. }
  rewrite Ht. cbn [andb]. rewrite app_nil_r.
  unfold build_params. cbn [activityLevel].
  destruct (FormData.activity_level data) as [l|]; cbn; [| reflexivity].
  destruct (l =? "") eqn:E; cbn; [reflexivity |]. rewrite E. reflexivity.
Qed.

(** C7.  The validator of the engine rejects every request whose activity
    type and sub-category are both empty: the verdict is negative and the
    error list names the missing classification, whatever the other fields
    hold.  In the component a draft whose category and sub-category are
    both empty is not submitted: the auto-calculation on mount, the only
    caller of the handler, skips it and starts no lookup, and the request
    the handler builds from a draft never has an empty activity type or
    sub-category. *)
Theorem empty_classification_is_rejected :
  (forall request : FeeCalculationParams,
     activityType request = "" ->
     activitySubCategory request = "" ->
     isValid (Engine.validate request) = false
     /\ In "Activity type or sub-category is required" (errors (Engine.validate request)))
  /\ (forall (hook : FeeCalculationHook) (data : FormData.t) (w : World),
        JS.truthy_string (FormData.activity_category data) = false ->
        JS.truthy_string (FormData.activity_subcategory data) = false ->
        let w' := exec (autoCalculateOnMount hook data) w in
        w' = w /\ lookups w' = lookups w /\ changes w' = changes w)
  /\ (forall data : FormData.t,
        activityType (build_params data) <> ""
        /\ activitySubCategory (build_params data) <> "").
Proof.
  split; [| split].
  - intros request Ht Hs. unfold Engine.validate. rewrite Ht, Hs. cbn.
    destruct (activityLevel request =? ""); cbn; split; auto.
  - intros hook data w Hc Hs w'. subst w'.
    assert (E : exec (autoCalculateOnMount hook data) w = w).
    { rewrite auto_run, Hc, Hs. cbn. rewrite andb_false_r. reflexivity. }
    rewrite E. repeat split.
  - intros data. unfold build_params. cbn.
    split; apply or_default_nonempty; discriminate.
Qed.

Lemma empty_classification_is_rejected_witness :
  (isValid (Engine.validate (mkParams "" "" "2.1" "2.1" "")) = false
   /\ In "Activity type or sub-category is required"
         (errors (Engine.validate (mkParams "" "" "2.1" "2.1" ""))))
  /\ exec (autoCalculateOnMount (Engine.hook sample_record) uncategorised_draft)
          (mount uncategorised_draft) = mount uncategorised_draft.
Proof.
  destruct empty_classification_is_rejected as [H1 [H2 _]].
  split.
  - exact (H1 (mkParams "" "" "2.1" "2.1" "") eq_refl eq_refl).
  - exact (proj1 (H2 (Engine.hook sample_record) uncategorised_draft
                    (mount uncategorised_draft) eq_refl eq_refl)).
Defined.

(** ** State held across calls *)

(** C8, as the code has it.  The handler itself consults no flag and no
    stored result: the lookup it starts, the arguments it hands to
    [onChange] and the error lists it sets are fixed by the draft and the
    answers of the hook, and after a successful lookup so is the whole
    component state.  The component around it does hold state across calls:
    the [hasCalculatedOnce] flag, the breakdown cached in the draft and the
    [loading] flag of the hook decide whether the auto-calculation on mount
    runs, and the flag and the stored breakdown decide whether a change of
    permit type recomputes anything. *)
Theorem state_guards_the_effects :
  (forall (hook : FeeCalculationHook) (data : FormData.t),
     exists (ls : list FeeCalculationParams) (cs : list Change.t)
            (ve : list string) (ce : string),
       forall w : World,
         let w' := exec (handleCalculateFees hook data) w in
         lookups w' = (lookups w ++ ls)%list
         /\ changes w' = (changes w ++ cs)%list
         /\ validationErrors (ui w') = ve
         /\ calculationError (ui w') = ce)
  /\ (forall (hook : FeeCalculationHook) (data : FormData.t) (fees : FeeResult)
             (w1 w2 : World),
        isValid (validateParameters hook (build_params data)) = true ->
        calculateFeesWithSupabase hook (build_params data) = Fulfilled (Some fees) ->
        ui (exec (handleCalculateFees hook data) w1)
        = ui (exec (handleCalculateFees hook data) w2))
  /\ (forall (hook : FeeCalculationHook) (data : FormData.t) (w : World),
        hasCalculatedOnce (ui w) = true
        \/ FormData.calculatedFees data <> None
        \/ loading hook = true ->
        exec (autoCalculateOnMount hook data) w = w)
  /\ (forall (data : FormData.t) (w : World),
        hasCalculatedOnce (ui w) = false \/ calculatedFees (ui w) = None ->
        exec (recalculateOnPermitChange data) w = w).
Proof.
  split; [| split; [| split]].
  - intros hook data.
    destruct (isValid (validateParameters hook (build_params data))) eqn:Hv.
    + destruct (calculateFeesWithSupabase hook (build_params data)) as [[fees|]|e] eqn:Hl.
      * eexists. eexists. eexists. eexists. intros w w'. subst w'.
        handler_cases. rewrite Hv, Hl. cbn. repeat split.
      * exists [build_params data], [], [], "". intros w w'. subst w'.
        handler_cases. rewrite Hv, Hl. cbn. rewrite app_nil_r.
        repeat split.
      * exists [build_params data], [], [], (error_message e). intros w w'. subst w'.
        handler_cases. rewrite Hv, Hl. cbn. rewrite app_nil_r.
        repeat split.
    + exists [], [], (errors (validateParameters hook (build_params data))), "".
      intros w w'. subst w'.
      handler_cases. rewrite Hv. cbn. rewrite !app_nil_r.
      repeat split.
  - intros hook data fees w1 w2 Hv Hl.
    handler_cases. rewrite Hv, Hl. reflexivity.
  - intros hook data w H. rewrite auto_run.
    destruct H as [H | [H | H]].
    + rewrite H. cbn. rewrite !andb_false_r. reflexivity.
    + destruct (FormData.calculatedFees data); [| contradiction].
      cbn. rewrite !andb_false_r. reflexivity.
    + rewrite H. cbn. rewrite !andb_false_r. reflexivity.
  - intros data w H. rewrite recalculate_run.
    destruct H as [H | H]; rewrite H.
    + reflexivity.
    + destruct (hasCalculatedOnce (ui w)); reflexivity.
Qed.

Lemma state_guards_the_effects_witness :
  ui (exec (handleCalculateFees sample_hook sample_draft) (mount sample_draft))
  = ui (exec (handleCalculateFees sample_hook sample_draft)
             (calculated_world sample_breakdown))
  /\ exec (autoCalculateOnMount sample_hook sample_draft)
          (calculated_world sample_breakdown) = calculated_world sample_breakdown
  /\ exec (recalculateOnPermitChange environmental_draft) (mount sample_draft)
     = mount sample_draft.
Proof.
  destruct state_guards_the_effects as [_ [H2 [H3 H4]]].
  split; [| split].
  - exact (H2 sample_hook sample_draft sample_fees (mount sample_draft)
             (calculated_world sample_breakdown) eq_refl eq_refl).
  - exact (H3 sample_hook sample_draft (calculated_world sample_breakdown)
             (or_introl eq_refl)).
  - exact (H4 environmental_draft (mount sample_draft) (or_introl eq_refl)).
Defined.

(** C8 as stated fails.  The first auto-calculation for a draft starts one
    lookup and reports one breakdown; a second one in the same component
    does nothing, and neither does one in a freshly mounted component whose
    draft carries the cached breakdown.  In that fresh component a change to
    the Environmental category recomputes nothing, while in the component
    that has calculated it rebuilds the breakdown. *)
Lemma state_across_calls_counterexample :
  let first := exec (autoCalculateOnMount sample_hook sample_draft) (mount sample_draft) in
  let cached := cached_draft sample_draft sample_breakdown in
  (length (lookups first) = 1%nat /\ length (changes first) = 1%nat)
  /\ exec (autoCalculateOnMount sample_hook sample_draft) first = first
  /\ exec (autoCalculateOnMount sample_hook cached) (mount cached) = mount cached
  /\ build_params cached = build_params sample_draft
  /\ exec (recalculateOnPermitChange environmental_draft) (mount cached) = mount cached
  /\ exec (recalculateOnPermitChange environmental_draft) first <> first.
Proof.
  cbv zeta. repeat split; try reflexivity.
  intros H. apply (f_equal (fun w => length (changes w))) in H.
  vm_compute in H. discriminate H.
Qed.

(** ** The prorated formula and the processing days *)

Lemma hundredth_as_product (n : Z) : n # 100 == inject_Z n * (1 # 100).
Proof. unfold Qeq. cbn. ring. Qed.

Lemma round_half_up_2dp_near (x : Q) :
  x - (1 # 200) < Engine.round_half_up_2dp x /\ Engine.round_half_up_2dp x <= x + (1 # 200).
Proof.
  unfold Engine.round_half_up_2dp.
  pose proof (Qfloor_le (x * 100 + (1 # 2))) as Hlo.
  pose proof (Qlt_floor (x * 100 + (1 # 2))) as Hhi.
  rewrite inject_Z_plus in Hhi.
  rewrite hundredth_as_product.
  change (inject_Z 1) with 1 in Hhi.
  split; lra.
Qed.

Lemma round_half_up_2dp_unique (x : Q) (m : Z) :
  x - (1 # 200) < m # 100 -> m # 100 <= x + (1 # 200) ->
  Engine.round_half_up_2dp x = m # 100.
Proof.
  intros Hlo Hhi. unfold Engine.round_half_up_2dp. f_equal.
  rewrite hundredth_as_product in Hlo, Hhi.
  pose proof (Qfloor_le (x * 100 + (1 # 2))) as Flo.
  pose proof (Qlt_floor (x * 100 + (1 # 2))) as Fhi.
  rewrite inject_Z_plus in Fhi. change (inject_Z 1) with 1 in Fhi.
  assert (H1 : inject_Z (Qfloor (x * 100 + (1 # 2))) < inject_Z (m + 1)).
  { rewrite inject_Z_plus. change (inject_Z 1) with 1. lra. }
  assert (H2 : inject_Z m < inject_Z (Qfloor (x * 100 + (1 # 2)) + 1)).
  { rewrite inject_Z_plus. change (inject_Z 1) with 1. lra. }
  rewrite <- Zlt_Qlt in H1, H2. lia.
Qed.

Lemma resolve_days (sor : Engine.SystemOfRecord) (request : FeeCalculationParams) :
  Engine.scheduleDays (Engine.resolve sor request)
  = Engine.processingDaysFor (Engine.defaultProcessingDays sor) (activityLevel request).
Proof.
  unfold Engine.resolve. cbv zeta.
  destruct (prescribedActivityId request =? "");
    [| destruct (Engine.byPrescribedActivity sor (prescribedActivityId request))];
    try reflexivity;
    destruct (Engine.byClassification sor (activityLevel request) (activityType request)
                (activitySubCategory request)); reflexivity.
Qed.

Lemma level_of_draft (data : FormData.t) (l : string) :
  FormData.activity_level data = Some l -> l <> "" ->
  activityLevel (build_params data) = l
  /\ JS.truthy_string (FormData.activity_level data) = true.
Proof.
  intros H Hn. apply String.eqb_neq in Hn.
  unfold build_params. cbn. rewrite H. cbn. rewrite Hn. split; reflexivity.
Qed.

(** C3.  The administration fee of the engine is
    [(annualRecurrentFee / 365) * processingDays] rounded half up to two
    decimal places: it is a whole number of hundredths, at most half a
    hundredth above the exact value and less than half a hundredth below
    it, and the only such amount; the hundredths printed by [toFixed(2)]
    are the same rounding.  With an annual fee of 36500, level 2.1 and a
    permit outside the Environmental category, the component stores
    30 days, administration fee 3000.00, composite fee 0 and total 3000.00,
    shown as [PGK 3,000.00]. *)
Theorem administration_fee_formula :
  (forall schedule : Engine.FeeSchedule,
     let exact := (Engine.annualRecurrentFee schedule / 365)
                  * inject_Z (Engine.scheduleDays schedule) in
     let fee := Engine.computeAdministrationFee schedule in
     (exists n : Z, fee = n # 100)
     /\ exact - (1 # 200) < fee
     /\ fee <= exact + (1 # 200)
     /\ (forall m : Z,
           exact - (1 # 200) < m # 100 -> m # 100 <= exact + (1 # 200) -> fee = m # 100))
  /\ (forall a : Q, 0 <= a -> hundredths (Qabs a) # 100 = Engine.round_half_up_2dp a)
  /\ (forall (sor : Engine.SystemOfRecord) (data : FormData.t) (w : World),
        FormData.activity_level data = Some "2.1" ->
        Engine.annualRecurrentFee (Engine.resolve sor (build_params data)) == 36500 ->
        isEnvironmentalPermit data = false ->
        let w' := exec (handleCalculateFees (Engine.hook sor) data) w in
        exists b,
          calculatedFees (ui w') = Some b
          /\ processingDays b = 30%Z
          /\ administrationFee b == 3000
          /\ compositeFee b = Some 0
          /\ totalFee b == 3000
          /\ formatCurrency (administrationFee b) = "PGK 3,000.00"
          /\ formatCurrency (totalFee b) = "PGK 3,000.00").
Proof.
  split; [| split].
  - intros schedule exact fee. subst exact fee. unfold Engine.computeAdministrationFee.
    split; [| split; [| split]].
    + eexists. reflexivity.
    + apply round_half_up_2dp_near.
    + apply round_half_up_2dp_near.
    + intros m Hlo Hhi. apply round_half_up_2dp_unique; assumption.
  - intros a Ha. unfold hundredths, Engine.round_half_up_2dp.
    destruct a as [n d]. unfold Qle in Ha. cbn in Ha.
    assert (Hn : (0 <= n)%Z) by lia.
    unfold Qabs. rewrite (Z.abs_eq n Hn). reflexivity.
  - intros sor data w Hl Ha He w'. subst w'.
    destruct (level_of_draft data "2.1" Hl) as [Hp Ht]; [discriminate |].
    handler_cases.
    cbn [Engine.hook validateParameters calculateFeesWithSupabase].
    rewrite validate_built, Ht.
    cbn [negb]. unfold Engine.calculateFees. cbv zeta.
    unfold compositeFeeAmount. rewrite He.
    unfold Engine.computeAdministrationFee.
    rewrite resolve_days, Hp.
    assert (Hf : Qfloor ((Engine.annualRecurrentFee (Engine.resolve sor (build_params data))
                            / 365
                          * inject_Z (Engine.processingDaysFor
                                        (Engine.defaultProcessingDays sor) "2.1")) * 100
                         + (1 # 2)) = 300000%Z).
    { rewrite Ha. reflexivity. }
    unfold Engine.round_half_up_2dp. rewrite Hf.
    eexists. split; [reflexivity |].
    repeat split; vm_compute; reflexivity.
Qed.

Lemma administration_fee_formula_witness :
  Engine.computeAdministrationFee (Engine.mkSchedule 1000 30 Database) = 8219 # 100
  /\ hundredths (Qabs (1000 / 365 * 30)) # 100
     = Engine.round_half_up_2dp (1000 / 365 * 30)
  /\ exists b,
       calculatedFees (ui (exec (handleCalculateFees (Engine.hook sample_record) sample_draft)
                                (mount sample_draft))) = Some b
       /\ processingDays b = 30%Z
       /\ administrationFee b == 3000
       /\ compositeFee b = Some 0
       /\ totalFee b == 3000
       /\ formatCurrency (administrationFee b) = "PGK 3,000.00"
       /\ formatCurrency (totalFee b) = "PGK 3,000.00".
Proof.
  destruct administration_fee_formula as [H1 [H2 H3]].
  split; [| split].
  - apply (proj2 (proj2 (proj2 (H1 (Engine.mkSchedule 1000 30 Database))))).
    + reflexivity.
    + discriminate.
  - apply H2. discriminate.
  - exact (H3 sample_record sample_draft (mount sample_draft) eq_refl
             (Qeq_refl 36500) eq_refl).
Defined.

(** C4.  The processing days are a function of the activity level alone:
    30 for level 2.1, 60 for levels 2.2, 2.3 and 2.4, 90 for level 3 and the
    default of the engine, a positive integer, for every other level.  The
    resolver takes them from the level whatever the lookups return, and the
    component reports them unchanged. *)
Theorem processing_days_table :
  (forall d : positive,
     Engine.processingDaysFor d "2.1" = 30%Z
     /\ Engine.processingDaysFor d "2.2" = 60%Z
     /\ Engine.processingDaysFor d "2.3" = 60%Z
     /\ Engine.processingDaysFor d "2.4" = 60%Z
     /\ Engine.processingDaysFor d "3" = 90%Z)
  /\ (forall (d : positive) (level : string),
        level <> "2.1" -> level <> "2.2" -> level <> "2.3" -> level <> "2.4" ->
        level <> "3" ->
        Engine.processingDaysFor d level = Z.pos d)
  /\ (forall (d : positive) (level : string),
        let n := Engine.processingDaysFor d level in
        (n = 30 \/ n = 60 \/ n = 90 \/ n = Z.pos d)%Z /\ (0 < n)%Z)
  /\ (forall (sor sor' : Engine.SystemOfRecord) (request request' : FeeCalculationParams),
        Engine.defaultProcessingDays sor = Engine.defaultProcessingDays sor' ->
        activityLevel request = activityLevel request' ->
        Engine.scheduleDays (Engine.resolve sor request)
        = Engine.scheduleDays (Engine.resolve sor' request'))
  /\ (forall (sor : Engine.SystemOfRecord) (data : FormData.t) (w : World) (l : string),
        FormData.activity_level data = Some l -> l <> "" ->
        let w' := exec (handleCalculateFees (Engine.hook sor) data) w in
        exists b ch,
          calculatedFees (ui w') = Some b
          /\ changes w' = (changes w ++ [ch])%list
          /\ processingDays b
             = Engine.processingDaysFor (Engine.defaultProcessingDays sor) l
          /\ Change.processing_days ch
             = Some (Engine.processingDaysFor (Engine.defaultProcessingDays sor) l)).
Proof.
  split; [| split; [| split; [| split]]].
  - intros d. repeat split; reflexivity.
  - intros d level H1 H2 H3 H4 H5. unfold Engine.processingDaysFor.
    apply String.eqb_neq in H1, H2, H3, H4, H5.
    rewrite H1, H2, H3, H4, H5. reflexivity.
  - intros d level n. subst n. unfold Engine.processingDaysFor.
    destruct (level =? "2.1"); [split; [auto | lia] |].
    destruct ((level =? "2.2") || (level =? "2.3") || (level =? "2.4"));
      [split; [auto | lia] |].
    destruct (level =? "3"); split; auto; lia.
  - intros sor sor' request request' Hd Hl.
    rewrite !resolve_days, Hd, Hl. reflexivity.
  - intros sor data w l Hl Hn w'. subst w'.
    destruct (level_of_draft data l Hl Hn) as [Hp Ht].
    handler_cases.
    cbn [Engine.hook validateParameters calculateFeesWithSupabase].
    rewrite validate_built, Ht.
    cbn [negb]. unfold Engine.calculateFees. cbv zeta.
    eexists. eexists.
    split; [reflexivity |]. split; [reflexivity |].
    cbn. rewrite resolve_days, Hp. split; reflexivity.
Qed.

Lemma processing_days_table_witness :
  Engine.processingDaysFor 90 "1" = 90%Z
  /\ Engine.scheduleDays (Engine.resolve sample_record (build_params sample_draft))
     = Engine.scheduleDays
         (Engine.resolve (Engine.mkRecord (fun _ => Some 1) (fun _ _ _ => None) 5 90 "" "")
            (mkParams "other" "other" "2.1" "2.1" "PA-7"))
  /\ exists b ch,
       calculatedFees (ui (exec (handleCalculateFees (Engine.hook sample_record)
                                   environmental_draft) (mount environmental_draft)))
       = Some b
       /\ changes (exec (handleCalculateFees (Engine.hook sample_record)
                          environmental_draft) (mount environmental_draft))
          = ([] ++ [ch])%list
       /\ processingDays b = Engine.processingDaysFor 90 "2.1"
       /\ Change.processing_days ch = Some (Engine.processingDaysFor 90 "2.1").
Proof.
  destruct processing_days_table as [_ [H2 [_ [H4 H5]]]].
  split; [| split].
  - apply H2; discriminate.
  - apply H4; reflexivity.
  - apply (H5 sample_record environmental_draft (mount environmental_draft) "2.1").
    + reflexivity.
    + discriminate.
Defined.

(** ** The printed form of an amount *)

Lemma string_of_uint_digits (u : Decimal.uint) :
  all_digits (NilEmpty.string_of_uint u) = true.
Proof. induction u; cbn; try reflexivity; exact IHu. Qed.

Lemma decimal_of_Z_digits (n : Z) :
  all_digits (decimal_of_Z n) = true /\ decimal_of_Z n <> "".
Proof.
  unfold decimal_of_Z, NilZero.string_of_uint.
  destruct (N.to_uint (Z.to_N n)) as [|u|u|u|u|u|u|u|u|u|u]; cbn;
    (split; [first [reflexivity | apply string_of_uint_digits] | discriminate]).
Qed.

Lemma to_uint_nonnil (m : N) : N.to_uint m <> Decimal.Nil.
Proof.
  destruct m as [|p]; [discriminate |]. apply DecimalPos.Unsigned.to_uint_nonnil.
Qed.

Lemma read_decimal_of_Z (n : Z) : (0 <= n)%Z -> read_digits (decimal_of_Z n) = Some n.
Proof.
  intros Hn. unfold read_digits, decimal_of_Z.
  rewrite NilZero.usu by apply to_uint_nonnil. cbn [option_map].
  rewrite DecimalN.Unsigned.of_to, Z2N.id by exact Hn. reflexivity.
Qed.

Lemma below_hundred (P : Z -> Prop) :
  (forall k : nat, (k < 100)%nat -> P (Z.of_nat k)) ->
  forall n : Z, (0 <= n < 100)%Z -> P n.
Proof.
  intros H n Hn. rewrite <- (Z2Nat.id n) by lia. apply H. lia.
Qed.

Lemma two_digit_fraction (n : Z) :
  (0 <= n < 100)%Z ->
  let F := (if (n <? 10)%Z then "0" else "") ++ decimal_of_Z n in
  all_digits F = true /\ String.length F = 2%nat /\ read_digits F = Some n.
Proof.
  revert n. apply below_hundred. intros k Hk.
  do 100 (destruct k as [|k]; [vm_compute; repeat split; reflexivity |]).
  lia.
Qed.

Lemma hundredths_nonneg (x : Q) : (0 <= hundredths (Qabs x))%Z.
Proof.
  unfold hundredths.
  change 0%Z with (Qfloor 0). apply Qfloor_resp_le.
  pose proof (Qabs_nonneg x). lra.
Qed.

Lemma append_assoc (a b c : string) : (a ++ b) ++ c = a ++ (b ++ c).
Proof.
  induction a as [|x a IH]; cbn; [reflexivity |]. rewrite IH. reflexivity.
Qed.

Lemma all_digits_app (a b : string) :
  all_digits (a ++ b) = all_digits a && all_digits b.
Proof.
  induction a as [|c a IH]; cbn; [reflexivity |].
  rewrite IH, andb_assoc. reflexivity.
Qed.

Lemma below_limit (x : Q) :
  Qabs x < TO_FIXED_LIMIT -> Qle_bool TO_FIXED_LIMIT (Qabs x) = false.
Proof.
  intros H. destruct (Qle_bool TO_FIXED_LIMIT (Qabs x)) eqn:E; [| reflexivity].
  apply Qle_bool_iff in E. exfalso. apply (Qlt_irrefl (Qabs x)).
  apply Qlt_le_trans with TO_FIXED_LIMIT; assumption.
Qed.

(** Below the limit [toFixed(2)] prints digits. *)
Lemma toFixed2_digits (x : Q) :
  Qabs x < TO_FIXED_LIMIT ->
  toFixed2 x
  = sign_of x ++ decimal_of_Z (hundredths (Qabs x) / 100) ++ "."
    ++ (if (hundredths (Qabs x) mod 100 <? 10)%Z then "0" else "")
    ++ decimal_of_Z (hundredths (Qabs x) mod 100).
Proof.
  intros H. unfold toFixed2, sign_of. cbv zeta. rewrite (below_limit x H). reflexivity.
Qed.

Lemma toFixed2_parts (x : Q) :
  Qabs x < TO_FIXED_LIMIT ->
  exists I F : string,
    toFixed2 x = sign_of x ++ I ++ "." ++ F
    /\ all_digits I = true /\ I <> ""
    /\ all_digits F = true /\ String.length F = 2%nat
    /\ read_digits I = Some (hundredths (Qabs x) / 100)%Z
    /\ read_digits F = Some (hundredths (Qabs x) mod 100)%Z.
Proof.
  intros Hx.
  pose proof (hundredths_nonneg x) as Hn.
  assert (Hf : (0 <= hundredths (Qabs x) mod 100 < 100)%Z)
    by (apply Z.mod_pos_bound; lia).
  destruct (two_digit_fraction _ Hf) as [F1 [F2 F3]].
  destruct (decimal_of_Z_digits (hundredths (Qabs x) / 100)) as [I1 I2].
  eexists. eexists.
  split; [| split; [exact I1 | split; [exact I2 | split; [exact F1 | split; [exact F2 |
    split; [| exact F3]]]]]].
  - apply toFixed2_digits. exact Hx.
  - apply read_decimal_of_Z. apply Z.div_pos; lia.
Qed.

Lemma nzhead_no_zero (d : Decimal.uint) :
  match Decimal.nzhead d with
  | Decimal.D0 _ => False
  | _ => True
  end.
Proof. induction d; cbn; try exact I; exact IHd. Qed.

Lemma decimal_of_Z_no_leading_zero (n : Z) :
  decimal_of_Z n = "0" \/ exists (c : ascii) (r : string),
                            decimal_of_Z n = String c r /\ c <> "0"%char.
Proof.
  unfold decimal_of_Z.
  pose proof (DecimalN.Unsigned.to_of (N.to_uint (Z.to_N n))) as H.
  rewrite DecimalN.Unsigned.of_to in H. rewrite H. unfold Decimal.unorm.
  pose proof (nzhead_no_zero (N.to_uint (Z.to_N n))) as Hz.
  destruct (Decimal.nzhead (N.to_uint (Z.to_N n))); cbn;
    try (left; reflexivity); try contradiction;
    right; eexists; eexists; (split; [reflexivity | discriminate]).
Qed.

(** X1.  For an amount below [10^21] in absolute value [toFixed(2)] prints
    the sign, a non-empty run of digits without a leading zero (unless it
    is the single digit 0), a point and exactly two digits; read back, the
    digits before the point and the two after it are the quotient and the
    remainder by 100 of the number of hundredths nearest to the absolute
    amount.  From [10^21] on it prints the shortest digits of the double in
    exponent notation, without two decimals. *)
Theorem toFixed2_shape :
  (forall x : Q,
     Qabs x < TO_FIXED_LIMIT ->
     exists I F : string,
       toFixed2 x = sign_of x ++ I ++ "." ++ F
       /\ all_digits I = true /\ I <> ""
       /\ (I = "0" \/ exists (c : ascii) (r : string), I = String c r /\ c <> "0"%char)
       /\ all_digits F = true /\ String.length F = 2%nat
       /\ read_digits I = Some (hundredths (Qabs x) / 100)%Z
       /\ read_digits F = Some (hundredths (Qabs x) mod 100)%Z)
  /\ (forall x : Q,
        TO_FIXED_LIMIT <= Qabs x -> toFixed2 x = sign_of x ++ exponent_notation (Qabs x))
  /\ toFixed2 (inject_Z (10 ^ 21 - 131072)) = "999999999999999868928.00"
  /\ toFixed2 (inject_Z (10 ^ 21)) = "1e+21"
  /\ toFixed2 (- inject_Z (2 ^ 70)) = "-1.1805916207174113e+21".
Proof.
  split; [| split; [| split; [| split]]]; [| | vm_compute; reflexivity ..].
  2: { intros x Hx. unfold toFixed2, sign_of. cbv zeta.
       apply Qle_bool_iff in Hx. rewrite Hx. reflexivity. }
  intros x Hx.
  pose proof (hundredths_nonneg x) as Hn.
  assert (Hf : (0 <= hundredths (Qabs x) mod 100 < 100)%Z)
    by (apply Z.mod_pos_bound; lia).
  destruct (two_digit_fraction _ Hf) as [F1 [F2 F3]].
  destruct (decimal_of_Z_digits (hundredths (Qabs x) / 100)) as [I1 I2].
  exists (decimal_of_Z (hundredths (Qabs x) / 100)).
  exists ((if (hundredths (Qabs x) mod 100 <? 10)%Z then "0" else "")
          ++ decimal_of_Z (hundredths (Qabs x) mod 100)).
  split; [apply toFixed2_digits; exact Hx |].
  split; [exact I1 |]. split; [exact I2 |].
  split; [apply decimal_of_Z_no_leading_zero |].
  split; [exact F1 |]. split; [exact F2 |].
  split; [| exact F3].
  apply read_decimal_of_Z. apply Z.div_pos; lia.
Qed.

(** At a negative amount that rounds to whole hundredths. *)
Lemma toFixed2_shape_witness :
  exists I F : string,
    toFixed2 (- (1234567891 # 1000)) = sign_of (- (1234567891 # 1000)) ++ I ++ "." ++ F
    /\ all_digits I = true /\ I <> ""
    /\ (I = "0" \/ exists (c : ascii) (r : string), I = String c r /\ c <> "0"%char)
    /\ all_digits F = true /\ String.length F = 2%nat
    /\ read_digits I = Some 1234567%Z
    /\ read_digits F = Some 89%Z.
Proof.
  exact (proj1 toFixed2_shape (- (1234567891 # 1000)) eq_refl).
Defined.

(** ** Thousands separators *)

Lemma digit_run_app (d t : string) :
  all_digits d = true -> digit_run (d ++ t) = (String.length d + digit_run t)%nat.
Proof.
  induction d as [|c d IH]; cbn; intros H; [reflexivity |].
  apply andb_true_iff in H. destruct H as [Hc Hd].
  rewrite Hc, (IH Hd). reflexivity.
Qed.

Lemma digit_run_le (s : string) : (digit_run s <= String.length s)%nat.
Proof.
  induction s as [|c s IH]; cbn; [lia |]. destruct (is_digit c); lia.
Qed.

Lemma short_untouched (s : string) (p : bool) :
  (String.length s < 3)%nat -> group_thousands p s = s.
Proof.
  revert p. induction s as [|c s IH]; intros p H; [reflexivity |].
  cbn [group_thousands]. cbv zeta.
  cbn [String.length] in H.
  rewrite (IH (is_word c)) by lia.
  pose proof (digit_run_le (String c s)) as Hr. cbn [String.length] in Hr.
  destruct (digit_run (String c s)) as [|[|[|r]]] eqn:E; try lia.
  - rewrite andb_false_r. reflexivity.
  - rewrite andb_false_r. reflexivity.
  - rewrite andb_false_r. reflexivity.
Qed.

Lemma every_third_snoc (n : nat) :
  forall (l : list ascii) (c : ascii),
    (List.length l <= n)%nat ->
    every_third (l ++ [c]) =
    (every_third l
       ++ (if (0 <? List.length l)%nat && (List.length l mod 3 =? 0)%nat
           then [","%char; c] else [c]))%list.
Proof.
  induction n as [|n IH]; intros l c Hl.
  - destruct l; [reflexivity | cbn in Hl; lia].
  - destruct l as [|a [|b [|c' [|d l4]]]]; try reflexivity.
    change ((a :: b :: c' :: d :: l4) ++ [c])%list
      with (a :: b :: c' :: ((d :: l4) ++ [c]))%list.
    assert (Hs : every_third (a :: b :: c' :: ((d :: l4) ++ [c]))
                 = (a :: b :: c' :: ","%char :: every_third ((d :: l4) ++ [c]))%list)
      by reflexivity.
    rewrite Hs. rewrite (IH (d :: l4) c) by (cbn in Hl |- *; lia).
    assert (Ht : every_third (a :: b :: c' :: d :: l4)
                 = (a :: b :: c' :: ","%char :: every_third (d :: l4))%list)
      by reflexivity.
    rewrite Ht.
    replace (List.length (a :: b :: c' :: d :: l4))
      with (List.length (d :: l4) + 1 * 3)%nat by (cbn; lia).
    rewrite Nat.Div0.mod_add.
    replace (0 <? List.length (d :: l4) + 1 * 3)%nat with true
      by (symmetry; apply Nat.ltb_lt; cbn; lia).
    replace (0 <? List.length (d :: l4))%nat with true
      by (symmetry; apply Nat.ltb_lt; cbn; lia).
    reflexivity.
Qed.

Lemma length_list_ascii (s : string) :
  List.length (list_ascii_of_string s) = String.length s.
Proof. induction s as [|c s IH]; cbn; [reflexivity | rewrite IH; reflexivity]. Qed.

Lemma string_of_list_app (a b : list ascii) :
  string_of_list_ascii (a ++ b) = string_of_list_ascii a ++ string_of_list_ascii b.
Proof. induction a as [|x a IH]; cbn; [reflexivity | rewrite IH; reflexivity]. Qed.

Lemma group_from_right_cons (c : ascii) (d : string) :
  group_from_right (String c d) =
  String c ((if (0 <? String.length d)%nat && (String.length d mod 3 =? 0)%nat
             then "," else "") ++ group_from_right d).
Proof.
  unfold group_from_right. cbn [list_ascii_of_string rev].
  rewrite (every_third_snoc (List.length (rev (list_ascii_of_string d)))) by lia.
  rewrite length_rev, length_list_ascii.
  rewrite rev_app_distr, string_of_list_app.
  destruct ((0 <? String.length d)%nat && (String.length d mod 3 =? 0)%nat); reflexivity.
Qed.

Lemma group_digits (F : string) :
  (String.length F < 3)%nat ->
  forall (d : string) (p : bool),
    all_digits d = true ->
    group_thousands p (d ++ "." ++ F) =
    (if p && (0 <? String.length d)%nat && (String.length d mod 3 =? 0)%nat
     then "," else "") ++ group_from_right d ++ "." ++ F.
Proof.
  intros HF. induction d as [|c d IH]; intros p Hd.
  - change ("" ++ "." ++ F) with (String "." F).
    cbn [String.length]. rewrite andb_false_r.
    cbn [group_thousands digit_run]. cbv zeta.
    change (is_digit ".") with false. cbv iota.
    rewrite andb_false_r. rewrite (short_untouched F _ HF). reflexivity.
  - cbn [all_digits] in Hd. apply andb_true_iff in Hd. destruct Hd as [Hc Hd].
    assert (Hw : is_word c = true).
    { unfold is_word. cbv zeta. rewrite Hc. reflexivity. }
    change (String c d ++ "." ++ F) with (String c (d ++ "." ++ F)).
    cbn [group_thousands]. cbv zeta.
    rewrite Hw, (IH true Hd).
    assert (Hr : digit_run (String c (d ++ "." ++ F)) = S (String.length d)).
    { cbn [digit_run]. rewrite Hc, (digit_run_app d _ Hd).
      change ("." ++ F) with (String "." F). cbn [digit_run].
      change (is_digit ".") with false. cbv iota. lia. }
    rewrite Hr. rewrite group_from_right_cons. cbn [String.length andb].
    destruct (p && (0 <? S (String.length d))%nat && (S (String.length d) mod 3 =? 0)%nat);
      destruct ((0 <? String.length d)%nat && (String.length d mod 3 =? 0)%nat);
      reflexivity.
Qed.

Lemma strip_grouped (s : string) :
  has_comma s = false -> forall p : bool, strip_commas (group_thousands p s) = s.
Proof.
  induction s as [|c s IH]; intros H p; [reflexivity |].
  cbn [has_comma] in H. apply orb_false_iff in H. destruct H as [Hc Hs].
  cbn [group_thousands]. cbv zeta.
  destruct (p && (0 <? digit_run (String c s))%nat
            && (digit_run (String c s) mod 3 =? 0)%nat);
    cbn [strip_commas]; try change (Ascii.eqb "," ",") with true; cbv iota;
    rewrite Hc, (IH Hs); reflexivity.
Qed.

Lemma digits_no_comma (s : string) : all_digits s = true -> has_comma s = false.
Proof.
  induction s as [|c s IH]; cbn; intros H; [reflexivity |].
  apply andb_true_iff in H. destruct H as [Hc Hs]. rewrite (IH Hs), orb_false_r.
  destruct (Ascii.eqb_spec c ","); [subst c; discriminate Hc | reflexivity].
Qed.

Lemma has_comma_app (a b : string) : has_comma (a ++ b) = has_comma a || has_comma b.
Proof.
  induction a as [|x a IH]; cbn; [reflexivity |]. rewrite IH, orb_assoc. reflexivity.
Qed.

Lemma formatCurrency_without_commas (x : Q) :
  Qabs x < TO_FIXED_LIMIT ->
  exists I F : string,
    toFixed2 x = sign_of x ++ I ++ "." ++ F
    /\ all_digits I = true
    /\ read_digits I = Some (hundredths (Qabs x) / 100)%Z
    /\ read_digits F = Some (hundredths (Qabs x) mod 100)%Z
    /\ strip_commas (formatCurrency x) = "PGK " ++ toFixed2 x.
Proof.
  intros Hx.
  destruct (toFixed2_parts x Hx) as [I [F [Hs [HI [HI' [HF [HL [HrI HrF]]]]]]]].
  exists I, F.
  assert (Hc : has_comma (toFixed2 x) = false).
  { rewrite Hs, !has_comma_app, (digits_no_comma I HI), (digits_no_comma F HF).
    unfold sign_of. destruct (Qle_bool 0 x); reflexivity. }
  pose proof (strip_grouped _ Hc false) as Hstrip.
  assert (Hne : (group_thousands false (toFixed2 x) =? "") = false).
  { apply String.eqb_neq. intros He. rewrite He in Hstrip. cbn in Hstrip.
    rewrite Hs in Hstrip. destruct (sign_of x); destruct I; discriminate Hstrip. }
  repeat (split; [assumption |]).
  unfold formatCurrency, JS.or_default. rewrite Hne.
  change (strip_commas ("PGK " ++ group_thousands false (toFixed2 x)))
    with ("PGK " ++ strip_commas (group_thousands false (toFixed2 x))).
  rewrite Hstrip. reflexivity.
Qed.

(** X2.  For an amount below [10^21] in absolute value [formatCurrency]
    prints [PGK], the sign, the digits before the point grouped in threes
    from the right, the point and the two digits after it, which get no
    comma; the fallback ['0.00'] is not used, and taking the commas out
    gives back [PGK] followed by [toFixed(2)].  From [10^21] on the amount
    is printed in exponent notation, and the commas go into the digits
    after the point. *)
Theorem formatCurrency_groups_thousands :
  (forall x : Q,
     Qabs x < TO_FIXED_LIMIT ->
     exists I F : string,
       toFixed2 x = sign_of x ++ I ++ "." ++ F
       /\ all_digits I = true /\ String.length F = 2%nat
       /\ formatCurrency x = "PGK " ++ sign_of x ++ group_from_right I ++ "." ++ F
       /\ strip_commas (formatCurrency x) = "PGK " ++ toFixed2 x)
  /\ formatCurrency (inject_Z (10 ^ 21)) = "PGK 1e+21"
  /\ formatCurrency (inject_Z (2 ^ 70)) = "PGK 1.1,805,916,207,174,113e+21".
Proof.
  split; [| split; vm_compute; reflexivity].
  intros x Hx.
  destruct (toFixed2_parts x Hx) as [I [F [Hs [HI [_ [HF [HL _]]]]]]].
  exists I, F.
  assert (Hg : group_thousands false (toFixed2 x)
               = sign_of x ++ group_from_right I ++ "." ++ F).
  { rewrite Hs. unfold sign_of. destruct (Qle_bool 0 x).
    - cbn [append]. rewrite (group_digits F) by (exact HI || lia). reflexivity.
    - change ("-" ++ I ++ "." ++ F) with (String "-" (I ++ "." ++ F)).
      cbn [group_thousands]. cbv zeta. cbn [andb].
      change (is_word "-") with false.
      rewrite (group_digits F) by (exact HI || lia). reflexivity. }
  assert (Hc : has_comma (toFixed2 x) = false).
  { rewrite Hs, !has_comma_app, (digits_no_comma I HI), (digits_no_comma F HF).
    unfold sign_of. destruct (Qle_bool 0 x); reflexivity. }
  pose proof (strip_grouped _ Hc false) as Hstrip.
  assert (Hne : (group_thousands false (toFixed2 x) =? "") = false).
  { apply String.eqb_neq. intros He. rewrite He in Hstrip. cbn in Hstrip.
    rewrite Hs in Hstrip. destruct (sign_of x); destruct I; discriminate Hstrip. }
  split; [exact Hs |]. split; [exact HI |]. split; [exact HL |].
  unfold formatCurrency, JS.or_default. rewrite Hne. split.
  - rewrite Hg. reflexivity.
  - change (strip_commas ("PGK " ++ group_thousands false (toFixed2 x)))
      with ("PGK " ++ strip_commas (group_thousands false (toFixed2 x))).
    rewrite Hstrip. reflexivity.
Qed.

(** At a negative amount of seven digits. *)
Lemma formatCurrency_groups_thousands_witness :
  exists I F : string,
    toFixed2 (- (1234567891 # 1000)) = sign_of (- (1234567891 # 1000)) ++ I ++ "." ++ F
    /\ all_digits I = true /\ String.length F = 2%nat
    /\ formatCurrency (- (1234567891 # 1000))
       = "PGK " ++ sign_of (- (1234567891 # 1000)) ++ group_from_right I ++ "." ++ F
    /\ strip_commas (formatCurrency (- (1234567891 # 1000)))
       = "PGK " ++ toFixed2 (- (1234567891 # 1000)).
Proof.
  exact (proj1 formatCurrency_groups_thousands (- (1234567891 # 1000)) eq_refl).
Defined.

(** ** Reading a row back *)

Lemma split_digits (I F : string) :
  all_digits I = true -> split_at_point (I ++ "." ++ F) = Some (I, F).
Proof.
  induction I as [|c I IH]; intros H.
  - reflexivity.
  - cbn [all_digits] in H. apply andb_true_iff in H. destruct H as [Hc HI].
    change (String c I ++ "." ++ F) with (String c (I ++ "." ++ F)).
    cbn [split_at_point]. rewrite (IH HI).
    destruct (Ascii.eqb_spec c "."); [subst c; discriminate Hc | reflexivity].
Qed.

Lemma sign_of_nonneg (x : Q) : 0 <= x -> sign_of x = "".
Proof.
  intros H. unfold sign_of. apply Qle_bool_iff in H. rewrite H. reflexivity.
Qed.

Lemma hundredths_abs (x : Q) : 0 <= x -> hundredths (Qabs x) = hundredths x.
Proof.
  intros Hx. unfold hundredths. apply Qfloor_comp.
  rewrite (Qabs_pos x Hx). reflexivity.
Qed.

Lemma abs_below (x : Q) : 0 <= x -> x < TO_FIXED_LIMIT -> Qabs x < TO_FIXED_LIMIT.
Proof. intros H0 H1. rewrite (Qabs_pos x H0). exact H1. Qed.

Lemma row_of_amount (x : Q) :
  0 <= x -> x < TO_FIXED_LIMIT -> row_hundredths (formatCurrency x) = Some (hundredths x).
Proof.
  intros Hx Hlim. rewrite <- (hundredths_abs x Hx).
  destruct (formatCurrency_without_commas x (abs_below x Hx Hlim))
    as [I [F [Hs [HI [HrI [HrF Hstrip]]]]]].
  unfold row_hundredths. rewrite Hstrip, Hs, (sign_of_nonneg x Hx).
  change ("PGK " ++ "" ++ I ++ "." ++ F)
    with (String "P" (String "G" (String "K" (String " " (I ++ "." ++ F))))).
  cbv iota beta. rewrite (split_digits I F HI), HrI, HrF.
  f_equal. pose proof (Z.div_mod (hundredths (Qabs x)) 100). lia.
Qed.

(** X3.  A printed amount can be read back: for an amount that is not
    negative and below [10^21], dropping the commas of the row, taking
    [PGK ] off and reading the digits around the point gives the number of
    hundredths nearest to the amount, ties going up; so two such amounts
    print the same row exactly when they round to the same hundredths.
    The row printed for [10^21] has no point and cannot be read back. *)
Theorem formatCurrency_reads_back :
  (forall x : Q,
     0 <= x -> x < TO_FIXED_LIMIT ->
     row_hundredths (formatCurrency x) = Some (hundredths x))
  /\ (forall x y : Q,
        0 <= x -> x < TO_FIXED_LIMIT -> 0 <= y -> y < TO_FIXED_LIMIT ->
        formatCurrency x = formatCurrency y <-> hundredths x = hundredths y)
  /\ row_hundredths (formatCurrency (inject_Z (10 ^ 21))) = None.
Proof.
  split; [| split].
  - exact row_of_amount.
  - intros x y Hx Lx Hy Ly. split.
    + intros H. pose proof (row_of_amount x Hx Lx) as Rx.
      pose proof (row_of_amount y Hy Ly) as Ry.
      rewrite H, Ry in Rx. injection Rx as Rx. symmetry. exact Rx.
    + intros H. unfold formatCurrency.
      rewrite (toFixed2_digits x (abs_below x Hx Lx)),
        (toFixed2_digits y (abs_below y Hy Ly)).
      rewrite (sign_of_nonneg x Hx), (sign_of_nonneg y Hy).
      rewrite (hundredths_abs x Hx), (hundredths_abs y Hy), H. reflexivity.
  - vm_compute. reflexivity.
Qed.

Lemma formatCurrency_reads_back_witness :
  row_hundredths "PGK 1,234,567.89" = Some 123456789%Z
  /\ formatCurrency (1234567891 # 1000) = formatCurrency (123456789 # 100).
Proof.
  split.
  - exact (proj1 formatCurrency_reads_back (1234567891 # 1000)
             ltac:(discriminate) eq_refl).
  - apply (proj1 (proj2 formatCurrency_reads_back) (1234567891 # 1000) (123456789 # 100));
      [discriminate | reflexivity | discriminate | reflexivity | reflexivity].
Defined.

(** ** The rows of the panel *)

Lemma Qfloor_unique (y : Q) (m : Z) :
  inject_Z m <= y -> y < inject_Z (m + 1) -> Qfloor y = m.
Proof.
  intros Hlo Hhi.
  pose proof (Qfloor_le y) as Flo. pose proof (Qlt_floor y) as Fhi.
  assert (H1 : inject_Z (Qfloor y) < inject_Z (m + 1)) by lra.
  assert (H2 : inject_Z m < inject_Z (Qfloor y + 1)) by lra.
  rewrite <- Zlt_Qlt in H1, H2. lia.
Qed.

Lemma Qfloor_shift (y : Q) (k : Z) : Qfloor (y + inject_Z k) = (Qfloor y + k)%Z.
Proof.
  apply Qfloor_unique.
  - rewrite inject_Z_plus. pose proof (Qfloor_le y). lra.
  - replace (Qfloor y + k + 1)%Z with ((Qfloor y + 1) + k)%Z by lia.
    rewrite (inject_Z_plus (Qfloor y + 1) k). pose proof (Qlt_floor y). lra.
Qed.

Lemma shown_hundredths_plus (a : Q) (k : Z) :
  0 <= a -> (0 <= k)%Z ->
  forall t : Q, t == a + inject_Z k ->
    shown_hundredths t = (shown_hundredths a + 100 * k)%Z.
Proof.
  intros Ha Hk t Ht. unfold shown_hundredths, hundredths.
  assert (Hk' : 0 <= inject_Z k).
  { change 0 with (inject_Z 0). rewrite <- Zle_Qle. exact Hk. }
  assert (Et : Qabs t == a + inject_Z k).
  { rewrite Ht. apply Qabs_pos. lra. }
  assert (Ea : Qabs a == a) by (apply Qabs_pos; exact Ha).
  assert (E : Qabs t * 100 + (1 # 2) == (Qabs a * 100 + (1 # 2)) + inject_Z (100 * k)).
  { rewrite Et, Ea, inject_Z_mult. change (inject_Z 100) with 100. lra. }
  rewrite E. apply Qfloor_shift.
Qed.

Lemma composite_as_integer (data : FormData.t) :
  compositeFeeAmount data = inject_Z (if isEnvironmentalPermit data then 2000 else 0).
Proof. unfold compositeFeeAmount. destruct (isEnvironmentalPermit data); reflexivity. Qed.

Lemma panel_of_breakdown (data shown : FormData.t) (s : ComponentState) (b : FeeResult) :
  calculatedFees s = Some b ->
  0 <= administrationFee b ->
  totalFee b == administrationFee b + compositeFeeAmount data ->
  totalFee b < TO_FIXED_LIMIT ->
  exists (panel : FeePanel) (A T : Z),
    render_panel shown s = Some panel
    /\ row_hundredths (application_fee_row panel) = Some A
    /\ row_hundredths (total_fee_row panel) = Some T
    /\ composite_fee_row panel
       = (if isEnvironmentalPermit shown then Some "PGK 2,000.00" else None)
    /\ T = (A + (if isEnvironmentalPermit data then 200000 else 0))%Z.
Proof.
  intros Hs Ha Ht Hlim. unfold render_panel. rewrite Hs.
  rewrite composite_as_integer in Ht.
  pose proof (or_number_zero (administrationFee b)) as Ea.
  pose proof (or_number_zero (totalFee b)) as Et.
  assert (Ha' : 0 <= JS.or_number (administrationFee b) 0) by (rewrite Ea; exact Ha).
  assert (Hk : (0 <= (if isEnvironmentalPermit data then 2000 else 0))%Z)
    by (destruct (isEnvironmentalPermit data); lia).
  assert (Hk' : 0 <= inject_Z (if isEnvironmentalPermit data then 2000 else 0)).
  { change 0 with (inject_Z 0). rewrite <- Zle_Qle. exact Hk. }
  assert (Ht' : 0 <= JS.or_number (totalFee b) 0) by (rewrite Et, Ht; lra).
  assert (La : JS.or_number (administrationFee b) 0 < TO_FIXED_LIMIT).
  { rewrite Ea. apply Qle_lt_trans with (totalFee b); [rewrite Ht; lra | exact Hlim]. }
  assert (Lt' : JS.or_number (totalFee b) 0 < TO_FIXED_LIMIT) by (rewrite Et; exact Hlim).
  eexists. eexists. eexists. split; [reflexivity |].
  cbn [application_fee_row total_fee_row composite_fee_row].
  split; [apply row_of_amount; [exact Ha' | exact La] |].
  split; [apply row_of_amount; [exact Ht' | exact Lt'] |].
  split; [destruct (isEnvironmentalPermit shown); reflexivity |].
  pose proof (shown_hundredths_plus (JS.or_number (administrationFee b) 0)
                (if isEnvironmentalPermit data then 2000 else 0) Ha' Hk
                (JS.or_number (totalFee b) 0)) as H.
  unfold shown_hundredths in H.
  rewrite (hundredths_abs _ Ha'), (hundredths_abs _ Ht') in H.
  rewrite H.
  - destruct (isEnvironmentalPermit data); reflexivity.
  - rewrite Et, Ea. exact Ht.
Qed.

(** X4.  When the rows of the panel agree and when they do not.  The panel
    is rendered for the draft of the moment, the stored total was formed
    for the draft the effect or the handler ran with.  For the same draft,
    an administration fee that is not negative and a sum below [10^21]
    that is a double (no rounding in the addition, as for whole amounts),
    the hundredths of the total row are those of the application fee row
    plus those of the composite row: after a change of permit type has
    rebuilt the breakdown, and after a successful lookup whose total equals
    its administration fee.  When the draft has become Environmental while
    the lookup for the earlier draft was pending, the effect finds nothing
    to rebuild and the panel then shows the composite row beside a total
    without it.  When the addition rounds, the rows can differ by a
    hundredth: the double nearest to 100.005 is shown as 100.00, with the
    composite fee the total is shown as 2,100.01. *)
Theorem panel_rows_add_up :
  (forall (data : FormData.t) (w : World) (b0 : FeeResult),
     hasCalculatedOnce (ui w) = true ->
     calculatedFees (ui w) = Some b0 ->
     0 <= administrationFee b0 ->
     administrationFee b0 + compositeFeeAmount data < TO_FIXED_LIMIT ->
     F64.representable (administrationFee b0 + compositeFeeAmount data) ->
     let w' := exec (recalculateOnPermitChange data) w in
     exists (panel : FeePanel) (A T : Z),
       render_panel data (ui w') = Some panel
       /\ row_hundredths (application_fee_row panel) = Some A
       /\ row_hundredths (total_fee_row panel) = Some T
       /\ composite_fee_row panel
          = (if isEnvironmentalPermit data then Some "PGK 2,000.00" else None)
       /\ T = (A + (if isEnvironmentalPermit data then 200000 else 0))%Z)
  /\ (forall (hook : FeeCalculationHook) (data : FormData.t) (w : World) (fees : FeeResult),
        isValid (validateParameters hook (build_params data)) = true ->
        calculateFeesWithSupabase hook (build_params data) = Fulfilled (Some fees) ->
        0 <= administrationFee fees ->
        totalFee fees == administrationFee fees ->
        totalFee fees + compositeFeeAmount data < TO_FIXED_LIMIT ->
        F64.representable (totalFee fees + compositeFeeAmount data) ->
        let w' := exec (handleCalculateFees hook data) w in
        exists (panel : FeePanel) (A T : Z),
          render_panel data (ui w') = Some panel
          /\ row_hundredths (application_fee_row panel) = Some A
          /\ row_hundredths (total_fee_row panel) = Some T
          /\ composite_fee_row panel
             = (if isEnvironmentalPermit data then Some "PGK 2,000.00" else None)
          /\ T = (A + (if isEnvironmentalPermit data then 200000 else 0))%Z)
  /\ (forall (hook : FeeCalculationHook) (plain environmental : FormData.t) (w : World)
             (fees : FeeResult),
        isEnvironmentalPermit plain = false ->
        isEnvironmentalPermit environmental = true ->
        hasCalculatedOnce (ui w) = false ->
        isValid (validateParameters hook (build_params plain)) = true ->
        calculateFeesWithSupabase hook (build_params plain) = Fulfilled (Some fees) ->
        0 <= administrationFee fees ->
        totalFee fees == administrationFee fees ->
        totalFee fees < TO_FIXED_LIMIT ->
        let w1 := exec (recalculateOnPermitChange environmental) w in
        let w2 := exec (handleCalculateFees hook plain) w1 in
        w1 = w
        /\ exists (panel : FeePanel) (A T : Z),
             render_panel environmental (ui w2) = Some panel
             /\ row_hundredths (application_fee_row panel) = Some A
             /\ row_hundredths (total_fee_row panel) = Some T
             /\ composite_fee_row panel = Some "PGK 2,000.00"
             /\ T = A)
  /\ (formatCurrency (F64.round (100005 # 1000)) = "PGK 100.00"
      /\ formatCurrency COMPOSITE_FEE = "PGK 2,000.00"
      /\ formatCurrency (F64.add (F64.round (100005 # 1000)) COMPOSITE_FEE)
         = "PGK 2,100.01").
Proof.
  split; [| split; [| split]].
  - intros data w b0 Hc Hb Ha Hlim _ w'. subst w'.
    apply (panel_of_breakdown data data _ (rebuilt data b0)).
    + rewrite recalculate_run, Hc, Hb. reflexivity.
    + exact Ha.
    + apply (rebuilt_invariant data b0).
    + unfold rebuilt. cbn [totalFee spread_with].
      rewrite (or_number_zero (administrationFee b0)). exact Hlim.
  - intros hook data w fees Hv Hl Ha Ht Hlim _ w'. subst w'.
    apply (panel_of_breakdown data data _
             (spread_with fees (compositeFeeAmount data)
                (totalFee fees + compositeFeeAmount data))).
    + handler_cases. rewrite Hv, Hl. reflexivity.
    + exact Ha.
    + cbn. rewrite Ht. reflexivity.
    + exact Hlim.
  - intros hook plain environmental w fees Hp He Hf Hv Hl Ha Ht Hlim w1 w2.
    assert (E1 : w1 = w).
    { subst w1. rewrite recalculate_run, Hf. reflexivity. }
    split; [exact E1 |]. subst w2. rewrite E1.
    destruct (panel_of_breakdown plain environmental
                (ui (exec (handleCalculateFees hook plain) w))
                (spread_with fees (compositeFeeAmount plain)
                   (totalFee fees + compositeFeeAmount plain)))
      as [panel [A [T [H1 [H2 [H3 [H4 H5]]]]]]].
    + handler_cases. rewrite Hv, Hl. reflexivity.
    + exact Ha.
    + cbn. rewrite Ht. reflexivity.
    + cbn [totalFee spread_with]. unfold compositeFeeAmount. rewrite Hp. lra.
    + exists panel, A, T. rewrite He in H4. rewrite Hp in H5.
      split; [exact H1 |]. split; [exact H2 |]. split; [exact H3 |].
      split; [exact H4 | lia].
  - repeat split; vm_compute; reflexivity.
Qed.

Lemma panel_rows_add_up_witness :
  (exists (panel : FeePanel) (A T : Z),
     render_panel environmental_draft
       (ui (exec (recalculateOnPermitChange environmental_draft)
                 (calculated_world sample_breakdown))) = Some panel
     /\ row_hundredths (application_fee_row panel) = Some A
     /\ row_hundredths (total_fee_row panel) = Some T
     /\ composite_fee_row panel = Some "PGK 2,000.00"
     /\ T = (A + 200000)%Z)
  /\ (exists (panel : FeePanel) (A T : Z),
        render_panel sample_draft
          (ui (exec (handleCalculateFees (Engine.hook sample_record) sample_draft)
                    (mount sample_draft))) = Some panel
        /\ row_hundredths (application_fee_row panel) = Some A
        /\ row_hundredths (total_fee_row panel) = Some T
        /\ composite_fee_row panel = None
        /\ T = (A + 0)%Z)
  /\ (exists (panel : FeePanel) (A T : Z),
        render_panel environmental_draft
          (ui (exec (handleCalculateFees (Engine.hook sample_record) sample_draft)
                    (mount sample_draft))) = Some panel
        /\ row_hundredths (application_fee_row panel) = Some A
        /\ row_hundredths (total_fee_row panel) = Some T
        /\ composite_fee_row panel = Some "PGK 2,000.00"
        /\ T = A).
Proof.
  destruct panel_rows_add_up as [H1 [H2 [H3 _]]].
  split; [| split].
  - refine (H1 environmental_draft (calculated_world sample_breakdown)
              sample_breakdown eq_refl eq_refl _ eq_refl _).
    + discriminate.
    + vm_compute. reflexivity.
  - refine (H2 (Engine.hook sample_record) sample_draft (mount sample_draft) _
              eq_refl eq_refl _ _ eq_refl _).
    + discriminate.
    + reflexivity.
    + vm_compute. reflexivity.
  - refine (proj2 (H3 (Engine.hook sample_record) sample_draft environmental_draft
                     (mount sample_draft) _ eq_refl eq_refl eq_refl eq_refl eq_refl
                     _ _ eq_refl)).
    + discriminate.
    + reflexivity.
Defined.

(** ** Running the handler again, and switching the category on and off *)

(** X5.  Running the handler a second time for the same draft with the same
    answers of the hook changes nothing in the component: the state after
    the second run is the state after the first, and the second run starts
    the same lookups and hands the same arguments to [onChange] as the
    first. *)
Theorem handler_is_idempotent (hook : FeeCalculationHook) (data : FormData.t) (w : World) :
  let w1 := exec (handleCalculateFees hook data) w in
  let w2 := exec (handleCalculateFees hook data) w1 in
  ui w2 = ui w1
  /\ exists (ls : list FeeCalculationParams) (cs : list Change.t),
       lookups w1 = (lookups w ++ ls)%list
       /\ lookups w2 = (lookups w1 ++ ls)%list
       /\ changes w1 = (changes w ++ cs)%list
       /\ changes w2 = (changes w1 ++ cs)%list
       /\ (List.length cs <= 1)%nat /\ (List.length ls <= 1)%nat.
Proof.
  intros w1 w2. subst w1 w2. handler_cases.
  destruct (isValid (validateParameters hook (build_params data))); cbn [negb].
  - destruct (calculateFeesWithSupabase hook (build_params data)) as [[fees|]|e].
    + split; [reflexivity |]. eexists. eexists. cbn. repeat split; cbn; lia.
    + split; [reflexivity |]. exists [build_params data], []. cbn.
      rewrite !app_nil_r. repeat split; lia.
    + split; [reflexivity |]. exists [build_params data], []. cbn.
      rewrite !app_nil_r. repeat split; lia.
  - split; [reflexivity |]. exists [], []. cbn. rewrite !app_nil_r. repeat split; lia.
Qed.

(** X6.  After a successful lookup for a draft outside the Environmental
    category, switching to the Environmental category and back rebuilds a
    breakdown that differs from the first one at most in its total: the
    total is now the administration fee, so the first total comes back
    exactly when the hook reported a total equal to its administration fee.
    In between, the total is the administration fee plus 2000. *)
Theorem switching_on_and_off
    (hook : FeeCalculationHook) (plain environmental : FormData.t) (w : World)
    (fees : FeeResult) :
  isEnvironmentalPermit plain = false ->
  isEnvironmentalPermit environmental = true ->
  isValid (validateParameters hook (build_params plain)) = true ->
  calculateFeesWithSupabase hook (build_params plain) = Fulfilled (Some fees) ->
  let w1 := exec (handleCalculateFees hook plain) w in
  let w2 := exec (recalculateOnPermitChange environmental) w1 in
  let w3 := exec (recalculateOnPermitChange plain) w2 in
  exists b1 b2 b3 : FeeResult,
    calculatedFees (ui w1) = Some b1
    /\ calculatedFees (ui w2) = Some b2
    /\ calculatedFees (ui w3) = Some b3
    /\ totalFee b1 == totalFee fees
    /\ totalFee b2 == administrationFee fees + 2000
    /\ totalFee b3 == administrationFee fees
    /\ b3 = spread_with b1 0 (totalFee b3)
    /\ compositeFee b1 = Some 0 /\ compositeFee b2 = Some 2000 /\ compositeFee b3 = Some 0
    /\ (totalFee b3 == totalFee b1 <-> totalFee fees == administrationFee fees).
Proof.
  intros Hp He Hv Hl w1 w2 w3. subst w1 w2 w3.
  rewrite !recalculate_run. handler_cases. rewrite Hv, Hl. cbn.
  unfold rebuilt, compositeFeeAmount. rewrite Hp, He. cbn.
  eexists. eexists. eexists.
  do 3 (split; [reflexivity |]).
  pose proof (or_number_zero (administrationFee fees)) as Ea.
  unfold COMPOSITE_FEE. cbn [totalFee compositeFee spread_with].
  split; [lra |]. split; [lra |]. split; [lra |].
  split; [reflexivity |]. do 3 (split; [reflexivity |]).
  split; intros H; lra.
Qed.

Lemma switching_on_and_off_witness :
  exists b1 b2 b3 : FeeResult,
    calculatedFees (ui (exec (handleCalculateFees sample_hook sample_draft)
                             (mount sample_draft))) = Some b1
    /\ calculatedFees
         (ui (exec (recalculateOnPermitChange environmental_draft)
                (exec (handleCalculateFees sample_hook sample_draft)
                   (mount sample_draft)))) = Some b2
    /\ calculatedFees
         (ui (exec (recalculateOnPermitChange sample_draft)
                (exec (recalculateOnPermitChange environmental_draft)
                   (exec (handleCalculateFees sample_hook sample_draft)
                      (mount sample_draft))))) = Some b3
    /\ totalFee b1 == 150 /\ totalFee b2 == 100 + 2000 /\ totalFee b3 == 100
    /\ b3 = spread_with b1 0 (totalFee b3)
    /\ compositeFee b1 = Some 0 /\ compositeFee b2 = Some 2000 /\ compositeFee b3 = Some 0
    /\ (totalFee b3 == totalFee b1 <-> 150 == 100).
Proof.
  exact (switching_on_and_off sample_hook sample_draft environmental_draft
           (mount sample_draft) sample_fees eq_refl eq_refl eq_refl eq_refl).
Defined.

(** ** The review step: names of document types *)

Lemma upper_ascii_facts (c : ascii) :
  is_word (upper_ascii c) = is_word c
  /\ upper_ascii (upper_ascii c) = upper_ascii c
  /\ is_lower_letter (upper_ascii c) = false
  /\ Ascii.eqb (upper_ascii c) "_" = Ascii.eqb c "_".
Proof.
  destruct c as [[] [] [] [] [] [] [] []]; repeat split; reflexivity.
Qed.

Lemma capitalize_length (s : string) (p : bool) :
  String.length (Review.capitalize_words p s) = String.length s.
Proof.
  revert p. induction s as [|c s IH]; intros p; cbn; [reflexivity |].
  rewrite IH. reflexivity.
Qed.

Lemma underscores_length (s : string) :
  String.length (Review.underscores_to_spaces s) = String.length s.
Proof. induction s as [|c s IH]; cbn; [reflexivity | rewrite IH; reflexivity]. Qed.

Lemma underscores_gone (s : string) : occurs "_" (Review.underscores_to_spaces s) = false.
Proof.
  induction s as [|c s IH]; cbn; [reflexivity |]. rewrite IH, orb_false_r.
  destruct (Ascii.eqb c "_") eqn:E; [reflexivity | exact E].
Qed.

Lemma capitalize_keeps_clean (s : string) (p : bool) :
  occurs "_" s = false -> occurs "_" (Review.capitalize_words p s) = false.
Proof.
  revert p. induction s as [|c s IH]; intros p H; cbn; [reflexivity |].
  cbn in H. apply orb_false_iff in H. destruct H as [Hc Hs].
  rewrite (IH _ Hs), orb_false_r.
  destruct (is_word c && negb p); [| exact Hc].
  rewrite (proj2 (proj2 (proj2 (upper_ascii_facts c)))). exact Hc.
Qed.

Lemma underscores_clean_id (s : string) :
  occurs "_" s = false -> Review.underscores_to_spaces s = s.
Proof.
  induction s as [|c s IH]; cbn; intros H; [reflexivity |].
  apply orb_false_iff in H. destruct H as [Hc Hs]. rewrite Hc, (IH Hs). reflexivity.
Qed.

Lemma capitalize_idem (s : string) (p : bool) :
  Review.capitalize_words p (Review.capitalize_words p s) = Review.capitalize_words p s.
Proof.
  revert p. induction s as [|c s IH]; intros p; cbn; [reflexivity |].
  destruct (upper_ascii_facts c) as [Hw [Hu _]].
  destruct (is_word c && negb p) eqn:E.
  - rewrite Hw, E, Hu, IH. reflexivity.
  - rewrite E, IH. reflexivity.
Qed.

Lemma capitalize_starts (s : string) (p : bool) :
  words_start_upper p (Review.capitalize_words p s) = true.
Proof.
  revert p. induction s as [|c s IH]; intros p; cbn; [reflexivity |].
  destruct (upper_ascii_facts c) as [Hw [_ [Hl _]]].
  destruct (is_word c && negb p) eqn:E.
  - rewrite Hw, E, Hl, IH. reflexivity.
  - rewrite E, IH. reflexivity.
Qed.

(** X7.  The display name of a document type has the length of the key,
    contains no underscore, starts none of its words with a lower-case
    letter, and is left as it is when the renaming is applied again. *)
Theorem docTypeName_title_case (docType : string) :
  String.length (Review.docTypeName docType) = String.length docType
  /\ occurs "_" (Review.docTypeName docType) = false
  /\ words_start_upper false (Review.docTypeName docType) = true
  /\ Review.docTypeName (Review.docTypeName docType) = Review.docTypeName docType
  /\ Review.docTypeName "environmental_impact_statement" = "Environmental Impact Statement".
Proof.
  unfold Review.docTypeName.
  split; [rewrite capitalize_length, underscores_length; reflexivity |].
  split; [apply capitalize_keeps_clean, underscores_gone |].
  split; [apply capitalize_starts |].
  split; [| reflexivity].
  rewrite (underscores_clean_id (Review.capitalize_words false _))
    by (apply capitalize_keeps_clean, underscores_gone).
  apply capitalize_idem.
Qed.

(** ** The review step: attached documents *)

Lemma display_name_empty (file : Review.File) (fallback : string) :
  Review.display_name file fallback = "" -> fallback = "".
Proof.
  unfold Review.display_name. intros H.
  destruct (String.eqb_spec fallback ""); [assumption |].
  exfalso. exact (or_default_nonempty _ fallback n H).
Qed.

Lemma required_documents_facts (entries : list (string * option Review.File)) :
  List.length (flat_map Review.required_document entries)
  = List.length (filter (fun entry => JS.truthy_object (snd entry)) entries)
  /\ Forall (fun d => Review.source d = "Required Documents"
                      /\ (Review.name d <> "" \/ Review.type d = Some ""))
            (flat_map Review.required_document entries).
Proof.
  induction entries as [|[key [file|]] entries [IHl IHf]]; cbn.
  - split; [reflexivity | constructor].
  - split; [rewrite IHl; reflexivity |].
    constructor; [| exact IHf]. cbn. split; [reflexivity |].
    destruct (String.eqb_spec (Review.display_name file (Review.docTypeName key)) "")
      as [H | H]; [right | left; exact H].
    apply display_name_empty in H. rewrite H. reflexivity.
  - split; assumption.
Qed.

(** X8.  The list of attached documents is the general uploads, then the
    required documents that hold a file, then the consultation proofs, each
    labelled with its source; their number is the sum of the three, and a
    document has an empty name only if it is a required document whose key
    is the empty string. *)
Theorem getAllDocuments_structure (data : Review.Draft) :
  exists general required consultation : list Review.Document,
    Review.getAllDocuments data = (general ++ required ++ consultation)%list
    /\ List.length general = List.length (array_or_empty (Review.uploadedFiles data))
    /\ List.length required = List.length (present_uploads data)
    /\ List.length consultation
       = List.length (array_or_empty (Review.public_consultation_proof data))
    /\ Forall (fun d => Review.source d = "General Uploads" /\ Review.name d <> "") general
    /\ Forall (fun d => Review.source d = "Required Documents"
                        /\ (Review.name d <> "" \/ Review.type d = Some "")) required
    /\ Forall (fun d => Review.source d = "Public Consultation"
                        /\ Review.type d = Some "Consultation Evidence"
                        /\ Review.name d <> "") consultation.
Proof.
  unfold Review.getAllDocuments, present_uploads.
  eexists. eexists. eexists. split; [reflexivity |].
  split; [| split; [| split; [| split; [| split]]]].
  - destruct (Review.uploadedFiles data); cbn; [apply length_map | reflexivity].
  - destruct (Review.document_uploads data) as [entries|]; cbn; [| reflexivity].
    apply required_documents_facts.
  - destruct (Review.public_consultation_proof data); cbn; [apply length_map | reflexivity].
  - destruct (Review.uploadedFiles data) as [files|]; [| constructor].
    apply Forall_map. apply Forall_forall. intros f _. cbn. split; [reflexivity |].
    intros H. apply display_name_empty in H. discriminate H.
  - destruct (Review.document_uploads data) as [entries|]; [| constructor].
    apply required_documents_facts.
  - destruct (Review.public_consultation_proof data) as [files|]; [| constructor].
    apply Forall_map. apply Forall_forall. intros f _. cbn.
    split; [reflexivity |]. split; [reflexivity |].
    intros H. apply display_name_empty in H. discriminate H.
Qed.

(** ** The review step: completeness *)

Lemma completed_le (fields : list Review.FieldCheck) :
  (Review.completedCount fields <= List.length fields)%nat
  /\ (Review.completedCount fields = List.length fields
      <-> Review.sectionComplete fields = true).
Proof.
  unfold Review.completedCount, Review.sectionComplete.
  induction fields as [|f fields [IHl IHe]]; cbn.
  - split; [lia | split; reflexivity].
  - destruct (Review.truthy (Review.value f)); cbn.
    + split; [lia |]. split; intros H.
      * apply IHe. lia.
      * apply IHe in H. lia.
    + split; [lia |]. split; intros H; [lia | discriminate].
Qed.

(** X9.  The badge of a section never counts more fields than the section
    has, and it shows all of them completed exactly when the section is
    ticked as complete; every section of the check has at least one field,
    and the check has five sections, or six when the activity level is
    [Level 2] or [Level 3]. *)
Theorem section_badge_agrees (data : Review.Draft) (entityInfo : option Review.EntityInfo) :
  Forall (fun section =>
            (Review.completedCount (snd section) <= List.length (snd section))%nat
            /\ (Review.completedCount (snd section) = List.length (snd section)
                <-> Review.sectionComplete (snd section) = true)
            /\ (0 < List.length (snd section))%nat)
         (Review.checkMandatoryFields data entityInfo)
  /\ List.length (Review.checkMandatoryFields data entityInfo)
     = (if Review.needs_consultation data then 6 else 5)%nat
  /\ (Review.needs_consultation data = true
      <-> Review.activity_level data = Some "Level 2"
          \/ Review.activity_level data = Some "Level 3").
Proof.
  split; [| split].
  - apply Forall_forall. intros section Hin.
    destruct (completed_le (snd section)) as [Hl He].
    split; [exact Hl |]. split; [exact He |].
    unfold Review.checkMandatoryFields in Hin.
    apply in_app_or in Hin. destruct Hin as [Hin | Hin].
    + cbn in Hin. repeat (destruct Hin as [Hin | Hin]; [subst section; cbn; lia |]).
      contradiction.
    + destruct (Review.needs_consultation data); cbn in Hin; [| contradiction].
      destruct Hin as [Hin | []]. subst section. cbn. lia.
  - unfold Review.checkMandatoryFields. rewrite length_app.
    destruct (Review.needs_consultation data); reflexivity.
  - unfold Review.needs_consultation.
    destruct (Review.activity_level data) as [l|].
    + rewrite orb_true_iff, !String.eqb_eq. split; intros [H | H];
        (left; congruence) || (right; congruence).
    + split; [discriminate | intros [H | H]; discriminate].
Qed.

Lemma truthy_of_field (v : option string) :
  Review.truthy (Review.of_field v) = JS.truthy_string v.
Proof. destruct v; reflexivity. Qed.

Lemma truthy_or_value (a b : Review.Value) :
  Review.truthy (Review.or_value a b) = Review.truthy a || Review.truthy b.
Proof. unfold Review.or_value. destruct (Review.truthy a) eqn:E; [exact E | reflexivity]. Qed.

Lemma number_to_string_nonempty (n : Z) : (Review.number_to_string n =? "") = false.
Proof.
  unfold Review.number_to_string. destruct (n <? 0)%Z; [reflexivity |].
  apply String.eqb_neq. apply decimal_of_Z_digits.
Qed.

Lemma documents_nonempty (data : Review.Draft) :
  (0 <? List.length (Review.getAllDocuments data))%nat = true
  <-> Review.getAllDocuments data <> [].
Proof.
  destruct (Review.getAllDocuments data); cbn; split; intros H;
    try discriminate; try reflexivity. contradiction.
Qed.

Lemma proof_counts_as_document (data : Review.Draft) :
  Review.proof_attached data = true -> Review.getAllDocuments data <> [].
Proof.
  unfold Review.proof_attached, Review.getAllDocuments.
  destruct (Review.public_consultation_proof data) as [[|f files]|]; try discriminate.
  intros _ H. apply app_eq_nil in H. destruct H as [_ H].
  apply app_eq_nil in H. destruct H as [_ H]. discriminate H.
Qed.

(** X10.  The step shows [Ready for Submission] exactly when the title, the
    entity (by name or organisation), an entity email and phone, the
    activity level, the permit type, the description, the start date and
    the location are filled in, at least one document is attached, both
    declarations are accepted and, for activity level [Level 2] or
    [Level 3], the consultation period and at least one consultation proof
    are given.  A consultation proof counts as an attached document, so for
    these levels the consultation requirement covers the document
    requirement.  The entity email may come from the entity or its contact
    person; the phone too, but a contact phone number of 0 counts as
    missing. *)
Theorem ready_for_submission :
  (forall (data : Review.Draft) (entityInfo : option Review.EntityInfo),
     Review.readyForSubmission data entityInfo = true <->
     JS.truthy_string (Review.applicationTitle data) = true
     /\ (JS.truthy_string (Review.entity_name data) = true
         \/ JS.truthy_string (Review.organizationName data) = true)
     /\ Review.truthy (Review.entityEmail entityInfo) = true
     /\ Review.truthy (Review.entityPhone entityInfo) = true
     /\ JS.truthy_string (Review.activity_level data) = true
     /\ JS.truthy_string (Review.permit_type data) = true
     /\ JS.truthy_string (Review.projectDescription data) = true
     /\ JS.truthy_string (Review.projectStartDate data) = true
     /\ JS.truthy_string (Review.projectLocation data) = true
     /\ Review.getAllDocuments data <> []
     /\ (Review.needs_consultation data = true ->
         JS.truthy_string (Review.consultation_period_start data) = true
         /\ JS.truthy_string (Review.consultation_period_end data) = true
         /\ Review.proof_attached data = true)
     /\ Review.legal_declaration_accepted data = Some true
     /\ Review.compliance_commitment data = Some true)
  /\ (forall data : Review.Draft,
        Review.proof_attached data = true -> Review.getAllDocuments data <> [])
  /\ (forall entityInfo : option Review.EntityInfo,
        Review.truthy (Review.entityEmail entityInfo) = true <->
        exists info, entityInfo = Some info
          /\ (JS.truthy_string (Review.email info) = true
              \/ JS.truthy_string (Review.contact_person_email info) = true))
  /\ (forall entityInfo : option Review.EntityInfo,
        Review.truthy (Review.entityPhone entityInfo) = true <->
        exists info, entityInfo = Some info
          /\ (JS.truthy_string (Review.phone info) = true
              \/ exists n, Review.contact_person_phone info = Some n /\ n <> 0%Z)).
Proof.
  split; [| split; [exact proof_counts_as_document | split]].
  - intros data entityInfo.
    unfold Review.readyForSubmission, Review.allSectionsComplete,
      Review.checkMandatoryFields.
    rewrite forallb_app. cbn [forallb snd Review.sectionComplete Review.value].
    rewrite !truthy_of_field, !truthy_or_value, !truthy_of_field.
    rewrite <- documents_nonempty.
    assert (Hflag : forall b, Review.truthy_flag b = true <-> b = Some true).
    { intros [[|]|]; cbn; split; intros H; congruence. }
    rewrite <- !Hflag.
    destruct (Review.needs_consultation data);
      cbn [forallb snd Review.sectionComplete Review.value Review.truthy];
      rewrite ?truthy_of_field, ?andb_true_r, !andb_true_iff, ?orb_true_iff;
      intuition congruence.
  - intros [info|]; cbn.
    + rewrite !truthy_or_value, !truthy_of_field. cbn. rewrite orb_false_r, orb_true_iff.
      split; [intros H; exists info; split; [reflexivity | exact H] |].
      intros [i [Hi H]]. injection Hi as <-. exact H.
    + split; [discriminate | intros [i [Hi _]]; discriminate Hi].
  - intros [info|]; cbn.
    + rewrite truthy_or_value, truthy_of_field, orb_true_iff.
      split.
      * intros [H | H]; exists info; (split; [reflexivity |]); [left; exact H |].
        right. destruct (Review.contact_person_phone info) as [n|]; [| discriminate H].
        exists n. split; [reflexivity |].
        destruct (Z.eqb_spec n 0); [discriminate H | assumption].
      * intros [i [Hi [H | [n [Hn Hz]]]]]; injection Hi as <-; [left; exact H |].
        right. rewrite Hn. apply Z.eqb_neq in Hz. rewrite Hz. cbn.
        rewrite number_to_string_nonempty. reflexivity.
    + split; [discriminate | intros [i [Hi _]]; discriminate Hi].
Qed.

(** ** The document picker: selection *)

Lemma selected_after_removal (doc : Picker.DocumentFile) (prev : list Picker.DocumentFile)
    (docId : string) :
  Picker.isSelected (filter (fun d => negb (Picker.id d =? Picker.id doc)) prev) docId
  = negb (docId =? Picker.id doc) && Picker.isSelected prev docId.
Proof.
  unfold Picker.isSelected.
  induction prev as [|d prev IH]; cbn.
  - rewrite andb_false_r. reflexivity.
  - destruct (String.eqb_spec (Picker.id d) (Picker.id doc)) as [E | E]; cbn.
    + rewrite IH. destruct (String.eqb_spec (Picker.id d) docId) as [E' | E']; cbn.
      * subst docId. rewrite E, String.eqb_refl. reflexivity.
      * reflexivity.
    + rewrite IH. destruct (String.eqb_spec (Picker.id d) docId) as [E' | E']; cbn.
      * subst docId. apply String.eqb_neq in E. rewrite E. reflexivity.
      * reflexivity.
Qed.

Lemma selected_after_append (doc : Picker.DocumentFile) (prev : list Picker.DocumentFile)
    (docId : string) :
  Picker.isSelected (prev ++ [doc]) docId
  = Picker.isSelected prev docId || (docId =? Picker.id doc).
Proof.
  unfold Picker.isSelected. rewrite existsb_app. cbn.
  rewrite orb_false_r, (String.eqb_sym (Picker.id doc) docId). reflexivity.
Qed.

Lemma removal_of_absent (doc : Picker.DocumentFile) (prev : list Picker.DocumentFile) :
  Picker.isSelected prev (Picker.id doc) = false ->
  filter (fun d => negb (Picker.id d =? Picker.id doc)) prev = prev.
Proof.
  unfold Picker.isSelected. induction prev as [|d prev IH]; cbn; intros H; [reflexivity |].
  apply orb_false_iff in H. destruct H as [Hd Hp]. rewrite Hd. cbn.
  rewrite (IH Hp). reflexivity.
Qed.

Lemma NoDup_ids_filter (f : Picker.DocumentFile -> bool) (l : list Picker.DocumentFile) :
  NoDup (map Picker.id l) -> NoDup (map Picker.id (filter f l)).
Proof.
  induction l as [|d l IH]; cbn; intros H; [constructor |].
  inversion H as [|x xs Hnotin Hnd]; subst.
  destruct (f d); cbn; [| exact (IH Hnd)].
  constructor; [| exact (IH Hnd)].
  intros Hin. apply Hnotin. apply in_map_iff in Hin. destruct Hin as [e [He Hin]].
  apply filter_In in Hin. apply in_map_iff. exists e. split; [exact He | apply Hin].
Qed.

Lemma selected_iff_in (l : list Picker.DocumentFile) (docId : string) :
  Picker.isSelected l docId = true <-> In docId (map Picker.id l).
Proof.
  unfold Picker.isSelected. rewrite existsb_exists, in_map_iff.
  split; intros [d [H1 H2]]; exists d.
  - apply String.eqb_eq in H2. split; assumption.
  - split; [exact H2 | apply String.eqb_eq; exact H1].
Qed.

(** X11.  In multi-select mode a click on a document flips whether it is
    selected and leaves every other document as it was; a selection without
    repeated identifiers stays so, and clicking twice on a document that
    was not selected gives the selection back.  In single-select mode the
    clicked document becomes the whole selection, so clicking it again
    never deselects it. *)
Theorem document_toggle (doc : Picker.DocumentFile) (prev : list Picker.DocumentFile) :
  (forall docId : string,
     Picker.isSelected (Picker.handleDocumentToggle true doc prev) docId
     = if docId =? Picker.id doc then negb (Picker.isSelected prev docId)
       else Picker.isSelected prev docId)
  /\ (NoDup (map Picker.id prev) ->
      NoDup (map Picker.id (Picker.handleDocumentToggle true doc prev)))
  /\ (Picker.isSelected prev (Picker.id doc) = false ->
      Picker.handleDocumentToggle true doc (Picker.handleDocumentToggle true doc prev) = prev)
  /\ Picker.handleDocumentToggle false doc prev = [doc]
  /\ Picker.isSelected
       (Picker.handleDocumentToggle false doc (Picker.handleDocumentToggle false doc prev))
       (Picker.id doc) = true.
Proof.
  split; [| split; [| split; [| split]]].
  - intros docId. unfold Picker.handleDocumentToggle.
    fold (Picker.isSelected prev (Picker.id doc)).
    destruct (Picker.isSelected prev (Picker.id doc)) eqn:E.
    + rewrite selected_after_removal.
      destruct (String.eqb_spec docId (Picker.id doc)) as [-> | _]; cbn.
      * rewrite E. reflexivity.
      * reflexivity.
    + rewrite selected_after_append.
      destruct (String.eqb_spec docId (Picker.id doc)) as [-> | _]; cbn.
      * rewrite E. reflexivity.
      * apply orb_false_r.
  - intros Hnd. unfold Picker.handleDocumentToggle.
    fold (Picker.isSelected prev (Picker.id doc)).
    destruct (Picker.isSelected prev (Picker.id doc)) eqn:E.
    + apply NoDup_ids_filter. exact Hnd.
    + rewrite map_app. cbn. apply NoDup_app; [exact Hnd | repeat constructor; intros [] |].
      intros a Ha [Hd | []]. subst a.
      apply selected_iff_in in Ha. rewrite E in Ha. discriminate Ha.
  - intros E. unfold Picker.handleDocumentToggle at 2.
    fold (Picker.isSelected prev (Picker.id doc)). rewrite E.
    unfold Picker.handleDocumentToggle.
    fold (Picker.isSelected (prev ++ [doc]) (Picker.id doc)).
    rewrite selected_after_append, String.eqb_refl, orb_true_r.
    rewrite filter_app. cbn. rewrite String.eqb_refl. cbn.
    rewrite app_nil_r. apply removal_of_absent. exact E.
  - reflexivity.
  - cbn. rewrite String.eqb_refl. reflexivity.
Qed.

Lemma document_toggle_witness :
  NoDup (map Picker.id
           (Picker.handleDocumentToggle true
              (Picker.mkDocumentFile "d2" "b.pdf" "u/b.pdf" 10 None "2025-01-02" None)
              [Picker.mkDocumentFile "d1" "a.pdf" "u/a.pdf" 20 None "2025-01-01" None]))
  /\ Picker.handleDocumentToggle true
       (Picker.mkDocumentFile "d2" "b.pdf" "u/b.pdf" 10 None "2025-01-02" None)
       (Picker.handleDocumentToggle true
          (Picker.mkDocumentFile "d2" "b.pdf" "u/b.pdf" 10 None "2025-01-02" None)
          [Picker.mkDocumentFile "d1" "a.pdf" "u/a.pdf" 20 None "2025-01-01" None])
     = [Picker.mkDocumentFile "d1" "a.pdf" "u/a.pdf" 20 None "2025-01-01" None].
Proof.
  pose proof (document_toggle
                (Picker.mkDocumentFile "d2" "b.pdf" "u/b.pdf" 10 None "2025-01-02" None)
                [Picker.mkDocumentFile "d1" "a.pdf" "u/a.pdf" 20 None "2025-01-01" None])
    as [_ [H2 [H3 _]]].
  split.
  - apply H2. repeat constructor. intros [].
  - apply H3. reflexivity.
Defined.

(** ** The document picker: filtering and counts *)

Lemma includes_empty (haystack : string) : Picker.includes haystack "" = true.
Proof. destruct haystack; reflexivity. Qed.

Lemma matches_default (casing : Picker.Casing) (c : string) (doc : Picker.DocumentFile) :
  Picker.matches casing c "" [] doc
  = (c =? "all") || JS.strict_equals (Picker.document_type doc) c.
Proof.
  unfold Picker.matches, Picker.matchesType. cbn.
  rewrite (Picker.toLowerCase_empty casing), includes_empty, !andb_true_r. reflexivity.
Qed.

Lemma filter_all (A : Type) (f : A -> bool) (l : list A) :
  (forall x, f x = true) -> filter f l = l.
Proof.
  intros H. induction l as [|x l IH]; cbn; [reflexivity |]. rewrite H, IH. reflexivity.
Qed.

Lemma filter_length_le (A : Type) (f g : A -> bool) (l : list A) :
  (forall x, f x = true -> g x = true) ->
  (List.length (filter f l) <= List.length (filter g l))%nat.
Proof.
  intros H. induction l as [|x l IH]; cbn; [lia |].
  destruct (f x) eqn:E.
  - rewrite (H x E). cbn. lia.
  - destruct (g x); cbn; lia.
Qed.

(** X12.  With category [all], an empty search and no accepted types the
    picker lists every document.  The count shown beside a category is the
    number of documents the picker lists for that category when the search
    box is empty and no accepted types are given; with a query or with
    accepted types the list can only be shorter than the count, which
    takes neither into account.  Two queries with the same lower-case form
    give the same list, and choosing a category, typing a query or
    restricting the types only ever removes documents from the list.  For
    the sample documents the count beside [notices] is 1 while the list for
    the accepted type [.png] is empty. *)
Theorem picker_filter_and_counts
    (casing : Picker.Casing) (documents : list Picker.DocumentFile) :
  Picker.filteredDocuments casing documents "all" "" [] = documents
  /\ (forall c : string,
        In c (map fst Picker.categories) ->
        Picker.count_of (Picker.categoryCounts documents) c
        = Some (List.length (Picker.filteredDocuments casing documents c "" [])))
  /\ (forall (c q : string) (types : list string),
        In c (map fst Picker.categories) ->
        exists n : nat,
          Picker.count_of (Picker.categoryCounts documents) c = Some n
          /\ (List.length (Picker.filteredDocuments casing documents c q types) <= n)%nat)
  /\ (forall (c q q' : string) (types : list string),
        Picker.toLowerCase casing q = Picker.toLowerCase casing q' ->
        Picker.filteredDocuments casing documents c q types
        = Picker.filteredDocuments casing documents c q' types)
  /\ (forall (c q : string) (types : list string) (doc : Picker.DocumentFile),
        In doc (Picker.filteredDocuments casing documents c q types) ->
        In doc documents
        /\ In doc (Picker.filteredDocuments casing documents "all" q types)
        /\ In doc (Picker.filteredDocuments casing documents c "" types)
        /\ In doc (Picker.filteredDocuments casing documents c q []))
  /\ (Picker.count_of (Picker.categoryCounts sample_documents) "notices" = Some 1%nat
      /\ Picker.filteredDocuments casing sample_documents "notices" "" [".png"] = []).
Proof.
  assert (Hcount : forall c : string,
            In c (map fst Picker.categories) ->
            Picker.count_of (Picker.categoryCounts documents) c
            = Some (List.length (Picker.filteredDocuments casing documents c "" []))).
  { intros c Hc.
    assert (Hf : Picker.filteredDocuments casing documents c "" []
                 = filter (fun doc => (c =? "all")
                                      || JS.strict_equals (Picker.document_type doc) c)
                          documents).
    { unfold Picker.filteredDocuments. apply filter_ext. intros doc.
      apply matches_default. }
    rewrite Hf. cbn in Hc.
    repeat (destruct Hc as [<- | Hc]; [cbn; try reflexivity |]); try contradiction.
    rewrite (filter_all _ (fun _ => true)) by reflexivity. reflexivity. }
  split; [| split; [exact Hcount | split; [| split; [| split]]]].
  - unfold Picker.filteredDocuments. apply filter_all. intros doc.
    rewrite matches_default. reflexivity.
  - intros c q types Hc. eexists. split; [apply (Hcount c Hc) |].
    unfold Picker.filteredDocuments. apply filter_length_le. intros doc Hm.
    rewrite matches_default. unfold Picker.matches in Hm. cbv zeta in Hm.
    apply andb_true_iff in Hm. destruct Hm as [Hm _].
    apply andb_true_iff in Hm. destruct Hm as [Hm _]. exact Hm.
  - intros c q q' types Hq. unfold Picker.filteredDocuments, Picker.matches.
    rewrite Hq. reflexivity.
  - intros c q types doc Hin. unfold Picker.filteredDocuments in *.
    apply filter_In in Hin. destruct Hin as [Hin Hm].
    unfold Picker.matches in Hm. cbv zeta in Hm.
    apply andb_true_iff in Hm. destruct Hm as [Hm Ht].
    apply andb_true_iff in Hm. destruct Hm as [Hc Hs].
    split; [exact Hin |].
    split; [| split]; apply filter_In; (split; [exact Hin |]);
      unfold Picker.matches; cbv zeta.
    + rewrite Hs, Ht. reflexivity.
    + rewrite Hc, Ht. cbn.
      rewrite (Picker.toLowerCase_empty casing), includes_empty. reflexivity.
    + rewrite Hc, Hs. reflexivity.
  - split; [reflexivity |].
    unfold Picker.filteredDocuments, Picker.matches. cbn.
    rewrite !andb_false_r. reflexivity.
Qed.

(** ** The map of outstanding fees *)

Lemma permit_of_invoice_facts
    (parseDate : string -> option Z)
    (fetchIntent : string -> option Revenue.IntentRegistration)
    (now thirty : Z) (invoice : Revenue.Invoice) (p : Revenue.PermitWithFee) :
  Revenue.permit_of_invoice parseDate fetchIntent now thirty invoice = Some p ->
  ~ Revenue.latitude p == 0
  /\ ~ Revenue.longitude p == 0
  /\ Revenue.is_overdue p = negb (Revenue.is_due_soon p)
  /\ Revenue.payment_status p <> "paid"
  /\ (exists due : Z,
        parseDate (Revenue.due_date p) = Some due
        /\ (due <= thirty \/ due < now)%Z
        /\ (Revenue.is_overdue p = true <-> (due < now)%Z))
  /\ Revenue.invoice_id p = Revenue.invoice_row_id invoice
  /\ Revenue.amount p = Revenue.invoice_amount invoice.
Proof.
  unfold Revenue.permit_of_invoice. cbv zeta.
  destruct (Revenue.locate fetchIntent invoice) as [[lat1 lng1] t].
  destruct lat1 as [la|]; [| discriminate].
  destruct lng1 as [lo|]; [| discriminate].
  destruct (Qeq_bool la 0) eqn:Ela; [discriminate |].
  destruct (Qeq_bool lo 0) eqn:Elo; [discriminate |].
  cbn [negb andb].
  destruct (parseDate (Revenue.invoice_due_date invoice)) as [due|] eqn:Ed;
    cbn [Revenue.date_lt Revenue.date_ge Revenue.date_le andb orb]; [| discriminate].
  destruct (String.eqb_spec (Revenue.invoice_payment_status invoice) "paid") as [Hp | Hp];
    cbn [negb]; [rewrite !andb_false_r; discriminate |].
  rewrite !andb_true_r.
  destruct (Z.ltb_spec due now) as [Hlt | Hge].
  - cbn [orb]. intros H. injection H as <-. cbn.
    replace (now <=? due)%Z with false by (symmetry; apply Z.leb_gt; lia).
    split; [apply Qeq_bool_neq; exact Ela |].
    split; [apply Qeq_bool_neq; exact Elo |].
    split; [reflexivity |]. split; [exact Hp |].
    split; [| split; reflexivity].
    exists due. split; [exact Ed |]. split; [right; exact Hlt |].
    split; intros _; [exact Hlt | reflexivity].
  - replace (now <=? due)%Z with true by (symmetry; apply Z.leb_le; lia).
    cbn [orb andb].
    destruct (Z.leb_spec due thirty) as [Hle | Hgt]; [| discriminate].
    intros H. injection H as <-. cbn.
    split; [apply Qeq_bool_neq; exact Ela |].
    split; [apply Qeq_bool_neq; exact Elo |].
    split; [reflexivity |]. split; [exact Hp |].
    split; [| split; reflexivity].
    exists due. split; [exact Ed |]. split; [left; exact Hle |].
    split; intros H; [discriminate H | lia].
Qed.

Lemma flag_counts (permits : list Revenue.PermitWithFee) :
  Forall (fun p => Revenue.is_overdue p = negb (Revenue.is_due_soon p)) permits ->
  (Revenue.overdueCount permits + Revenue.dueSoonCount permits = List.length permits)%nat
  /\ Revenue.filteredPermits true true permits = permits
  /\ Revenue.filteredPermits false false permits = []
  /\ Revenue.filteredPermits true false permits = filter Revenue.is_overdue permits
  /\ Revenue.filteredPermits false true permits = filter Revenue.is_due_soon permits.
Proof.
  unfold Revenue.overdueCount, Revenue.dueSoonCount, Revenue.filteredPermits.
  induction permits as [|p permits IH]; intros H.
  - repeat split; reflexivity.
  - inversion H as [|x xs Hp Hrest]; subst.
    destruct (IH Hrest) as [H1 [H2 [H3 [H4 H5]]]].
    cbn [filter]. rewrite H2, H3, H4, H5, Hp.
    destruct (Revenue.is_due_soon p); cbn; repeat split; try reflexivity.
    + rewrite Nat.add_succ_r, H1. reflexivity.
    + rewrite H1. reflexivity.
Qed.

Lemma sample_locations_nonzero :
  Forall (fun loc => ~ Revenue.sample_lat loc == 0 /\ ~ Revenue.sample_lng loc == 0)
         Revenue.sampleLocations.
Proof.
  assert (H : forallb (fun loc => negb (Qeq_bool (Revenue.sample_lat loc) 0)
                                  && negb (Qeq_bool (Revenue.sample_lng loc) 0))
                      Revenue.sampleLocations = true)
    by (vm_compute; reflexivity).
  rewrite forallb_forall in H. apply Forall_forall. intros loc Hin.
  specialize (H loc Hin). apply andb_true_iff in H. destruct H as [H1 H2].
  apply negb_true_iff in H1, H2.
  split; apply Qeq_bool_neq; assumption.
Qed.

(** The demonstration data: five permits at sites away from latitude and
    longitude 0, none of them paid, each flagged either overdue or due
    soon. *)
Lemma sample_permits_facts (demo : Revenue.Demo) :
  Forall (fun p =>
            ~ Revenue.latitude p == 0
            /\ ~ Revenue.longitude p == 0
            /\ Revenue.is_overdue p = negb (Revenue.is_due_soon p)
            /\ Revenue.payment_status p <> "paid")
         (Revenue.samplePermits demo)
  /\ map Revenue.id (Revenue.samplePermits demo)
     = ["sample-0"; "sample-1"; "sample-2"; "sample-3"; "sample-4"]
  /\ map Revenue.is_overdue (Revenue.samplePermits demo) = [true; true; false; false; true].
Proof.
  split; [| split; reflexivity].
  unfold Revenue.samplePermits. apply Forall_forall. intros p Hin.
  apply in_map_iff in Hin. destruct Hin as [[index loc] [<- Hin]].
  apply in_combine_r in Hin.
  pose proof sample_locations_nonzero as Hz. rewrite Forall_forall in Hz.
  destruct (Hz loc Hin) as [Hlat Hlng].
  cbn [fst snd Revenue.samplePermit Revenue.latitude Revenue.longitude Revenue.is_overdue
       Revenue.is_due_soon Revenue.payment_status].
  split; [exact Hlat |]. split; [exact Hlng |].
  split; [destruct (Revenue.sample_overdue loc); reflexivity |].
  destruct (Revenue.sample_overdue loc); discriminate.
Qed.

(** X13.  What the map of outstanding fees is given.  Every permit the loop
    collects comes from an unpaid invoice with a valid due date that is
    overdue or due within the thirty days, and there are at most as many
    as invoices.  When the loop collects at least one permit these are the
    permits of the map; when it collects none, the map is given the five
    demonstration permits instead, three of them flagged overdue, so it is
    never given an empty list.  In both cases every permit lies at a
    latitude and a longitude different from 0, is not paid and is flagged
    either overdue or due soon, never both: the two badges add up to the
    number of permits, both switches on show every permit, both off show
    none, and one switch alone shows the permits of its badge. *)
Theorem fee_map_permits
    (demo : Revenue.Demo)
    (parseDate : string -> option Z)
    (fetchIntent : string -> option Revenue.IntentRegistration)
    (now thirty : Z) (invoices : option (list Revenue.Invoice)) :
  let collected := Revenue.invoicePermits parseDate fetchIntent now thirty invoices in
  let permits :=
    Revenue.permitsWithLocation demo parseDate fetchIntent now thirty invoices in
  Forall (fun p =>
            ~ Revenue.latitude p == 0
            /\ ~ Revenue.longitude p == 0
            /\ Revenue.is_overdue p = negb (Revenue.is_due_soon p)
            /\ Revenue.payment_status p <> "paid"
            /\ exists due : Z,
                 parseDate (Revenue.due_date p) = Some due
                 /\ (due <= thirty \/ due < now)%Z
                 /\ (Revenue.is_overdue p = true <-> (due < now)%Z))
         collected
  /\ (List.length collected <= List.length (array_or_empty invoices))%nat
  /\ (collected <> [] -> permits = collected)
  /\ (collected = [] ->
      permits = Revenue.samplePermits demo
      /\ List.length permits = 5%nat
      /\ Revenue.overdueCount permits = 3%nat
      /\ Revenue.dueSoonCount permits = 2%nat)
  /\ permits <> []
  /\ Forall (fun p =>
               ~ Revenue.latitude p == 0
               /\ ~ Revenue.longitude p == 0
               /\ Revenue.is_overdue p = negb (Revenue.is_due_soon p)
               /\ Revenue.payment_status p <> "paid")
            permits
  /\ (Revenue.overdueCount permits + Revenue.dueSoonCount permits = List.length permits)%nat
  /\ Revenue.filteredPermits true true permits = permits
  /\ Revenue.filteredPermits false false permits = []
  /\ List.length (Revenue.filteredPermits true false permits) = Revenue.overdueCount permits
  /\ List.length (Revenue.filteredPermits false true permits) = Revenue.dueSoonCount permits.
Proof.
  intros collected permits.
  assert (Hall : Forall (fun p =>
            ~ Revenue.latitude p == 0
            /\ ~ Revenue.longitude p == 0
            /\ Revenue.is_overdue p = negb (Revenue.is_due_soon p)
            /\ Revenue.payment_status p <> "paid"
            /\ exists due : Z,
                 parseDate (Revenue.due_date p) = Some due
                 /\ (due <= thirty \/ due < now)%Z
                 /\ (Revenue.is_overdue p = true <-> (due < now)%Z)) collected).
  { subst collected. unfold Revenue.invoicePermits.
    apply Forall_forall. intros p Hin. apply in_flat_map in Hin.
    destruct Hin as [invoice [_ Hin]].
    destruct (Revenue.permit_of_invoice parseDate fetchIntent now thirty invoice)
      as [q|] eqn:E; [| contradiction].
    destruct Hin as [<- | []].
    destruct (permit_of_invoice_facts _ _ _ _ _ _ E) as [H1 [H2 [H3 [H4 [H5 _]]]]].
    repeat split; assumption. }
  assert (Hlen : (List.length collected <= List.length (array_or_empty invoices))%nat).
  { clear Hall. subst collected permits. unfold Revenue.invoicePermits.
    induction (array_or_empty invoices) as [|i rest IH]; cbn; [lia |].
    rewrite length_app.
    destruct (Revenue.permit_of_invoice parseDate fetchIntent now thirty i); cbn; lia. }
  destruct (sample_permits_facts demo) as [Sfacts [Sids Sflags]].
  assert (Hsome : collected <> [] -> permits = collected).
  { intros Hne. subst permits. unfold Revenue.permitsWithLocation. cbv zeta.
    fold collected. destruct collected; [contradiction | reflexivity]. }
  assert (Hnone : collected = [] -> permits = Revenue.samplePermits demo).
  { intros He. subst permits. unfold Revenue.permitsWithLocation. cbv zeta.
    fold collected. rewrite He. reflexivity. }
  assert (Slen : List.length (Revenue.samplePermits demo) = 5%nat).
  { rewrite <- (length_map Revenue.id), Sids. reflexivity. }
  assert (Sover : Revenue.overdueCount (Revenue.samplePermits demo) = 3%nat
                  /\ Revenue.dueSoonCount (Revenue.samplePermits demo) = 2%nat).
  { split; reflexivity. }
  assert (Hfacts : Forall (fun p =>
               ~ Revenue.latitude p == 0
               /\ ~ Revenue.longitude p == 0
               /\ Revenue.is_overdue p = negb (Revenue.is_due_soon p)
               /\ Revenue.payment_status p <> "paid") permits).
  { destruct collected as [|c rest] eqn:Ec.
    - rewrite (Hnone eq_refl). exact Sfacts.
    - rewrite Hsome by discriminate.
      eapply Forall_impl; [| exact Hall]. intros p [H1 [H2 [H3 [H4 _]]]].
      repeat split; assumption. }
  assert (Hne : permits <> []).
  { destruct collected as [|c rest] eqn:Ec.
    - rewrite (Hnone eq_refl). intros H.
      apply (f_equal (@List.length _)) in H. rewrite Slen in H. discriminate H.
    - rewrite Hsome by discriminate. discriminate. }
  assert (Hflags : Forall (fun p => Revenue.is_overdue p = negb (Revenue.is_due_soon p))
                          permits).
  { eapply Forall_impl; [| exact Hfacts]. intros p H. apply H. }
  destruct (flag_counts permits Hflags) as [H1 [H2 [H3 [H4 H5]]]].
  split; [exact Hall |]. split; [exact Hlen |]. split; [exact Hsome |].
  split.
  { intros He. rewrite (Hnone He).
    split; [reflexivity |]. split; [exact Slen |]. exact Sover. }
  split; [exact Hne |]. split; [exact Hfacts |]. split; [exact H1 |].
  split; [exact H2 |]. split; [exact H3 |].
  split; [rewrite H4 | rewrite H5]; reflexivity.
Qed.

(** With one located, overdue invoice the map shows its permit; with no
    invoices at all it shows the demonstration permits. *)
Lemma fee_map_permits_witness :
  Revenue.permitsWithLocation sample_demo sample_parseDate (fun _ => None) 100 130
    (Some [sample_invoice])
  = Revenue.invoicePermits sample_parseDate (fun _ => None) 100 130 (Some [sample_invoice])
  /\ Revenue.permitsWithLocation sample_demo sample_parseDate (fun _ => None) 100 130 None
     = Revenue.samplePermits sample_demo.
Proof.
  pose proof (fee_map_permits sample_demo sample_parseDate (fun _ => None) 100 130
                (Some [sample_invoice])) as H1.
  pose proof (fee_map_permits sample_demo sample_parseDate (fun _ => None) 100 130 None)
    as H2.
  cbv zeta in H1, H2.
  destruct H1 as [_ [_ [H1 _]]]. destruct H2 as [_ [_ [_ [H2 _]]]].
  split.
  - apply H1. discriminate.
  - apply (proj1 (H2 eq_refl)).
Defined.

Lemma ready_for_submission_witness :
  Review.readyForSubmission sample_review_draft (Some sample_entity) = true
  /\ Review.getAllDocuments sample_review_draft <> []
  /\ Review.truthy (Review.entityPhone (Some (Review.mkEntity None None None (Some 0%Z))))
     = false.
Proof.
  destruct ready_for_submission as [H1 [H2 [_ H4]]].
  split; [| split].
  - apply (H1 sample_review_draft (Some sample_entity)).
    repeat split; try reflexivity; try (left; reflexivity); discriminate.
  - apply (H2 sample_review_draft). reflexivity.
  - destruct (Review.truthy
                (Review.entityPhone (Some (Review.mkEntity None None None (Some 0%Z)))))
      eqn:E; [| reflexivity].
    apply (H4 (Some (Review.mkEntity None None None (Some 0%Z)))) in E.
    destruct E as [info [Hi [Hp | [n [Hn Hz]]]]]; injection Hi as <-;
      [discriminate Hp | injection Hn as <-; contradiction].
Defined.

Lemma picker_filter_and_counts_witness :
  Picker.count_of (Picker.categoryCounts sample_documents) "notices"
  = Some (List.length (Picker.filteredDocuments ascii_casing sample_documents "notices" "" []))
  /\ Picker.filteredDocuments ascii_casing sample_documents "all" "SITE" []
     = Picker.filteredDocuments ascii_casing sample_documents "all" "site" []
  /\ In (Picker.mkDocumentFile "d1" "Site-Plan.PDF" "u/site-plan.pdf" 2048
          (Some "application/pdf") "2025-01-01" (Some "project_details"))
        (Picker.filteredDocuments ascii_casing sample_documents "all" "SITE"
           ["application/pdf"]).
Proof.
  destruct (picker_filter_and_counts ascii_casing sample_documents)
    as [_ [H2 [_ [H4 [H5 _]]]]].
  split; [| split].
  - apply (H2 "notices"). do 6 right. left. reflexivity.
  - apply (H4 "all" "SITE" "site" []). reflexivity.
  - assert (Hin : In (Picker.mkDocumentFile "d1" "Site-Plan.PDF" "u/site-plan.pdf" 2048
                        (Some "application/pdf") "2025-01-01" (Some "project_details"))
                     (Picker.filteredDocuments ascii_casing sample_documents
                        "project_details" "SITE" ["application/pdf"])).
    { vm_compute. left. reflexivity. }
    exact (proj1 (proj2 (H5 "project_details" "SITE" ["application/pdf"] _ Hin))).
Defined.

(** ** What the request carries *)

(** X14.  The request handed to the validator and to the lookup carries the
    activity level in both [permitType] and [activityLevel]; the permit type
    of the draft never reaches the hook.  Two drafts that agree on activity
    level, category, sub-category and prescribed activity start the same
    lookups and set the same error lists, whatever their permit types, and
    after a successful lookup their breakdowns differ at most in the
    composite fee and the total. *)
Theorem request_ignores_permit_type :
  (forall data : FormData.t,
     permitType (build_params data) = activityLevel (build_params data))
  /\ (forall (hook : FeeCalculationHook) (d1 d2 : FormData.t) (w : World),
        FormData.activity_level d1 = FormData.activity_level d2 ->
        FormData.activity_category d1 = FormData.activity_category d2 ->
        FormData.activity_subcategory d1 = FormData.activity_subcategory d2 ->
        FormData.prescribed_activity_id d1 = FormData.prescribed_activity_id d2 ->
        let w1 := exec (handleCalculateFees hook d1) w in
        let w2 := exec (handleCalculateFees hook d2) w in
        build_params d1 = build_params d2
        /\ lookups w1 = lookups w2
        /\ validationErrors (ui w1) = validationErrors (ui w2)
        /\ calculationError (ui w1) = calculationError (ui w2)
        /\ hasCalculatedOnce (ui w1) = hasCalculatedOnce (ui w2)
        /\ (forall b1 b2 : FeeResult,
              calculatedFees (ui w1) = Some b1 ->
              calculatedFees (ui w2) = Some b2 ->
              administrationFee b1 = administrationFee b2
              /\ technicalFee b1 = technicalFee b2
              /\ processingDays b1 = processingDays b2
              /\ administrationForm b1 = administrationForm b2
              /\ technicalForm b1 = technicalForm b2
              /\ source b1 = source b2)).
Proof.
  split; [reflexivity |].
  intros hook d1 d2 w Hl Hc Hs Hp w1 w2. subst w1 w2.
  assert (Hb : build_params d1 = build_params d2).
  { unfold build_params. rewrite Hl, Hc, Hs, Hp. reflexivity. }
  split; [exact Hb |].
  handler_cases. rewrite Hb.
  destruct (isValid (validateParameters hook (build_params d2))); cbn [negb].
  - destruct (calculateFeesWithSupabase hook (build_params d2)) as [[fees|]|e]; cbn.
    + do 4 (split; [reflexivity |]). intros b1 b2 H1 H2.
      injection H1 as <-. injection H2 as <-. repeat split.
    + do 4 (split; [reflexivity |]). intros b1 b2 H1 H2.
      rewrite H1 in H2. injection H2 as <-. repeat split.
    + do 4 (split; [reflexivity |]). intros b1 b2 H1 H2.
      rewrite H1 in H2. injection H2 as <-. repeat split.
  - cbn. do 4 (split; [reflexivity |]). intros b1 b2 H1 H2.
    rewrite H1 in H2. injection H2 as <-. repeat split.
Qed.

Lemma request_ignores_permit_type_witness :
  build_params sample_draft = build_params environmental_draft
  /\ lookups (exec (handleCalculateFees sample_hook sample_draft) (mount sample_draft))
     = lookups (exec (handleCalculateFees sample_hook environmental_draft)
                     (mount sample_draft)).
Proof.
  pose proof (proj2 request_ignores_permit_type sample_hook sample_draft
                environmental_draft (mount sample_draft) eq_refl eq_refl eq_refl eq_refl)
    as H.
  cbv zeta in H. destruct H as [Hb [Hl _]]. split; [exact Hb | exact Hl].
Defined.

(** ** Accepted types with a wildcard *)

Lemma prefix_occurs (needle haystack : string) (c : ascii) :
  String.prefix needle haystack = true -> occurs c needle = true -> occurs c haystack = true.
Proof.
  revert haystack. induction needle as [|a needle IH]; intros haystack Hp Ho.
  - discriminate Ho.
  - destruct haystack as [|b haystack]; [discriminate Hp |].
    cbn in Hp. destruct (ascii_dec a b) as [-> | _]; [| discriminate Hp].
    cbn in Ho |- *. apply orb_true_iff in Ho. apply orb_true_iff.
    destruct Ho as [Ho | Ho]; [left; exact Ho | right; exact (IH _ Hp Ho)].
Qed.

Lemma includes_occurs (haystack needle : string) (c : ascii) :
  Picker.includes haystack needle = true -> occurs c needle = true ->
  occurs c haystack = true.
Proof.
  induction haystack as [|b haystack IH]; intros Hi Ho.
  - cbn in Hi. rewrite orb_false_r in Hi.
    destruct needle; [discriminate Ho | discriminate Hi].
  - cbn [Picker.includes] in Hi. apply orb_true_iff in Hi. destruct Hi as [Hi | Hi].
    + exact (prefix_occurs _ _ _ Hi Ho).
    + cbn. rewrite (IH Hi Ho). apply orb_true_r.
Qed.

(** X15.  An accepted type that contains a star, such as [image/*], never
    matches a document through its MIME type unless the MIME type itself
    contains a star: such a document passes the type filter only if its
    file name ends with the pattern without its first star, or through
    another accepted type.  With [image/*] as the only accepted type, a
    [photo.png] of MIME type [image/png] is filtered out. *)
Theorem wildcard_types_match_by_name_only :
  (forall (doc : Picker.DocumentFile) (type : string),
     occurs "*" type = true ->
     (forall m, Picker.mime_type doc = Some m -> occurs "*" m = false) ->
     Picker.matchesType [type] doc
     = Picker.endsWith (Picker.filename doc) (Picker.remove_first_star type))
  /\ (forall casing : Picker.Casing,
        Picker.filteredDocuments casing
          [Picker.mkDocumentFile "d3" "photo.png" "u/photo.png" 4096
             (Some "image/png") "2025-01-03" None]
          "all" "" ["image/*"] = [])
  /\ (forall casing : Picker.Casing,
        Picker.filteredDocuments casing
          [Picker.mkDocumentFile "d3" "photo.png" "u/photo.png" 4096
             (Some "image/png") "2025-01-03" None]
          "all" "" ["image/png"; ".pdf"]
        = [Picker.mkDocumentFile "d3" "photo.png" "u/photo.png" 4096
             (Some "image/png") "2025-01-03" None]).
Proof.
  split; [| split; intros casing; unfold Picker.filteredDocuments, Picker.matches; cbn;
            rewrite (Picker.toLowerCase_empty casing), includes_empty; reflexivity].
  intros doc type Hstar Hm. unfold Picker.matchesType. cbn.
  rewrite orb_false_r.
  destruct (Picker.mime_type doc) as [m|] eqn:E; [| reflexivity].
  destruct (Picker.includes m type) eqn:Ei; [| reflexivity].
  pose proof (includes_occurs m type "*" Ei Hstar) as Ho.
  rewrite (Hm m eq_refl) in Ho. discriminate Ho.
Qed.

Lemma wildcard_types_match_by_name_only_witness :
  Picker.matchesType ["image/*"]
    (Picker.mkDocumentFile "d3" "photo.png" "u/photo.png" 4096
       (Some "image/png") "2025-01-03" None)
  = Picker.endsWith "photo.png" "image/".
Proof.
  apply (proj1 wildcard_types_match_by_name_only
           (Picker.mkDocumentFile "d3" "photo.png" "u/photo.png" 4096
              (Some "image/png") "2025-01-03" None) "image/*").
  - reflexivity.
  - intros m H. injection H as <-. reflexivity.
Defined.

(** ** Rounding to binary64 keeps the order *)

Lemma pow2_pos (k : Z) : 0 < F64.pow2 k.
Proof. apply Qpower_0_lt. reflexivity. Qed.

Lemma pow2_plus (a b : Z) : F64.pow2 (a + b) == F64.pow2 a * F64.pow2 b.
Proof. apply Qpower_plus. discriminate. Qed.

Lemma pow2_le (a b : Z) : (a <= b)%Z -> F64.pow2 a <= F64.pow2 b.
Proof. intros H. apply Qpower_le_compat_l; [exact H | discriminate]. Qed.

Lemma pow2_lt_inv (a b : Z) : F64.pow2 a < F64.pow2 b -> (a < b)%Z.
Proof. intros H. apply (Qpower_lt_compat_l_inv 2); [exact H | reflexivity]. Qed.

Lemma pow2_inject (k : Z) : (0 <= k)%Z -> F64.pow2 k == inject_Z (2 ^ k).
Proof. intros H. unfold F64.pow2. rewrite Zpower_Qpower by exact H. reflexivity. Qed.

Lemma pow2_minus (a b : Z) : F64.pow2 (a - b) == F64.pow2 a / F64.pow2 b.
Proof.
  pose proof (pow2_plus (a - b) b) as H. replace (a - b + b)%Z with a in H by lia.
  pose proof (pow2_pos b). rewrite H. field. lra.
Qed.

Lemma binade_spec (x : Q) :
  0 < x -> F64.pow2 (F64.binade x) <= x /\ x < F64.pow2 (F64.binade x + 1).
Proof.
  intros Hx. destruct x as [n d]. unfold F64.binade. cbn [Qnum Qden].
  assert (Hn : (0 < n)%Z) by (unfold Qlt in Hx; cbn in Hx; lia).
  pose proof (Z.log2_spec n Hn) as [Hn1 Hn2].
  pose proof (Z.log2_spec (Z.pos d) (Pos2Z.is_pos d)) as [Hd1 Hd2].
  pose proof (Z.log2_nonneg n) as Ha. pose proof (Z.log2_nonneg (Z.pos d)) as Hb.
  set (a := Z.log2 n) in *. set (b := Z.log2 (Z.pos d)) in *.
  assert (Ex : n # d == inject_Z n / inject_Z (Z.pos d)) by apply Qmake_Qdiv.
  assert (Dpos : 0 < inject_Z (Z.pos d)) by (unfold Qlt; cbn; lia).
  assert (Ln : F64.pow2 a <= inject_Z n).
  { rewrite pow2_inject by exact Ha. rewrite <- Zle_Qle. exact Hn1. }
  assert (Un : inject_Z n < F64.pow2 (a + 1)).
  { rewrite pow2_inject by lia. rewrite <- Zlt_Qlt. replace (a + 1)%Z with (Z.succ a) by lia. exact Hn2. }
  assert (Ld : F64.pow2 b <= inject_Z (Z.pos d)).
  { rewrite pow2_inject by exact Hb. rewrite <- Zle_Qle. exact Hd1. }
  assert (Ud : inject_Z (Z.pos d) < F64.pow2 (b + 1)).
  { rewrite pow2_inject by lia. rewrite <- Zlt_Qlt. replace (b + 1)%Z with (Z.succ b) by lia. exact Hd2. }
  pose proof (pow2_pos b) as Pb. pose proof (pow2_pos (a - b)) as Pab.
  assert (Upper : n # d < F64.pow2 (a - b + 1)).
  { rewrite Ex. apply Qlt_shift_div_r; [exact Dpos |].
    replace (a - b + 1)%Z with ((a + 1) - b)%Z by lia. rewrite pow2_minus.
    apply Qlt_le_trans with (F64.pow2 (a + 1)); [exact Un |].
    pose proof (pow2_pos (a + 1)) as Pa1.
    assert (E : F64.pow2 (a + 1) == F64.pow2 (a + 1) / F64.pow2 b * F64.pow2 b) by (field; lra).
    rewrite E at 1. apply Qmult_le_l; [| exact Ld].
    apply Qlt_shift_div_l; [exact Pb | lra]. }
  assert (Lower : F64.pow2 (a - b - 1) <= n # d).
  { rewrite Ex. apply Qle_shift_div_l; [exact Dpos |].
    replace (a - b - 1)%Z with (a - (b + 1))%Z by lia. rewrite pow2_minus.
    pose proof (pow2_pos (b + 1)) as Pb1. pose proof (pow2_pos a) as Pa.
    apply Qle_trans with (F64.pow2 a); [| exact Ln].
    assert (E : F64.pow2 a == F64.pow2 a / F64.pow2 (b + 1) * F64.pow2 (b + 1)) by (field; lra).
    rewrite E at 2. apply Qmult_le_l; [| lra].
    apply Qlt_shift_div_l; [exact Pb1 | lra]. }
  destruct (Qle_bool (F64.pow2 (a - b)) (n # d)) eqn:E.
  - apply Qle_bool_iff in E. split; [exact E | exact Upper].
  - split; [exact Lower |]. replace (a - b - 1 + 1)%Z with (a - b)%Z by lia.
    destruct (Qlt_le_dec (n # d) (F64.pow2 (a - b))) as [H | H]; [exact H |].
    apply Qle_bool_iff in H. rewrite H in E. discriminate E.
Qed.

Lemma binade_monotone (x y : Q) : 0 < x -> x <= y -> (F64.binade x <= F64.binade y)%Z.
Proof.
  intros Hx Hxy.
  destruct (binade_spec x Hx) as [Lx _].
  destruct (binade_spec y) as [_ Uy]; [lra |].
  assert (H : F64.pow2 (F64.binade x) < F64.pow2 (F64.binade y + 1)) by lra.
  apply pow2_lt_inv in H. lia.
Qed.

Lemma floor_between (y : Q) :
  inject_Z (Qfloor y) <= y /\ y < inject_Z (Qfloor y) + 1.
Proof.
  pose proof (Qfloor_le y) as Lo. pose proof (Qlt_floor y) as Hi.
  rewrite inject_Z_plus in Hi. change (inject_Z 1) with 1 in Hi. split; assumption.
Qed.

Lemma nearest_even_choice (y : Q) :
  F64.nearest_even y = Qfloor y
  \/ (F64.nearest_even y = (Qfloor y + 1)%Z /\ (1 # 2) <= y - inject_Z (Qfloor y)).
Proof.
  unfold F64.nearest_even. cbv zeta.
  destruct (Qcompare_spec (y - inject_Z (Qfloor y)) (1 # 2)) as [E | E | E].
  - destruct (Z.even (Qfloor y)); [left; reflexivity | right; split; [reflexivity | lra]].
  - left. reflexivity.
  - right. split; [reflexivity | lra].
Qed.

Lemma nearest_even_lower (y : Q) (N : Z) : inject_Z N <= y -> (N <= F64.nearest_even y)%Z.
Proof.
  intros H. destruct (floor_between y) as [Lo Hi].
  assert (HN : (N <= Qfloor y)%Z).
  { assert (G : inject_Z N < inject_Z (Qfloor y + 1)).
    { rewrite inject_Z_plus. change (inject_Z 1) with 1. lra. }
    rewrite <- Zlt_Qlt in G. lia. }
  destruct (nearest_even_choice y) as [E | [E _]]; rewrite E; lia.
Qed.

Lemma nearest_even_upper (y : Q) (N : Z) : y <= inject_Z N -> (F64.nearest_even y <= N)%Z.
Proof.
  intros H. destruct (floor_between y) as [Lo Hi].
  assert (HN : (Qfloor y <= N)%Z) by (rewrite Zle_Qle; lra).
  destruct (nearest_even_choice y) as [E | [E Hr]]; rewrite E; [exact HN |].
  assert (G : inject_Z (Qfloor y) < inject_Z N) by lra.
  rewrite <- Zlt_Qlt in G. lia.
Qed.

Lemma nearest_even_monotone (y z : Q) : y <= z -> (F64.nearest_even y <= F64.nearest_even z)%Z.
Proof.
  intros H.
  destruct (floor_between y) as [Ly Hy]. destruct (floor_between z) as [Lz Hz].
  assert (Hf : (Qfloor y <= Qfloor z)%Z) by (apply Qfloor_resp_le; exact H).
  destruct (Z.eq_dec (Qfloor y) (Qfloor z)) as [E | E].
  - unfold F64.nearest_even. cbv zeta. rewrite <- E.
    destruct (Qcompare_spec (y - inject_Z (Qfloor y)) (1 # 2)) as [Ey | Ey | Ey];
      destruct (Qcompare_spec (z - inject_Z (Qfloor y)) (1 # 2)) as [Ez | Ez | Ez];
      try destruct (Z.even (Qfloor y)); try lia; lra.
  - assert (Hlt : (Qfloor y + 1 <= Qfloor z)%Z) by lia.
    apply Z.le_trans with (Qfloor y + 1)%Z.
    + destruct (nearest_even_choice y) as [Ey | [Ey _]]; rewrite Ey; lia.
    + apply Z.le_trans with (Qfloor z); [exact Hlt |].
      destruct (nearest_even_choice z) as [Ez | [Ez _]]; rewrite Ez; lia.
Qed.

Lemma ulp_exponent_monotone (x y : Q) :
  0 < x -> x <= y -> (F64.ulp_exponent x <= F64.ulp_exponent y)%Z.
Proof.
  intros Hx H. unfold F64.ulp_exponent. pose proof (binade_monotone x y Hx H). lia.
Qed.

(** A positive number rounds into the closed binade it lies in. *)
Lemma round_positive_upper (x : Q) :
  0 < x -> F64.round_positive x <= F64.pow2 (F64.ulp_exponent x + 53).
Proof.
  intros Hx. unfold F64.round_positive. cbv zeta.
  set (k := F64.ulp_exponent x).
  pose proof (pow2_pos k) as Pk.
  destruct (binade_spec x Hx) as [_ Ux].
  assert (Hk : (F64.binade x + 1 <= k + 53)%Z) by (unfold k, F64.ulp_exponent; lia).
  pose proof (pow2_le _ _ Hk) as Hp.
  rewrite (Z.add_comm k 53), pow2_plus.
  apply Qmult_le_compat_r; [| lra].
  rewrite (pow2_inject 53) by lia. rewrite <- Zle_Qle.
  apply nearest_even_upper. rewrite <- (pow2_inject 53) by lia.
  apply Qle_shift_div_r; [exact Pk |].
  rewrite <- pow2_plus, (Z.add_comm 53 k). lra.
Qed.

Lemma round_positive_lower (x : Q) :
  0 < x -> (-1022 <= F64.binade x)%Z ->
  F64.pow2 (F64.ulp_exponent x + 52) <= F64.round_positive x.
Proof.
  intros Hx Hb. unfold F64.round_positive. cbv zeta.
  set (k := F64.ulp_exponent x).
  pose proof (pow2_pos k) as Pk.
  destruct (binade_spec x Hx) as [Lx _].
  assert (Hk : (k + 52 = F64.binade x)%Z) by (unfold k, F64.ulp_exponent; lia).
  rewrite (Z.add_comm k 52), pow2_plus.
  apply Qmult_le_compat_r; [| lra].
  rewrite (pow2_inject 52) by lia. rewrite <- Zle_Qle.
  apply nearest_even_lower. rewrite <- (pow2_inject 52) by lia.
  apply Qle_shift_div_l; [exact Pk |].
  rewrite <- pow2_plus, (Z.add_comm 52 k), Hk. exact Lx.
Qed.

Lemma round_positive_monotone (x y : Q) :
  0 < x -> x <= y -> F64.round_positive x <= F64.round_positive y.
Proof.
  intros Hx H.
  assert (Hy : 0 < y) by lra.
  pose proof (ulp_exponent_monotone x y Hx H) as Hk.
  destruct (Z.eq_dec (F64.ulp_exponent x) (F64.ulp_exponent y)) as [E | E].
  - unfold F64.round_positive. cbv zeta. rewrite <- E.
    pose proof (pow2_pos (F64.ulp_exponent x)) as Pk.
    apply Qmult_le_compat_r; [| lra].
    rewrite <- Zle_Qle. apply nearest_even_monotone.
    apply Qmult_le_compat_r; [exact H |].
    apply Qlt_le_weak. apply Qinv_lt_0_compat. exact Pk.
  - assert (Hlt : (F64.ulp_exponent x + 53 <= F64.ulp_exponent y + 52)%Z) by lia.
    apply Qle_trans with (F64.pow2 (F64.ulp_exponent x + 53));
      [apply round_positive_upper; exact Hx |].
    apply Qle_trans with (F64.pow2 (F64.ulp_exponent y + 52));
      [apply pow2_le; exact Hlt |].
    apply round_positive_lower; [exact Hy |].
    unfold F64.ulp_exponent in *. lia.
Qed.

Lemma round_positive_nonneg (x : Q) : 0 < x -> 0 <= F64.round_positive x.
Proof.
  intros Hx. unfold F64.round_positive. cbv zeta.
  pose proof (pow2_pos (F64.ulp_exponent x)) as Pk.
  apply Qmult_le_0_compat; [| lra].
  change 0 with (inject_Z 0). rewrite <- Zle_Qle.
  apply nearest_even_lower. change (inject_Z 0) with 0.
  apply Qle_shift_div_l; [exact Pk | lra].
Qed.

Lemma round_of_positive (x : Q) : 0 < x -> F64.round x = F64.round_positive x.
Proof.
  intros Hx. unfold F64.round. destruct x as [[|n|n] d]; try reflexivity;
    unfold Qlt in Hx; cbn in Hx; lia.
Qed.

Lemma round_of_zero (x : Q) : x == 0 -> F64.round x = 0.
Proof.
  intros Hx. unfold F64.round. destruct x as [[|n|n] d]; try reflexivity;
    unfold Qeq in Hx; cbn in Hx; lia.
Qed.

(** Rounding keeps the order of numbers that are not negative. *)
Lemma round_monotone (x y : Q) : 0 <= x -> x <= y -> F64.round x <= F64.round y.
Proof.
  intros Hx H.
  destruct (Qlt_le_dec 0 x) as [Px | Zx].
  - rewrite (round_of_positive x Px), (round_of_positive y) by lra.
    apply round_positive_monotone; assumption.
  - rewrite (round_of_zero x) by lra.
    destruct (Qlt_le_dec 0 y) as [Py | Zy].
    + rewrite (round_of_positive y Py). apply round_positive_nonneg. exact Py.
    + rewrite (round_of_zero y) by lra. lra.
Qed.

Lemma round_compat (x y : Q) : 0 <= x -> x == y -> F64.round x == F64.round y.
Proof.
  intros Hx E. apply Qle_antisym; apply round_monotone; lra.
Qed.

Lemma round_nonneg (x : Q) : 0 <= x -> 0 <= F64.round x.
Proof.
  intros Hx. pose proof (round_monotone 0 x (Qle_refl 0) Hx) as H.
  exact H.
Qed.

Lemma round_between_doubles (x lo hi : Q) :
  0 <= lo -> F64.representable lo -> F64.representable hi ->
  lo <= x -> x <= hi -> lo <= F64.round x /\ F64.round x <= hi.
Proof.
  unfold F64.representable. intros H0 Rlo Rhi Hlo Hhi. split.
  - rewrite <- Rlo. apply round_monotone; assumption.
  - rewrite <- Rhi. apply round_monotone; [lra | assumption].
Qed.

Lemma round_to (x d : Q) : 0 <= x -> F64.representable d -> x == d -> F64.round x == d.
Proof.
  intros H0 Rd E. unfold F64.representable in Rd.
  apply Qeq_trans with (F64.round d); [apply round_compat; assumption | exact Rd].
Qed.

Lemma small_doubles :
  F64.representable 0 /\ F64.representable 1 /\ F64.representable 20
  /\ F64.representable 100.
Proof. repeat split; vm_compute; reflexivity. Qed.

(** ** The charts of the report *)

(** The running sum of doubles that are not negative stays above each of
    them. *)
Lemma total_above (items : list (string * Q)) :
  Forall (fun item => 0 <= snd item /\ F64.representable (snd item)) items ->
  forall a u : Q,
    0 <= u -> F64.representable u -> u <= a ->
    u <= fold_left (fun sum item => F64.add sum (snd item)) items a.
Proof.
  intros H. induction H as [|i items [Hi Ri] Hrest IH]; intros a u Hu Ru Hua; cbn.
  - exact Hua.
  - apply IH; [exact Hu | exact Ru |].
    unfold F64.representable in Ru. rewrite <- Ru. unfold F64.add.
    apply round_monotone; lra.
Qed.

Lemma total_bounds (items : list (string * Q)) :
  Forall (fun item => 0 <= snd item /\ F64.representable (snd item)) items ->
  Forall (fun item => snd item <= Report.total items) items.
Proof.
  unfold Report.total. intros H.
  assert (G : forall a, 0 <= a ->
            Forall (fun item => snd item
                      <= fold_left (fun sum item => F64.add sum (snd item)) items a)
                   items).
  { induction H as [|i items [Hi Ri] Hrest IH]; intros a Ha; cbn.
    - constructor.
    - assert (Hstep : snd i <= F64.add a (snd i)).
      { unfold F64.representable in Ri. rewrite <- Ri at 1. unfold F64.add.
        apply round_monotone; lra. }
      constructor.
      + apply (total_above items Hrest); [exact Hi | exact Ri | exact Hstep].
      + apply IH. lra. }
  apply G. lra.
Qed.

Lemma percentage_bounds (T v : Q) : 0 <= v -> v <= T -> 0 < T ->
  0 <= Report.percentage T v /\ Report.percentage T v <= 100.
Proof.
  intros Hv HvT HT. unfold Report.percentage.
  assert (E : Qle_bool T 0 = false).
  { destruct (Qle_bool T 0) eqn:E; [| reflexivity].
    apply Qle_bool_iff in E. lra. }
  rewrite E. cbn [negb].
  destruct small_doubles as [R0 [R1 [_ R100]]].
  assert (H0 : 0 <= v / T) by (apply Qle_shift_div_l; [exact HT | lra]).
  assert (H1 : v / T <= 1) by (apply Qle_shift_div_r; [exact HT | lra]).
  destruct (round_between_doubles (v / T) 0 1 (Qle_refl 0) R0 R1 H0 H1) as [D0 D1].
  unfold F64.mul, F64.div.
  apply round_between_doubles; try assumption; lra.
Qed.

Lemma percentage_of_total (T : Q) : 0 < T -> Report.percentage T T == 100.
Proof.
  intros HT. unfold Report.percentage.
  assert (E : Qle_bool T 0 = false).
  { destruct (Qle_bool T 0) eqn:E; [| reflexivity].
    apply Qle_bool_iff in E. lra. }
  rewrite E. cbn [negb].
  destruct small_doubles as [_ [R1 [_ R100]]].
  assert (E1 : F64.div T T == 1).
  { unfold F64.div. apply round_to; [| exact R1 |].
    - apply Qle_shift_div_l; [exact HT | lra].
    - field. lra. }
  unfold F64.mul. apply round_to; [| exact R100 |]; rewrite E1; lra.
Qed.

(** X16.  The percentages of a pie legend never divide by zero: when the
    values add up to nothing (or less) every percentage is 0.  When the
    values are doubles that are not negative and add up to a positive
    total, every percentage lies between 0 and 100, and a value equal to
    the total gets exactly 100.  The percentages need not make 100
    together: for three values of 1 each is the double below a third of
    100, and their sum stays below 100. *)
Theorem pie_percentages :
  (forall items : list (string * Q),
     Report.total items <= 0 ->
     Forall (fun row => snd row = 0) (Report.withPercentages items))
  /\ (forall items : list (string * Q),
        Forall (fun item => 0 <= snd item /\ F64.representable (snd item)) items ->
        0 < Report.total items ->
        Forall (fun row => 0 <= snd row /\ snd row <= 100) (Report.withPercentages items))
  /\ (forall total : Q, 0 < total -> Report.percentage total total == 100)
  /\ (forall items : list (string * Q),
        List.length (Report.withPercentages items) = List.length items)
  /\ (let rows := Report.withPercentages [("Approved", 1); ("Pending", 1); ("Rejected", 1)] in
      Forall (fun row => snd row == F64.round (3333333333333333 # 100000000000000)
                         /\ snd row < 100 / 3) rows
      /\ percentages_sum rows < 100).
Proof.
  split; [| split; [| split; [| split]]].
  - intros items HT. unfold Report.withPercentages, Report.percentage.
    apply Qle_bool_iff in HT. rewrite HT. cbn [negb].
    apply Forall_map. apply Forall_forall. intros i _. reflexivity.
  - intros items Hnn HT. pose proof (total_bounds items Hnn) as Hle.
    unfold Report.withPercentages. apply Forall_map.
    rewrite Forall_forall in Hnn, Hle |- *. intros i Hi. cbn [snd].
    apply percentage_bounds; [apply (Hnn i Hi) | apply (Hle i Hi) | exact HT].
  - exact percentage_of_total.
  - intros items. apply length_map.
  - cbv zeta. split.
    + repeat constructor; vm_compute; reflexivity.
    + vm_compute. reflexivity.
Qed.

Lemma pie_percentages_witness :
  Forall (fun row => 0 <= snd row /\ snd row <= 100)
    (Report.withPercentages [("Approved", 6); ("Pending", 3); ("Rejected", 1)])
  /\ Report.percentage 7 7 == 100
  /\ Forall (fun row => snd row = 0) (Report.withPercentages [("Approved", 0)]).
Proof.
  destruct pie_percentages as [H1 [H2 [H3 _]]].
  split; [| split].
  - apply (H2 [("Approved", 6); ("Pending", 3); ("Rejected", 1)]).
    + repeat constructor; try discriminate; vm_compute; reflexivity.
    + vm_compute. reflexivity.
  - apply (H3 7). reflexivity.
  - apply (H1 [("Approved", 0)]). discriminate.
Defined.

Lemma max_with_one_from (values : list Q) (a : Q) :
  a <= fold_left (fun m v => if Qle_bool m v then v else m) values a
  /\ Forall (fun v => v <= fold_left (fun m v => if Qle_bool m v then v else m) values a)
            values
  /\ (fold_left (fun m v => if Qle_bool m v then v else m) values a = a
      \/ In (fold_left (fun m v => if Qle_bool m v then v else m) values a) values).
Proof.
  revert a. induction values as [|x values IH]; intros a; cbn.
  - split; [lra | split; [constructor | left; reflexivity]].
  - destruct (Qle_bool a x) eqn:E.
    + apply Qle_bool_iff in E. destruct (IH x) as [H1 [H2 H3]].
      split; [lra |]. split; [constructor; [exact H1 | exact H2] |].
      right. destruct H3 as [H3 | H3]; [left; symmetry; exact H3 | right; exact H3].
    + assert (Hx : x <= a).
      { destruct (Qlt_le_dec a x) as [H | H]; [| exact H].
        assert (Hc : Qle_bool a x = true) by (apply Qle_bool_iff; lra).
        rewrite Hc in E. discriminate E. }
      destruct (IH a) as [H1 [H2 H3]].
      split; [exact H1 |]. split; [constructor; [lra | exact H2] |].
      destruct H3 as [H3 | H3]; [left; exact H3 | right; right; exact H3].
Qed.

Lemma round_between (x : Q) (lo hi : Z) :
  inject_Z lo <= x -> x <= inject_Z hi -> (lo <= Report.round x <= hi)%Z.
Proof.
  intros Hlo Hhi. unfold Report.round.
  pose proof (Qfloor_le (x + (1 # 2))) as Flo.
  pose proof (Qlt_floor (x + (1 # 2))) as Fhi.
  rewrite inject_Z_plus in Fhi. change (inject_Z 1) with 1 in Fhi.
  assert (H1 : inject_Z lo < inject_Z (Qfloor (x + (1 # 2)) + 1)).
  { rewrite inject_Z_plus. change (inject_Z 1) with 1. lra. }
  assert (H2 : inject_Z (Qfloor (x + (1 # 2))) < inject_Z (hi + 1)).
  { rewrite inject_Z_plus. change (inject_Z 1) with 1. lra. }
  rewrite <- Zlt_Qlt in H1, H2. lia.
Qed.

Lemma bar_bounds (max v : Q) :
  0 < max -> 0 <= v -> v <= max ->
  (0 <= Report.barWidth max v <= 100)%Z /\ (1 <= Report.blocks max v <= 20)%Z.
Proof.
  intros Hmax Hv Hvm.
  destruct small_doubles as [R0 [R1 [R20 R100]]].
  assert (H0 : 0 <= v / max) by (apply Qle_shift_div_l; lra).
  assert (H1 : v / max <= 1) by (apply Qle_shift_div_r; lra).
  destruct (round_between_doubles (v / max) 0 1 (Qle_refl 0) R0 R1 H0 H1) as [D0 D1].
  assert (Hw : (0 <= Report.barWidth max v <= 100)%Z).
  { unfold Report.barWidth, F64.mul, F64.div.
    destruct (round_between_doubles (F64.round (v / max) * 100) 0 100 (Qle_refl 0) R0 R100)
      as [M0 M1]; [lra | lra |].
    apply round_between; [change (inject_Z 0) with 0 | change (inject_Z 100) with 100];
      assumption. }
  split; [exact Hw |].
  unfold Report.blocks.
  assert (Hb : (0 <= Report.round (F64.div (inject_Z (Report.barWidth max v)) 5) <= 20)%Z).
  { destruct Hw as [Hw0 Hw1]. rewrite Zle_Qle in Hw0, Hw1.
    change (inject_Z 0) with 0 in Hw0. change (inject_Z 100) with 100 in Hw1.
    assert (Q0 : 0 <= inject_Z (Report.barWidth max v) / 5)
      by (apply Qle_shift_div_l; lra).
    assert (Q1 : inject_Z (Report.barWidth max v) / 5 <= 20)
      by (apply Qle_shift_div_r; lra).
    unfold F64.div.
    destruct (round_between_doubles (inject_Z (Report.barWidth max v) / 5) 0 20
                (Qle_refl 0) R0 R20 Q0 Q1) as [B0 B1].
    apply round_between; [change (inject_Z 0) with 0 | change (inject_Z 20) with 20];
      assumption. }
  lia.
Qed.

(** X17.  A bar of the chart is never drawn with fewer than one block.
    The scale is never 0; when no maximum is passed it is the largest value
    or 1, whichever is larger.
    Every value that is not negative then gets a width between 0 and 100
    and between 1 and 20 blocks, and a value equal to the scale gets width
    100 and 20 blocks.  Widths follow the rounding of doubles: 23 on a
    scale of 40 gets width 57 and 11 blocks, where the exact quotient 57.5
    would give 58. *)
Theorem bar_chart_blocks :
  (forall max value : Q, (1 <= Report.blocks max value)%Z)
  /\ (forall (maxValue : option Q) (values : list Q),
        ~ Report.chart_max maxValue values == 0)
  /\ (forall values : list Q,
        1 <= Report.chart_max None values
        /\ Forall (fun v => v <= Report.chart_max None values) values
        /\ (Report.chart_max None values = 1 \/ In (Report.chart_max None values) values))
  /\ (forall (values : list Q) (v : Q),
        In v values -> 0 <= v ->
        let max := Report.chart_max None values in
        (0 <= Report.barWidth max v <= 100)%Z /\ (1 <= Report.blocks max v <= 20)%Z)
  /\ (forall max : Q, 0 < max ->
        Report.barWidth max max = 100%Z /\ Report.blocks max max = 20%Z)
  /\ (Report.barWidth 40 23 = 57%Z /\ Report.blocks 40 23 = 11%Z
      /\ Report.round (23 / 40 * 100) = 58%Z).
Proof.
  split; [| split; [| split; [| split; [| split]]]].
  - intros max value. unfold Report.blocks. lia.
  - intros maxValue values. unfold Report.chart_max.
    assert (H1 : ~ Report.max_with_one values == 0).
    { unfold Report.max_with_one. destruct (max_with_one_from values 1) as [H _].
      intros E. rewrite E in H. lra. }
    destruct maxValue as [m|]; [| exact H1].
    destruct (Qeq_bool m 0) eqn:E; [exact H1 |].
    apply Qeq_bool_neq. exact E.
  - intros values. unfold Report.chart_max, Report.max_with_one.
    apply max_with_one_from.
  - intros values v Hin Hv max.
    assert (Hmax : 1 <= max /\ v <= max).
    { subst max. unfold Report.chart_max, Report.max_with_one.
      destruct (max_with_one_from values 1) as [H1 [H2 _]]. split; [exact H1 |].
      rewrite Forall_forall in H2. apply H2. exact Hin. }
    destruct Hmax as [Hm1 Hvm].
    apply bar_bounds; lra.
  - intros max Hmax.
    destruct small_doubles as [_ [R1 [_ R100]]].
    assert (E1 : F64.div max max == 1).
    { unfold F64.div. apply round_to; [| exact R1 |].
      - apply Qle_shift_div_l; lra.
      - field. lra. }
    assert (E2 : F64.mul (F64.div max max) 100 == 100).
    { unfold F64.mul. apply round_to; [| exact R100 |]; rewrite E1; lra. }
    assert (Hw : Report.barWidth max max = 100%Z).
    { unfold Report.barWidth, Report.round.
      assert (E : F64.mul (F64.div max max) 100 + (1 # 2) == 201 # 2) by (rewrite E2; reflexivity).
      rewrite (Qfloor_comp _ _ E). reflexivity. }
    split; [exact Hw |]. unfold Report.blocks. rewrite Hw. vm_compute. reflexivity.
  - repeat split; vm_compute; reflexivity.
Qed.

Lemma bar_chart_blocks_witness :
  (0 <= Report.barWidth (Report.chart_max None sample_values) (12 # 1) <= 100)%Z
  /\ (1 <= Report.blocks (Report.chart_max None sample_values) (12 # 1) <= 20)%Z
  /\ Report.blocks (40 # 1) (40 # 1) = 20%Z.
Proof.
  destruct bar_chart_blocks as [_ [_ [_ [H3 [H4 _]]]]].
  pose proof (H3 sample_values (12 # 1) (or_introl eq_refl)) as H. cbv zeta in H.
  split; [apply H; discriminate | split; [apply H; discriminate |]].
  apply (H4 (40 # 1)). reflexivity.
Defined.
